(** * Bangla time announcer: a shallow embedding of [bangla_time_announcer.py]

    The program announces the wall-clock time by playing pre-recorded
    clips.  This development embeds

    - the two module-level tables [AUDIO_FILES] and [TIME_PERIODS];
    - the resolver [get_audio_files_for_time];
    - the two playback loops, [announce_time], [check_audio_files];
    - [run_announcer]: preflight, the computation of the next
      announcement instant, the chunked wait and the main loop;

    and proves the properties the specification states about them.

    Integers are [Z]; Python's [%] and [//] with a positive divisor are
    [Z.modulo] and [Z.div].  A Python function that can raise returns a
    [result]; code that reads or writes the process state (the clock, the
    global [running], the file system, standard output, the audio
    device) lives in the monad [M] over [world]. *)

From Stdlib Require Import ZArith List Lia Bool Ascii String.
From stdpp Require Import base strings list pretty gmap.
From Equations Require Import Equations.

Local Open Scope Z_scope.

(** ** Python dictionaries *)

(** A dict literal, in insertion order (the order [.values()] walks). *)
Definition dict (K V : Type) : Type := list (K * V).

Fixpoint dict_get {K V : Type} `{EqDecision K} (d : dict K V) (k : K) : option V :=
  match d with
  | [] => None
  | (k', v) :: d' => if decide (k = k') then Some v else dict_get d' k
  end.

Definition dict_keys {K V : Type} (d : dict K V) : list K := d.*1.
Definition dict_values {K V : Type} (d : dict K V) : list V := d.*2.

(** ** The module-level tables *)

Definition AUDIO_FILES : dict string string :=
  [ ("intro", "ekhon_somoy.wav");
    ("hour_1", "ekta.wav");
    ("hour_2", "duita.wav");
    ("hour_3", "tinta.wav");
    ("hour_4", "charta.wav");
    ("hour_5", "panchta.wav");
    ("hour_6", "choyta.wav");
    ("hour_7", "shatta.wav");
    ("hour_8", "atta.wav");
    ("hour_9", "noyta.wav");
    ("hour_10", "doshta.wav");
    ("hour_11", "egarota.wav");
    ("hour_12", "barota.wav");
    ("minute_15", "poner_minute.wav");
    ("minute_30", "trish_minute.wav");
    ("minute_45", "poytallish_minute.wav");
    ("period_dawn", "bhor.wav");
    ("period_morning", "sokal.wav");
    ("period_noon", "dupur.wav");
    ("period_evening", "bikal.wav");
    ("period_dusk", "shondha.wav");
    ("period_night", "rat.wav") ]%string.

(** The items of the [TIME_PERIODS] literal, as written. *)
Definition TIME_PERIODS_items : dict Z string :=
  [ (4, "period_dawn"); (5, "period_dawn");
    (6, "period_morning"); (7, "period_morning"); (8, "period_morning");
    (9, "period_morning"); (10, "period_morning"); (11, "period_morning");
    (12, "period_noon"); (13, "period_noon"); (14, "period_noon"); (15, "period_noon");
    (16, "period_evening"); (17, "period_evening");
    (18, "period_dusk"); (19, "period_dusk");
    (20, "period_night"); (21, "period_night"); (22, "period_night"); (23, "period_night");
    (0, "period_night"); (1, "period_night"); (2, "period_night"); (3, "period_night") ]%string.

(** The dict itself: only ever indexed by key, so a finite map. *)
Definition TIME_PERIODS : gmap Z string := list_to_map TIME_PERIODS_items.

(** The six periods of the day named by the specification. *)
Definition six_periods : gset string :=
  {[ "period_dawn"; "period_morning"; "period_noon";
     "period_evening"; "period_dusk"; "period_night" ]}%string.

(** ** Exceptions and results *)

Inductive exn : Type :=
| KeyError_int (k : Z)          (* TIME_PERIODS[k] with k absent *)
| KeyError_str (k : string)     (* AUDIO_FILES[k] with k absent *)
| ValueError                    (* datetime.replace out of range *)
| OverflowError                 (* datetime + timedelta out of range *)
| BackendError (msg : string).  (* raised by pygame, subprocess or os *)

Inductive result (A : Type) : Type :=
| Ok (a : A)
| Raise (e : exn).
Arguments Ok {A} a.
Arguments Raise {A} e.

(** ** Naive datetimes

    [datetime.now()] is a naive local time.  The calendar date is kept
    as its proleptic ordinal ([date.toordinal()]), which is what
    datetime arithmetic works on; ordinals run from 1 (0001-01-01) to
    [MAXORDINAL] (9999-12-31). *)

Record datetime : Type := Datetime {
  ordinal : Z;
  hour : Z;
  minute : Z;
  second : Z;
  microsecond : Z
}.

Definition MAXORDINAL : Z := 3652059.

Definition valid_datetime (t : datetime) : Prop :=
  1 <= ordinal t <= MAXORDINAL /\
  0 <= hour t < 24 /\ 0 <= minute t < 60 /\
  0 <= second t < 60 /\ 0 <= microsecond t < 1000000.

Definition valid_datetimeb (t : datetime) : bool :=
  (1 <=? ordinal t) && (ordinal t <=? MAXORDINAL) &&
  (0 <=? hour t) && (hour t <? 24) && (0 <=? minute t) && (minute t <? 60) &&
  (0 <=? second t) && (second t <? 60) &&
  (0 <=? microsecond t) && (microsecond t <? 1000000).

(** Microseconds since the midnight that starts ordinal 0. *)
Definition to_us (t : datetime) : Z :=
  (((ordinal t * 24 + hour t) * 60 + minute t) * 60 + second t) * 1000000
  + microsecond t.

Definition of_us (c : Z) : datetime :=
  {| ordinal := c / 86400000000;
     hour := (c / 3600000000) mod 24;
     minute := (c / 60000000) mod 60;
     second := (c / 1000000) mod 60;
     microsecond := c mod 1000000 |}.

(** Datetimes compare chronologically. *)
Definition dt_lt (a b : datetime) : Prop := to_us a < to_us b.
Definition dt_le (a b : datetime) : Prop := to_us a <= to_us b.

(** ** Minute rounding (lines 84-95 of the source)

    Returns [(minute_rounded, hour_12, hour_24)] after the if/elif
    chain. *)
Definition round_minute (hour_24 hour_12 minute : Z) : Z * Z * Z :=
  if minute <? 8 then (0, hour_12, hour_24)
  else if minute <? 23 then (15, hour_12, hour_24)
  else if minute <? 38 then (30, hour_12, hour_24)
  else if minute <? 53 then (45, hour_12, hour_24)
  else (0, (hour_12 mod 12) + 1, (hour_24 + 1) mod 24).

(** [now.hour % 12], with 0 replaced by 12. *)
Definition hour_12_of (h : Z) : Z :=
  let hour_12 := h mod 12 in
  if hour_12 =? 0 then 12 else hour_12.

(** ** Datetime arithmetic used by the scheduler *)

(** [t.replace(minute=m, second=s, microsecond=u)]: the fields are range
    checked, date and hour are kept. *)
Definition dt_replace (t : datetime) (m s u : Z) : result datetime :=
  if (0 <=? m) && (m <? 60) && (0 <=? s) && (s <? 60) && (0 <=? u) && (u <? 1000000)
  then Ok {| ordinal := ordinal t; hour := hour t;
             minute := m; second := s; microsecond := u |}
  else Raise ValueError.

(** [t + timedelta(microseconds=d)]: the sum is renormalised from the
    total count, and a day outside [1, MAXORDINAL] overflows. *)
Definition dt_add (t : datetime) (d : Z) : result datetime :=
  let r := of_us (to_us t + d) in
  if (0 <? ordinal r) && (ordinal r <=? MAXORDINAL) then Ok r
  else Raise OverflowError.

Definition one_hour : Z := 3600000000.

Definition result_bind {A B : Type} (r : result A) (k : A -> result B) : result B :=
  match r with
  | Ok a => k a
  | Raise e => Raise e
  end.

(** Lines 234-249: the instant of the next announcement. *)
Definition next_announcement (interval : Z) (now : datetime) : result datetime :=
  if interval =? 15 then
    let next_minute := ((minute now / 15) + 1) * 15 in
    if next_minute =? 60 then
      result_bind (dt_replace now 0 0 0) (fun t => dt_add t one_hour)
    else
      dt_replace now next_minute 0 0
  else if interval =? 30 then
    if minute now <? 30 then
      dt_replace now 30 0 0
    else
      result_bind (dt_replace now 0 0 0) (fun t => dt_add t one_hour)
  else
    result_bind (dt_replace now 0 0 0) (fun t => dt_add t one_hour).

(** A tick boundary for [interval]. *)
Definition aligned (interval : Z) (t : datetime) : Prop :=
  minute t mod interval = 0 /\ second t = 0 /\ microsecond t = 0.

(** ** Paths *)

Definition starts_with_sep (s : string) : bool :=
  match s with
  | String c _ => bool_decide (c = "/"%char)
  | EmptyString => false
  end.

Fixpoint ends_with_sep (s : string) : bool :=
  match s with
  | EmptyString => false
  | String c EmptyString => bool_decide (c = "/"%char)
  | String _ s' => ends_with_sep s'
  end.

(** [os.path.join(a, b)] on POSIX. *)
Definition os_path_join (a b : string) : string :=
  if starts_with_sep b then b
  else if bool_decide (a = ""%string) || ends_with_sep a then a +:+ b
  else a +:+ "/" +:+ b.

(** ** The process and its surroundings *)

(** Lines written to standard output; each constructor is one [print]
    call of the source with the values its format string interpolates. *)
Inductive message : Type :=
| MsgAnnouncing (now : datetime)
| MsgNotFound (full_path : string)
| MsgPlayError (audio_file : string) (e : exn)
| MsgStopping
| MsgCreatedDir (dir : string)
| MsgCreateDirError (e : exn)
| MsgNoPygame
| MsgNoBackend
| MsgInstallHint
| MsgMissingCount (n : nat) (dir : string)
| MsgMissingFile (file : string)
| MsgMore (n : nat)
| MsgPleaseAdd
| MsgStarted (interval : Z)
| MsgAudioDir (dir : string)
| MsgPressCtrlC.

(** What the process does that can be seen from outside, oldest first. *)
Inductive event : Type :=
| Print (m : message)
| Sleep (us : Z)             (* time.sleep(us / 10^6) *)
| Play (full_path : string)  (* the backend was asked to play the file *)
| Delay (ms : Z).            (* pygame.time.delay(ms) *)

(** The events of an announcement or of the scheduling loop: the
    announcement line, the start-up banner of the loop, a sleep, a clip
    handed to the backend. *)
Definition is_scheduling (e : event) : bool :=
  match e with
  | Print (MsgAnnouncing _) | Print (MsgStarted _) => true
  | Sleep _ | Play _ | Delay _ => true
  | Print _ => false
  end.

Record world : Type := World {
  clock : Z;            (* wall clock, read by datetime.now(), in microseconds *)
  running : bool;       (* the global [running] *)
  fs : gset string;     (* the paths that exist *)
  trace : list event
}.

(** How one run of the external player ends. *)
Record outcome : Type := Outcome {
  elapsed : Z;
  raised : option exn
}.

(** Everything the program does not decide itself.  Calls that block are
    numbered by the length of the trace when they start. *)
Record environment : Type := Environment {
  PYGAME_AVAILABLE : bool;
  AUDIO_DIR : string;                  (* os.path.expanduser of the default *)
  aplay_probe : option exn;            (* subprocess.run(["aplay", "--version"]) *)
  makedirs_outcome : option exn;       (* os.makedirs(AUDIO_DIR) *)
  mixer_init : nat -> option exn;      (* pygame.mixer.init() *)
  mixer_sound : nat -> string -> option exn;
                                       (* pygame.mixer.Sound(p), then sound.play() *)
  mixer_busy : nat -> string -> nat;   (* how often get_busy() then answers True *)
  aplay : nat -> string -> outcome;    (* subprocess.run(["aplay", p]) *)
  sigint : nat -> bool                 (* SIGINT arrives during that call *)
}.

Definition M (A : Type) : Type := world -> result A * world.

#[global] Instance M_ret : MRet M := fun A a w => (Ok a, w).
#[global] Instance M_bind : MBind M := fun A B k m w =>
  match m w with
  | (Ok a, w') => k a w'
  | (Raise e, w') => (Raise e, w')
  end.

Definition raise {A : Type} (e : exn) : M A := fun w => (Raise e, w).

Definition lift {A : Type} (r : result A) : M A := fun w => (r, w).

(** [try: m except Exception as e: h e] *)
Definition try_except {A : Type} (m : M A) (h : exn -> M A) : M A := fun w =>
  match m w with
  | (Ok a, w') => (Ok a, w')
  | (Raise e, w') => h e w'
  end.

(** [for x in l: body x] *)
Fixpoint for_each {A : Type} (l : list A) (body : A -> M unit) : M unit :=
  match l with
  | [] => mret tt
  | x :: l' => body x ;; for_each l' body
  end.

Definition log (e : event) (w : world) : world :=
  {| clock := clock w; running := running w; fs := fs w; trace := trace w ++ [e] |}.

(** Several events at once. *)
Definition logs (evs : list event) (w : world) : world :=
  {| clock := clock w; running := running w; fs := fs w; trace := trace w ++ evs |}.

Definition advance (d : Z) (w : world) : world :=
  {| clock := clock w + d; running := running w; fs := fs w; trace := trace w |}.

Definition print (m : message) : M unit := fun w => (Ok tt, log (Print m) w).

Definition datetime_now : M datetime := fun w => (Ok (of_us (clock w)), w).

Definition get_running : M bool := fun w => (Ok (running w), w).

Definition os_path_exists (p : string) : M bool := fun w =>
  (Ok (bool_decide (p ∈ fs w)), w).

(** [running = b] on the global. *)
Definition set_running (b : bool) : M unit := fun w =>
  (Ok tt, {| clock := clock w; running := b; fs := fs w; trace := trace w |}).

(** Lines 164-168. *)
Definition signal_handler : M unit :=
  print MsgStopping ;;
  set_running false.

(** ** The resolver *)

(** [AUDIO_FILES[key]] *)
Definition audio_file (key : string) : M string :=
  match dict_get AUDIO_FILES key with
  | Some f => mret f
  | None => raise (KeyError_str key)
  end.

(** [TIME_PERIODS[h]] *)
Definition time_period (h : Z) : M string :=
  match TIME_PERIODS !! h with
  | Some p => mret p
  | None => raise (KeyError_int h)
  end.

(** Lines 74-118.  [files] is a fresh local list; [append] is [++ [_]]. *)
Definition get_audio_files_for_time : M (list string) :=
  now ← datetime_now;
  let hour_24 := hour now in
  let hour_12 := hour_12_of (hour now) in
  let minute := minute now in
  let '(minute_rounded, hour_12, hour_24) := round_minute hour_24 hour_12 minute in
  let files := [] in
  f ← audio_file "intro";
  let files := files ++ [f] in
  period ← time_period hour_24;
  f ← audio_file period;
  let files := files ++ [f] in
  f ← audio_file ("hour_" +:+ pretty hour_12);
  let files := files ++ [f] in
  if minute_rounded =? 15 then
    f ← audio_file "minute_15"; mret (files ++ [f])
  else if minute_rounded =? 30 then
    f ← audio_file "minute_30"; mret (files ++ [f])
  else if minute_rounded =? 45 then
    f ← audio_file "minute_45"; mret (files ++ [f])
  else mret files.

(** How [run_announcer] ends: by returning, or still inside [while
    running] when the iteration budget of the model is used up. *)
Inductive status : Type := Returned | Looping.

(** The longest single sleep, 10 seconds. *)
Definition chunk : Z := 10000000.

Section Program.
Context (env : environment).

(** A call that blocks for [d] microseconds and shows as event [e].
    When SIGINT arrives during the call, the handler runs before the
    call returns.  The handler run between two statements is the
    matter of [Async] below. *)
Definition blocking (e : event) (d : Z) : M unit := fun w =>
  let k := length (trace w) in
  let w1 := advance d (log e w) in
  if sigint env k then signal_handler w1 else (Ok tt, w1).

(** [time.sleep] *)
Definition time_sleep (d : Z) : M unit := blocking (Sleep d) d.

(** [subprocess.run(["aplay", full_path])]: the call blocks until the
    player has ended, and may raise. *)
Definition subprocess_run_aplay (full_path : string) : M unit := fun w =>
  let o := aplay env (length (trace w)) full_path in
  (blocking (Play full_path) (elapsed o) ;;
   match raised o with
   | Some e => raise e
   | None => mret tt
   end) w.

(** [sound = pygame.mixer.Sound(full_path); sound.play()]: either may
    raise; [play] returns at once. *)
Definition pygame_sound_play (full_path : string) : M unit := fun w =>
  match mixer_sound env (length (trace w)) full_path with
  | Some e => (Raise e, w)
  | None => (Ok tt, log (Play full_path) w)
  end.

(** [while pygame.mixer.get_busy(): pygame.time.delay(100)], the mixer
    answering True [polls] times. *)
Fixpoint wait_while_busy (polls : nat) : M unit :=
  match polls with
  | O => mret tt
  | S polls' => blocking (Delay 100) 100000 ;; wait_while_busy polls'
  end.

Definition pygame_mixer_init : M unit := fun w =>
  match mixer_init env (length (trace w)) with
  | Some e => (Raise e, w)
  | None => (Ok tt, w)
  end.

Definition os_makedirs (p : string) : M unit := fun w =>
  match makedirs_outcome env with
  | Some e => (Raise e, w)
  | None => (Ok tt, {| clock := clock w; running := running w;
                       fs := {[ p ]} ∪ fs w; trace := trace w |})
  end.

Definition run_aplay_version : M unit :=
  match aplay_probe env with
  | Some e => raise e
  | None => mret tt
  end.

(** Body of the loop of lines 124-137. *)
Definition pygame_clip (audio_file : string) : M unit :=
  let full_path := os_path_join (AUDIO_DIR env) audio_file in
  ex ← os_path_exists full_path;
  if negb ex then
    print (MsgNotFound full_path)
  else
    try_except (fun w =>
                  (pygame_sound_play full_path ;;
                   wait_while_busy (mixer_busy env (length (trace w)) full_path)) w)
               (fun e => print (MsgPlayError audio_file e)).

(** Lines 120-137. *)
Definition play_audio_sequence_pygame (audio_files : list string) : M unit :=
  pygame_mixer_init ;;
  for_each audio_files pygame_clip.

(** Body of the loop of lines 141-150. *)
Definition aplay_clip (audio_file : string) : M unit :=
  let full_path := os_path_join (AUDIO_DIR env) audio_file in
  ex ← os_path_exists full_path;
  if negb ex then
    print (MsgNotFound full_path)
  else
    try_except (subprocess_run_aplay full_path)
               (fun e => print (MsgPlayError audio_file e)).

(** Lines 139-150. *)
Definition play_audio_sequence_aplay (audio_files : list string) : M unit :=
  for_each audio_files aplay_clip.

(** Lines 152-162. *)
Definition announce_time : M unit :=
  now ← datetime_now;
  print (MsgAnnouncing now) ;;
  audio_files ← get_audio_files_for_time;
  if PYGAME_AVAILABLE env then play_audio_sequence_pygame audio_files
  else play_audio_sequence_aplay audio_files.

(** The loop of lines 182-185, [missing_files] being the list built so far. *)
Fixpoint collect_missing (names missing_files : list string) : M (list string) :=
  match names with
  | [] => mret missing_files
  | file_name :: names' =>
      let file_path := os_path_join (AUDIO_DIR env) file_name in
      ex ← os_path_exists file_path;
      collect_missing names'
        (if negb ex then missing_files ++ [file_name] else missing_files)
  end.

(** Lines 170-187.  The [return] inside [except] is the [Some] case. *)
Definition check_audio_files : M (list string) :=
  let missing_files := [] in
  ex ← os_path_exists (AUDIO_DIR env);
  early ← (if negb ex then
             try_except
               (os_makedirs (AUDIO_DIR env) ;;
                print (MsgCreatedDir (AUDIO_DIR env)) ;;
                mret None)
               (fun e =>
                  print (MsgCreateDirError e) ;;
                  mret (Some (dict_values AUDIO_FILES)))
           else mret None);
  match early with
  | Some all => mret all
  | None => collect_missing (dict_values AUDIO_FILES) missing_files
  end.

(** Lines 254-260.  [wait_seconds] counts microseconds; the loop ends
    because the number of chunks still to sleep goes down. *)
Equations? wait_loop (wait_seconds : Z) : M unit
  by wf (Z.to_nat ((wait_seconds + chunk - 1) / chunk)) lt :=
wait_loop wait_seconds with decide (0 < wait_seconds) := {
  | left Hpos =>
      r ← get_running;
      if (r : bool) then
        let sleep_time := Z.min wait_seconds chunk in
        time_sleep sleep_time ;;
        let wait_seconds' := wait_seconds - sleep_time in
        r ← get_running;
        if negb r then mret tt
        else wait_loop wait_seconds'
      else mret tt
  | right Hneg => mret tt }.
Proof.
  subst wait_seconds' sleep_time. unfold chunk.
  apply Z2Nat.inj_lt; Z.div_mod_to_equations; lia.
Qed.

(** One turn of [while running], lines 231-264. *)
Definition loop_body (interval : Z) : M unit :=
  now ← datetime_now;
  next_time ← lift (next_announcement interval now);
  let wait_seconds := to_us next_time - to_us now in
  wait_loop wait_seconds ;;
  r ← get_running;
  if (r : bool) then announce_time else mret tt.

(** [while running: ...], at most [fuel] turns. *)
Fixpoint main_loop (fuel : nat) (interval : Z) : M status :=
  r ← get_running;
  if (r : bool) then
    match fuel with
    | O => mret Looping
    | S fuel' => loop_body interval ;; main_loop fuel' interval
    end
  else mret Returned.

(** Lines 208-215: the report of the missing files. *)
Definition report_missing (missing_files : list string) : M unit :=
  print (MsgMissingCount (length missing_files) (AUDIO_DIR env)) ;;
  for_each (take 10 missing_files) (fun file => print (MsgMissingFile file)) ;;
  (if Nat.ltb 10 (length missing_files)
   then print (MsgMore (length missing_files - 10)%nat)
   else mret tt) ;;
  print MsgPleaseAdd.

(** Lines 189-264. *)
Definition run_announcer (fuel : nat) (interval : Z) (test_only : bool) : M status :=
  usable ← (if negb (PYGAME_AVAILABLE env) then
              print MsgNoPygame ;;
              try_except (run_aplay_version ;; mret true)
                         (fun _ => print MsgNoBackend ;; print MsgInstallHint ;; mret false)
            else mret true);
  if negb usable then mret Returned
  else
    missing_files ← check_audio_files;
    if negb (bool_decide (missing_files = [])) then
      report_missing missing_files ;;
      mret Returned
    else if test_only then
      announce_time ;;
      mret Returned
    else
      print (MsgStarted interval) ;;
      print (MsgAudioDir (AUDIO_DIR env)) ;;
      print MsgPressCtrlC ;;
      announce_time ;;
      main_loop fuel interval.

End Program.

(** ** The handler between two statements

    [blocking] runs the handler inside a call that blocks.  CPython also
    runs a Python-level handler between two bytecode instructions of the
    main thread, for instance after the test of line 263 and before the
    announcement of line 264 begins.  The handler prints its line and
    clears the flag, so the place where it runs between two statements
    shows only through the next statement that prints, blocks, calls
    the backend, may raise or reads the flag.  [Async] has the playback
    loops, the announcement and the scheduling loop once more, with a
    point of delivery before each such statement, named by its line in
    the source: [pending k line] tells whether the signal is delivered
    there when the trace has [k] entries.  A second signal at the same
    point shows as a delivery at the next one. *)
Module Async.
Section Program.
Context (env : environment) (pending : nat -> Z -> bool).

Definition deliver (line : Z) : M unit := fun w =>
  if pending (length (trace w)) line then signal_handler w else (Ok tt, w).

(** Lines 134-135. *)
Fixpoint wait_while_busy (polls : nat) : M unit :=
  match polls with
  | O => mret tt
  | S polls' =>
      deliver 135 ;;
      blocking env (Delay 100) 100000 ;;
      wait_while_busy polls'
  end.

(** Body of the loop of lines 124-137. *)
Definition pygame_clip (audio_file : string) : M unit :=
  let full_path := os_path_join (AUDIO_DIR env) audio_file in
  ex ← os_path_exists full_path;
  if negb ex then
    deliver 127 ;;
    print (MsgNotFound full_path)
  else
    try_except (fun w =>
                  (deliver 131 ;;
                   pygame_sound_play env full_path ;;
                   wait_while_busy (mixer_busy env (length (trace w)) full_path)) w)
               (fun e => deliver 137 ;; print (MsgPlayError audio_file e)).

(** Lines 120-137. *)
Definition play_audio_sequence_pygame (audio_files : list string) : M unit :=
  deliver 122 ;;
  pygame_mixer_init env ;;
  for_each audio_files pygame_clip.

(** Body of the loop of lines 141-150. *)
Definition aplay_clip (audio_file : string) : M unit :=
  let full_path := os_path_join (AUDIO_DIR env) audio_file in
  ex ← os_path_exists full_path;
  if negb ex then
    deliver 144 ;;
    print (MsgNotFound full_path)
  else
    try_except (deliver 148 ;; subprocess_run_aplay env full_path)
               (fun e => deliver 150 ;; print (MsgPlayError audio_file e)).

(** Lines 139-150. *)
Definition play_audio_sequence_aplay (audio_files : list string) : M unit :=
  for_each audio_files aplay_clip.

(** Lines 152-162. *)
Definition announce_time : M unit :=
  now ← datetime_now;
  deliver 155 ;;
  print (MsgAnnouncing now) ;;
  audio_files ← get_audio_files_for_time;
  if PYGAME_AVAILABLE env then play_audio_sequence_pygame audio_files
  else play_audio_sequence_aplay audio_files.

(** Lines 254-260. *)
Equations? wait_loop (wait_seconds : Z) : M unit
  by wf (Z.to_nat ((wait_seconds + chunk - 1) / chunk)) lt :=
wait_loop wait_seconds with decide (0 < wait_seconds) := {
  | left Hpos =>
      deliver 254 ;;
      r ← get_running;
      if (r : bool) then
        let sleep_time := Z.min wait_seconds chunk in
        deliver 257 ;;
        time_sleep env sleep_time ;;
        let wait_seconds' := wait_seconds - sleep_time in
        deliver 259 ;;
        r ← get_running;
        if negb r then mret tt
        else wait_loop wait_seconds'
      else mret tt
  | right Hneg => mret tt }.
Proof.
  subst wait_seconds' sleep_time. unfold chunk.
  apply Z2Nat.inj_lt; Z.div_mod_to_equations; lia.
Qed.

(** One turn of [while running], lines 231-264. *)
Definition loop_body (interval : Z) : M unit :=
  deliver 231 ;;
  now ← datetime_now;
  next_time ← lift (next_announcement interval now);
  let wait_seconds := to_us next_time - to_us now in
  wait_loop wait_seconds ;;
  deliver 263 ;;
  r ← get_running;
  if (r : bool) then announce_time else mret tt.

(** [while running: ...], at most [fuel] turns. *)
Fixpoint main_loop (fuel : nat) (interval : Z) : M status :=
  deliver 230 ;;
  r ← get_running;
  if (r : bool) then
    match fuel with
    | O => mret Looping
    | S fuel' => loop_body interval ;; main_loop fuel' interval
    end
  else mret Returned.

End Program.
End Async.

(** ** Reading a trace of the scheduling loop

    What remains of an announcement once it has started: clips handed
    to the backend, the polls of the mixer, their warnings and errors,
    and the handler's line. *)
Definition is_playback (e : event) : bool :=
  match e with
  | Play _ | Delay _ => true
  | Print (MsgNotFound _) | Print (MsgPlayError _ _) | Print MsgStopping => true
  | _ => false
  end.

(** Where the loop stands while its trace is read from left to right:
    the flag up; the flag down and nothing done since; the flag down
    and an announcement being carried out; the flag down and a last
    sleep taken. *)
Inductive phase : Type := Up | Down | Draining | Final.

Definition live (s : phase) : bool :=
  match s with
  | Up => true
  | Down | Draining | Final => false
  end.

(** One event read by the monitor.  With [strict] the monitor refuses a
    sleep or the first line of an announcement once the flag is down;
    without it, it lets one of them pass. *)
Definition monitor_step (strict : bool) (s : phase) (e : event) : option phase :=
  match s with
  | Up =>
      match e with
      | Sleep d => if (0 <? d) && (d <=? chunk) then Some Up else None
      | Print MsgStopping => Some Down
      | _ => Some Up
      end
  | Down =>
      match e with
      | Sleep d =>
          if negb strict && ((0 <? d) && (d <=? chunk)) then Some Final else None
      | Print MsgStopping => Some Down
      | Print (MsgAnnouncing _) => if strict then None else Some Draining
      | _ => if is_playback e then Some Draining else None
      end
  | Draining => if is_playback e then Some Draining else None
  | Final =>
      match e with
      | Print MsgStopping => Some Final
      | _ => None
      end
  end.

Fixpoint monitor (strict : bool) (s : phase) (evs : list event) : option phase :=
  match evs with
  | [] => Some s
  | e :: evs' =>
      match monitor_step strict s e with
      | Some s' => monitor strict s' evs'
      | None => None
      end
  end.

(** The phase after the handler has run. *)
Definition stop (s : phase) : phase :=
  match s with
  | Up => Down
  | Down | Draining | Final => s
  end.

(** The phase and the global [running] tell the same story. *)
Definition agrees (s : phase) (w : world) : Prop := live s = running w.

(** [m], started in world [w] at phase [s], extends the trace by events
    the monitor accepts, ends in a phase that agrees with the world, and
    its result, final phase and final world satisfy [Q]. *)
Definition tracked {A : Type} (strict : bool) (m : M A) (s : phase) (w : world)
    (Q : result A -> phase -> world -> Prop) : Prop :=
  exists r w1 evs s1,
    m w = (r, w1) /\
    trace w1 = trace w ++ evs /\
    monitor strict s evs = Some s1 /\
    agrees s1 w1 /\
    Q r s1 w1.

(** ** Reading what a run did *)

(** The files handed to the backend, in order. *)
Definition played (evs : list event) : list string :=
  omap (fun e => match e with Play p => Some p | _ => None end) evs.

(** The files warned about as missing, in order. *)
Definition warned (evs : list event) : list string :=
  omap (fun e => match e with Print (MsgNotFound p) => Some p | _ => None end) evs.

(** The time asked of [time.sleep], in microseconds. *)
Definition slept (evs : list event) : Z :=
  foldr (fun e acc => match e with Sleep d => d + acc | _ => acc end) 0 evs.

Definition sleep_or_stop (e : event) : bool :=
  match e with
  | Sleep _ | Print MsgStopping => true
  | _ => false
  end.

(** The times announced, in order. *)
Definition announcements (evs : list event) : list datetime :=
  omap (fun e => match e with Print (MsgAnnouncing t) => Some t | _ => None end) evs.

(** What the specification promises of cancellation, read on what the
    loop adds to the trace: no announcement begins after the handler's
    line. *)
Definition stops_without_announcing (evs : list event) : Prop :=
  forall pre post, evs = pre ++ Print MsgStopping :: post -> announcements post = [].

(** Two worlds that differ in the flag at most, and a piece of program
    that goes the same way in both. *)
Definition same_but_flag (w w' : world) : Prop :=
  clock w' = clock w /\ fs w' = fs w /\ trace w' = trace w.

Definition flag_blind {A : Type} (m : M A) : Prop :=
  forall w w', same_but_flag w w' ->
    fst (m w') = fst (m w) /\ same_but_flag (snd (m w)) (snd (m w')).

(** What a piece of the program may do to the world besides extending
    the trace by [evs]: nothing to the files, and the flag is never put
    back up. *)
Definition footprint (w w1 : world) (evs : list event) : Prop :=
  trace w1 = trace w ++ evs /\
  fs w1 = fs w /\
  (running w1 = true -> running w = true).

(** A disk that holds the audio directory and every required file. *)
Definition disk_complete (dir : string) (present : gset string) : Prop :=
  dir ∈ present /\
  forall f, f ∈ dict_values AUDIO_FILES -> os_path_join dir f ∈ present.

(** ** Sample inputs *)

(** Five minutes to midnight, and a process whose clock reads it. *)
Definition late_evening : datetime :=
  {| ordinal := 739000; hour := 23; minute := 55; second := 0; microsecond := 0 |}.

(** Ten past seven in the morning. *)
Definition early_morning : datetime :=
  {| ordinal := 739000; hour := 7; minute := 10; second := 0; microsecond := 0 |}.

Definition world_at (now : datetime) : world :=
  {| clock := to_us now; running := true; fs := ∅; trace := [] |}.

(** A machine with pygame whose mixer cannot load a sound when the
    trace has one entry, whose [aplay] fails at the same point, and where
    Ctrl+C is pressed during the blocking call that starts with five
    entries in the trace. *)
Definition sample_env : environment :=
  {| PYGAME_AVAILABLE := true;
     AUDIO_DIR := "/home/user/time_announcer_audio";
     aplay_probe := None;
     makedirs_outcome := None;
     mixer_init := fun _ => None;
     mixer_sound := fun k _ =>
       if Nat.eqb k 1 then Some (BackendError "device busy") else None;
     mixer_busy := fun _ _ => 20%nat;
     aplay := fun k _ =>
       {| elapsed := 2000000;
          raised := if Nat.eqb k 1 then Some (BackendError "device busy") else None |};
     sigint := fun k => Nat.eqb k 5 |}.


(** A machine without pygame whose [aplay] works, left alone. *)
Definition aplay_env : environment :=
  {| PYGAME_AVAILABLE := false;
     AUDIO_DIR := "/home/user/time_announcer_audio";
     aplay_probe := None;
     makedirs_outcome := None;
     mixer_init := fun _ => None;
     mixer_sound := fun _ _ => None;
     mixer_busy := fun _ _ => 0%nat;
     aplay := fun _ _ => {| elapsed := 2000000; raised := None |};
     sigint := fun _ => false |}.

(** A machine with neither pygame nor [aplay]. *)
Definition silent_env : environment :=
  {| PYGAME_AVAILABLE := false;
     AUDIO_DIR := "/home/user/time_announcer_audio";
     aplay_probe := Some (BackendError "No such file or directory: aplay");
     makedirs_outcome := None;
     mixer_init := fun _ => None;
     mixer_sound := fun _ _ => None;
     mixer_busy := fun _ _ => 0%nat;
     aplay := fun _ _ => {| elapsed := 0; raised := None |};
     sigint := fun _ => false |}.

(** A machine with pygame whose mixer cannot be opened. *)
Definition broken_mixer_env : environment :=
  {| PYGAME_AVAILABLE := true;
     AUDIO_DIR := "/home/user/time_announcer_audio";
     aplay_probe := None;
     makedirs_outcome := None;
     mixer_init := fun _ => Some (BackendError "No available audio device");
     mixer_sound := fun _ _ => None;
     mixer_busy := fun _ _ => 0%nat;
     aplay := fun _ _ => {| elapsed := 0; raised := None |};
     sigint := fun _ => false |}.

(** The audio directory with all its files. *)
Definition full_disk : gset string :=
  list_to_set ("/home/user/time_announcer_audio"%string
                 :: (os_path_join "/home/user/time_announcer_audio"
                       <$> dict_values AUDIO_FILES)).

(** Ten past seven in the morning, everything in place. *)
Definition ready_world : world :=
  {| clock := to_us early_morning; running := true; fs := full_disk; trace := [] |}.

(** Five seconds before half past seven, everything in place. *)
Definition before_half_past : datetime :=
  {| ordinal := 739000; hour := 7; minute := 29; second := 55; microsecond := 0 |}.

Definition waiting_world : world :=
  {| clock := to_us before_half_past; running := true; fs := full_disk; trace := [] |}.

(** Ctrl+C pressed when the wait is over and the test of line 263 has
    passed: at the point of delivery of line 155, the trace holding the
    sleep and nothing else. *)
Definition late_signal : nat -> Z -> bool :=
  fun k line => Nat.eqb k 1 && (line =? 155).

(** No signal between statements. *)
Definition no_signal : nat -> Z -> bool := fun _ _ => false.

(** A machine without pygame where Ctrl+C is pressed while the first
    clip of the announcement plays, the trace holding the sleep and the
    announcement line. *)
Definition interrupted_env : environment :=
  {| PYGAME_AVAILABLE := false;
     AUDIO_DIR := "/home/user/time_announcer_audio";
     aplay_probe := None;
     makedirs_outcome := None;
     mixer_init := fun _ => None;
     mixer_sound := fun _ _ => None;
     mixer_busy := fun _ _ => 0%nat;
     aplay := fun _ _ => {| elapsed := 2000000; raised := None |};
     sigint := fun k => Nat.eqb k 2 |}.

(** * Properties *)

(** ** Datetimes and the clock *)

Lemma valid_datetimeb_spec t : valid_datetimeb t = true <-> valid_datetime t.
Proof.
  unfold valid_datetimeb, valid_datetime.
  rewrite !andb_true_iff, !Z.leb_le, !Z.ltb_lt. tauto.
Qed.

Lemma of_us_to_us t :
  0 <= hour t < 24 -> 0 <= minute t < 60 -> 0 <= second t < 60 ->
  0 <= microsecond t < 1000000 ->
  of_us (to_us t) = t.
Proof.
  destruct t as [o h m s u]; unfold of_us, to_us; simpl; intros Hh Hm Hs Hu.
  f_equal; Z.div_mod_to_equations; lia.
Qed.

Lemma of_us_valid_time c :
  0 <= hour (of_us c) < 24 /\ 0 <= minute (of_us c) < 60 /\
  0 <= second (of_us c) < 60 /\ 0 <= microsecond (of_us c) < 1000000.
Proof. unfold of_us; simpl. repeat split; Z.div_mod_to_equations; lia. Qed.

Lemma to_us_of_us c : to_us (of_us c) = c.
Proof. unfold of_us, to_us; simpl. Z.div_mod_to_equations; lia. Qed.

Lemma datetime_now_at now w :
  valid_datetime now -> clock w = to_us now -> datetime_now w = (Ok now, w).
Proof.
  intros (_ & Hh & Hm & Hs & Hu) Hc. unfold datetime_now.
  rewrite Hc, of_us_to_us by assumption. reflexivity.
Qed.

(** ** The tables *)

Lemma AUDIO_FILES_keys_NoDup : NoDup (dict_keys AUDIO_FILES).
Proof. apply (bool_decide_unpack _). vm_compute. reflexivity. Qed.

Lemma dict_get_values {K V : Type} `{EqDecision K} (d : dict K V) k v :
  dict_get d k = Some v -> v ∈ dict_values d.
Proof.
  induction d as [|[k' v'] d IH]; simpl; [discriminate|].
  unfold dict_values; simpl. destruct (decide (k = k')).
  - intros [= ->]. apply list_elem_of_here.
  - intros H'. apply list_elem_of_further, IH, H'.
Qed.

(** Every hour of the day has a period, and it is one of the six. *)
Lemma TIME_PERIODS_total h :
  0 <= h < 24 -> exists p, TIME_PERIODS !! h = Some p /\ p ∈ six_periods.
Proof.
  intros Hh.
  assert (Hcases : Exists (fun k => h = k) (seqZ 0 24)).
  { apply Exists_exists. exists h. split; [apply elem_of_seqZ; lia | reflexivity]. }
  vm_compute in Hcases.
  repeat match type of Hcases with
         | Exists _ (_ :: _) => apply Exists_cons in Hcases; destruct Hcases as [->|Hcases]
         | Exists _ [] => apply Exists_nil in Hcases; destruct Hcases
         end;
    (eexists; split; [vm_compute; reflexivity | unfold six_periods; set_solver]).
Qed.

(** Each period names a clip. *)
Lemma period_clip p :
  p ∈ six_periods -> exists f, dict_get AUDIO_FILES p = Some f.
Proof.
  unfold six_periods. rewrite !elem_of_union, !elem_of_singleton.
  intros H; repeat destruct H as [H|H]; subst p; eexists; vm_compute; reflexivity.
Qed.

(** Each 12-hour value names a clip. *)
Lemma hour_clip k :
  1 <= k <= 12 -> exists f, dict_get AUDIO_FILES ("hour_" +:+ pretty k) = Some f.
Proof.
  intros Hk.
  assert (Hcases : Exists (fun j => k = j) (seqZ 1 12)).
  { apply Exists_exists. exists k. split; [apply elem_of_seqZ; lia | reflexivity]. }
  vm_compute in Hcases.
  repeat match type of Hcases with
         | Exists _ (_ :: _) => apply Exists_cons in Hcases; destruct Hcases as [->|Hcases]
         | Exists _ [] => apply Exists_nil in Hcases; destruct Hcases
         end;
    (eexists; vm_compute; reflexivity).
Qed.

(** ** The resolver *)

Lemma hour_12_of_range h : 0 <= h < 24 -> 1 <= hour_12_of h <= 12.
Proof.
  intros Hh. unfold hour_12_of.
  destruct (h mod 12 =? 0) eqn:E; [lia|].
  apply Z.eqb_neq in E. Z.div_mod_to_equations. lia.
Qed.

Lemma round_minute_range h24 h12 m :
  0 <= h24 < 24 -> 1 <= h12 <= 12 ->
  match round_minute h24 h12 m with
  | (mr, h12', h24') =>
      (mr = 0 \/ mr = 15 \/ mr = 30 \/ mr = 45) /\ 1 <= h12' <= 12 /\ 0 <= h24' < 24
  end.
Proof.
  intros H24 H12. unfold round_minute.
  repeat match goal with |- context [if ?b then _ else _] => destruct b end;
    (split; [lia | split; [|]; Z.div_mod_to_equations; lia]).
Qed.

(** What one call of the resolver does at a valid instant: the three
    lookups succeed, the world is left alone, and the list is the three
    clips followed by the minute clip of the bucket, when the bucket is
    not 0. *)
Lemma get_audio_files_for_time_run now w :
  valid_datetime now -> clock w = to_us now ->
  match round_minute (hour now) (hour_12_of (hour now)) (minute now) with
  | (mr, h12, h24) =>
      exists intro_clip period period_clip hour_clip,
        dict_get AUDIO_FILES "intro" = Some intro_clip /\
        TIME_PERIODS !! h24 = Some period /\
        dict_get AUDIO_FILES period = Some period_clip /\
        dict_get AUDIO_FILES ("hour_" +:+ pretty h12) = Some hour_clip /\
        ((mr = 0 /\
          get_audio_files_for_time w = (Ok [intro_clip; period_clip; hour_clip], w))
         \/
         ((mr = 15 \/ mr = 30 \/ mr = 45) /\
          exists minute_clip,
            dict_get AUDIO_FILES ("minute_" +:+ pretty mr) = Some minute_clip /\
            get_audio_files_for_time w =
              (Ok [intro_clip; period_clip; hour_clip; minute_clip], w)))
  end.
Proof.
  intros Hv Hc.
  pose proof Hv as (_ & Hh & Hm & _).
  pose proof (round_minute_range (hour now) (hour_12_of (hour now)) (minute now)
                Hh (hour_12_of_range _ Hh)) as Hr.
  unfold get_audio_files_for_time, mbind, M_bind.
  rewrite (datetime_now_at now w Hv Hc).
  destruct (round_minute _ _ _) as [[mr h12] h24].
  destruct Hr as (Hmr & H12 & H24).
  destruct (TIME_PERIODS_total h24 H24) as (period & Hp & Hin).
  destruct (period_clip period Hin) as (pc & Hpc).
  destruct (hour_clip h12 H12) as (hc & Hhc).
  exists "ekhon_somoy.wav"%string, period, pc, hc.
  split; [reflexivity|]. do 3 (split; [assumption|]).
  unfold audio_file, time_period, mret, M_ret, raise.
  change (dict_get AUDIO_FILES "intro") with (Some "ekhon_somoy.wav"%string).
  cbn beta iota zeta. rewrite Hp. cbn beta iota zeta.
  rewrite Hpc. cbn beta iota zeta. rewrite Hhc. cbn beta iota zeta.
  destruct Hmr as [->|[->|[->| ->]]].
  - left. split; reflexivity.
  - right. split; [lia|]. eexists. split; reflexivity.
  - right. split; [lia|]. eexists. split; reflexivity.
  - right. split; [lia|]. eexists. split; reflexivity.
Qed.

(** C1: for a minute of the hour in 0..59 the resolver's rounding follows
    the bands: [0,8) gives 0, [8,23) gives 15, [23,38) gives 30, [38,53)
    gives 45, all with the hour unchanged, and [53,60) gives 0 with the
    12-hour and the 24-hour value advanced by one. *)
Theorem round_minute_bands (hour_24 hour_12 m : Z) :
  0 <= m < 60 ->
  (m < 8 -> round_minute hour_24 hour_12 m = (0, hour_12, hour_24)) /\
  (8 <= m < 23 -> round_minute hour_24 hour_12 m = (15, hour_12, hour_24)) /\
  (23 <= m < 38 -> round_minute hour_24 hour_12 m = (30, hour_12, hour_24)) /\
  (38 <= m < 53 -> round_minute hour_24 hour_12 m = (45, hour_12, hour_24)) /\
  (53 <= m ->
   round_minute hour_24 hour_12 m = (0, hour_12 mod 12 + 1, (hour_24 + 1) mod 24)).
Proof.
  intros Hm. unfold round_minute.
  destruct (Z.ltb_spec m 8); [repeat split; intros; first [reflexivity | lia]|].
  destruct (Z.ltb_spec m 23); [repeat split; intros; first [reflexivity | lia]|].
  destruct (Z.ltb_spec m 38); [repeat split; intros; first [reflexivity | lia]|].
  destruct (Z.ltb_spec m 53); repeat split; intros; first [reflexivity | lia].
Qed.

Lemma round_minute_bands_witness :
  0 <= 55 < 60 /\ round_minute 23 11 55 = (0, 11 mod 12 + 1, (23 + 1) mod 24).
Proof.
  assert (H : 0 <= 55 < 60) by lia.
  split; [exact H|].
  apply (proj2 (proj2 (proj2 (proj2 (round_minute_bands 23 11 55 H))))). lia.
Defined.

Lemma round_minute_rollover hour_24 hour_12 m :
  53 <= m ->
  round_minute hour_24 hour_12 m = (0, hour_12 mod 12 + 1, (hour_24 + 1) mod 24).
Proof.
  intros Hm. unfold round_minute.
  repeat match goal with |- context [?a <? ?b] => destruct (Z.ltb_spec a b); [lia|] end.
  reflexivity.
Qed.

(** The 12-hour value after a rollover is the 12-hour value of the
    advanced hour. *)
Lemma hour_12_of_succ h :
  0 <= h < 24 -> hour_12_of h mod 12 + 1 = hour_12_of ((h + 1) mod 24).
Proof.
  intros Hh. unfold hour_12_of.
  destruct (Z.eqb_spec (h mod 12) 0); destruct (Z.eqb_spec (((h + 1) mod 24) mod 12) 0);
    Z.div_mod_to_equations; lia.
Qed.

(** C2: with the minute in [53,60) the 12-hour value is incremented with
    12 wrapping to 1, the 24-hour value is incremented modulo 24, the
    period is looked up at the incremented 24-hour value, and no minute
    clip is added; at 23:55 the result is the clips of [intro],
    [period_night] and [hour_12]. *)
Theorem rollover_past_minute_53 (now : datetime) (w : world) :
  valid_datetime now -> clock w = to_us now -> 53 <= minute now ->
  let h24 := (hour now + 1) mod 24 in
  let h12 := hour_12_of (hour now) mod 12 + 1 in
  round_minute (hour now) (hour_12_of (hour now)) (minute now) = (0, h12, h24) /\
  (hour_12_of (hour now) = 12 -> h12 = 1) /\
  h12 = hour_12_of h24 /\
  (exists intro_clip period period_clip hour_clip,
      dict_get AUDIO_FILES "intro" = Some intro_clip /\
      TIME_PERIODS !! h24 = Some period /\
      dict_get AUDIO_FILES period = Some period_clip /\
      dict_get AUDIO_FILES ("hour_" +:+ pretty h12) = Some hour_clip /\
      get_audio_files_for_time w = (Ok [intro_clip; period_clip; hour_clip], w)) /\
  (hour now = 23 ->
   h24 = 0 /\ h12 = 12 /\
   TIME_PERIODS !! h24 = Some "period_night"%string /\
   dict_get AUDIO_FILES "period_night" = Some "rat.wav"%string /\
   dict_get AUDIO_FILES "hour_12" = Some "barota.wav"%string /\
   get_audio_files_for_time w =
     (Ok ["ekhon_somoy.wav"; "rat.wav"; "barota.wav"]%string, w)).
Proof.
  intros Hv Hc Hm h24 h12.
  pose proof Hv as (_ & Hh & Hm60 & _).
  assert (Hround : round_minute (hour now) (hour_12_of (hour now)) (minute now)
                   = (0, h12, h24)).
  { subst h12 h24. apply round_minute_rollover, Hm. }
  assert (Hrun :
    exists intro_clip period period_clip hour_clip,
      dict_get AUDIO_FILES "intro" = Some intro_clip /\
      TIME_PERIODS !! h24 = Some period /\
      dict_get AUDIO_FILES period = Some period_clip /\
      dict_get AUDIO_FILES ("hour_" +:+ pretty h12) = Some hour_clip /\
      get_audio_files_for_time w = (Ok [intro_clip; period_clip; hour_clip], w)).
  { pose proof (get_audio_files_for_time_run now w Hv Hc) as Hrun.
    rewrite Hround in Hrun.
    destruct Hrun as (ic & p & pc & hc & Hi & Hp & Hpc & Hhc & [[_ Hrun]|[Hmr _]]);
      [|lia].
    exists ic, p, pc, hc. repeat split; assumption. }
  split; [exact Hround|].
  split; [intros H12; subst h12; rewrite H12; reflexivity|].
  split; [apply hour_12_of_succ, Hh|].
  split; [exact Hrun|].
  intros H23.
  assert (E24 : h24 = 0) by (subst h24; rewrite H23; reflexivity).
  assert (E12 : h12 = 12) by (subst h12; rewrite H23; reflexivity).
  destruct Hrun as (ic & p & pc & hc & Hi & Hp & Hpc & Hhc & Hrun).
  rewrite E24 in Hp. rewrite E12 in Hhc.
  assert (p = "period_night"%string) by (vm_compute in Hp; congruence). subst p.
  assert (pc = "rat.wav"%string) by (vm_compute in Hpc; congruence).
  assert (hc = "barota.wav"%string) by (vm_compute in Hhc; congruence).
  assert (ic = "ekhon_somoy.wav"%string) by (vm_compute in Hi; congruence).
  subst ic pc hc. rewrite E24, E12.
  repeat split; try reflexivity; assumption.
Qed.

Lemma late_evening_valid : valid_datetime late_evening.
Proof. apply valid_datetimeb_spec. reflexivity. Defined.

Lemma rollover_past_minute_53_witness :
  get_audio_files_for_time (world_at late_evening) =
    (Ok ["ekhon_somoy.wav"; "rat.wav"; "barota.wav"]%string, world_at late_evening).
Proof.
  assert (Hm : 53 <= minute late_evening) by (simpl; lia).
  pose proof (rollover_past_minute_53 late_evening (world_at late_evening)
                late_evening_valid eq_refl Hm) as H.
  cbv zeta in H.
  destruct H as (_ & _ & _ & _ & H23).
  destruct (H23 eq_refl) as (_ & _ & _ & _ & _ & Hrun). exact Hrun.
Defined.

(** C3: the hour-to-period table has one entry for each hour 0..23 and
    for nothing else, and the periods it uses are exactly the six
    periods. *)
Theorem TIME_PERIODS_covers_day :
  NoDup (dict_keys TIME_PERIODS_items) /\
  dom TIME_PERIODS = list_to_set (seqZ 0 24) /\
  (map_img TIME_PERIODS : gset string) = six_periods /\
  size six_periods = 6%nat.
Proof.
  split; [apply (bool_decide_unpack _); vm_compute; reflexivity|].
  repeat split; vm_compute; reflexivity.
Qed.

(** C4: at a valid instant the resolver returns [intro; period; hour]
    when the rounded minute is 0, and those three followed by the minute
    clip of the bucket when the rounded minute is 15, 30 or 45; so the
    list has three entries exactly when the rounded minute is 0 and four
    otherwise. *)
Theorem resolver_sequence_shape (now : datetime) (w : world) :
  valid_datetime now -> clock w = to_us now ->
  match round_minute (hour now) (hour_12_of (hour now)) (minute now) with
  | (mr, h12, h24) =>
      exists intro_clip period period_clip hour_clip files,
        dict_get AUDIO_FILES "intro" = Some intro_clip /\
        TIME_PERIODS !! h24 = Some period /\
        dict_get AUDIO_FILES period = Some period_clip /\
        dict_get AUDIO_FILES ("hour_" +:+ pretty h12) = Some hour_clip /\
        get_audio_files_for_time w = (Ok files, w) /\
        (mr = 0 -> files = [intro_clip; period_clip; hour_clip]) /\
        (mr <> 0 ->
         (mr = 15 \/ mr = 30 \/ mr = 45) /\
         exists minute_clip,
           dict_get AUDIO_FILES ("minute_" +:+ pretty mr) = Some minute_clip /\
           files = [intro_clip; period_clip; hour_clip; minute_clip]) /\
        (length files = 3%nat <-> mr = 0) /\
        (length files = 4%nat <-> mr <> 0)
  end.
Proof.
  intros Hv Hc.
  pose proof (get_audio_files_for_time_run now w Hv Hc) as Hrun.
  destruct (round_minute _ _ _) as [[mr h12] h24].
  destruct Hrun as (ic & p & pc & hc & Hi & Hp & Hpc & Hhc & Hrun).
  destruct Hrun as [[Hmr Hrun]|[Hmr (mc & Hmc & Hrun)]].
  - exists ic, p, pc, hc, [ic; pc; hc].
    do 5 (split; [assumption|]).
    split; [reflexivity|]. split; [intros; lia|].
    split; simpl; split; intros; first [assumption | reflexivity | lia].
  - exists ic, p, pc, hc, [ic; pc; hc; mc].
    do 5 (split; [assumption|]).
    split; [intros; lia|].
    split; [intros _; split; [assumption|]; exists mc; split; [assumption|reflexivity]|].
    split; simpl; split; intros; first [reflexivity | lia].
Qed.

Lemma early_morning_valid : valid_datetime early_morning.
Proof. apply valid_datetimeb_spec. reflexivity. Defined.

Lemma resolver_sequence_shape_witness :
  exists files,
    get_audio_files_for_time (world_at early_morning) = (Ok files, world_at early_morning) /\
    length files = 4%nat.
Proof.
  pose proof (resolver_sequence_shape early_morning (world_at early_morning)
                early_morning_valid eq_refl) as H.
  change (round_minute (hour early_morning) (hour_12_of (hour early_morning))
            (minute early_morning)) with (15, 7, 7) in H.
  destruct H as (ic & p & pc & hc & files & _ & _ & _ & _ & Hrun & _ & _ & _ & H4).
  exists files. split; [exact Hrun|]. apply H4. lia.
Defined.

(** ** Purity of the resolver *)

(** The resolver's answer is a function of the clock alone, and the
    world comes back as it went in. *)
Lemma get_audio_files_for_time_reads_clock w w' :
  clock w' = clock w ->
  get_audio_files_for_time w' = (fst (get_audio_files_for_time w), w').
Proof.
  intros Hc.
  unfold get_audio_files_for_time, mbind, M_bind, datetime_now.
  rewrite Hc.
  destruct (round_minute _ _ _) as [[mr h12] h24].
  unfold audio_file, time_period, mret, M_ret, raise.
  repeat (cbn beta iota zeta;
          match goal with
          | |- context [dict_get AUDIO_FILES ?k] => destruct (dict_get AUDIO_FILES k)
          | |- context [TIME_PERIODS !! ?k] => destruct (TIME_PERIODS !! k)
          | |- context [if ?b then _ else _] => destruct b
          end);
    reflexivity.
Qed.

(** C9: the resolver is deterministic and free of side effects: it
    returns the world unchanged, two worlds whose clocks read the same
    instant get the same answer, and a second evaluation right after the
    first returns the same answer again. *)
Theorem resolver_deterministic_and_pure (w : world) :
  snd (get_audio_files_for_time w) = w /\
  (forall w', clock w' = clock w ->
     fst (get_audio_files_for_time w') = fst (get_audio_files_for_time w)) /\
  (let '(r1, w1) := get_audio_files_for_time w in
   let '(r2, w2) := get_audio_files_for_time w1 in
   r1 = r2 /\ w2 = w).
Proof.
  split; [rewrite (get_audio_files_for_time_reads_clock w w eq_refl); reflexivity|].
  split.
  - intros w' Hc. rewrite (get_audio_files_for_time_reads_clock w w' Hc). reflexivity.
  - rewrite (get_audio_files_for_time_reads_clock w w eq_refl).
    rewrite (get_audio_files_for_time_reads_clock w w eq_refl).
    split; reflexivity.
Qed.

Lemma resolver_deterministic_and_pure_witness :
  fst (get_audio_files_for_time
         {| clock := to_us early_morning; running := false;
            fs := {[ "/tmp"%string ]}; trace := [Sleep 5] |})
  = fst (get_audio_files_for_time (world_at early_morning)).
Proof.
  apply (proj1 (proj2 (resolver_deterministic_and_pure (world_at early_morning)))).
  reflexivity.
Defined.

(** C10: at a valid instant every lookup of the resolver succeeds: the
    12-hour value is in 1..12 also after a rollover, the 24-hour value
    is a key of the period table, the resolver returns a list and does
    not raise, and every entry of the list is a value of the clip
    table. *)
Theorem resolver_total (now : datetime) (w : world) :
  valid_datetime now -> clock w = to_us now ->
  match round_minute (hour now) (hour_12_of (hour now)) (minute now) with
  | (mr, h12, h24) =>
      1 <= h12 <= 12 /\
      h24 ∈ dom TIME_PERIODS /\
      is_Some (dict_get AUDIO_FILES ("hour_" +:+ pretty h12)) /\
      exists files,
        get_audio_files_for_time w = (Ok files, w) /\
        forall f, f ∈ files -> f ∈ dict_values AUDIO_FILES
  end.
Proof.
  intros Hv Hc.
  pose proof Hv as (_ & Hh & _).
  pose proof (round_minute_range (hour now) (hour_12_of (hour now)) (minute now)
                Hh (hour_12_of_range _ Hh)) as Hr.
  pose proof (get_audio_files_for_time_run now w Hv Hc) as Hrun.
  destruct (round_minute _ _ _) as [[mr h12] h24].
  destruct Hr as (_ & H12 & H24).
  destruct Hrun as (ic & p & pc & hc & Hi & Hp & Hpc & Hhc & Hrun).
  apply dict_get_values in Hi, Hpc. pose proof (dict_get_values _ _ _ Hhc) as Hhv.
  split; [exact H12|].
  split; [apply elem_of_dom; eauto|].
  split; [eauto|].
  destruct Hrun as [[_ Hrun]|[_ (mc & Hmc & Hrun)]].
  - exists [ic; pc; hc]. split; [exact Hrun|].
    intros f Hf. repeat (apply elem_of_cons in Hf; destruct Hf as [->|Hf]); try assumption.
    apply elem_of_nil in Hf. destruct Hf.
  - apply dict_get_values in Hmc.
    exists [ic; pc; hc; mc]. split; [exact Hrun|].
    intros f Hf. repeat (apply elem_of_cons in Hf; destruct Hf as [->|Hf]); try assumption.
    apply elem_of_nil in Hf. destruct Hf.
Qed.

Lemma resolver_total_witness :
  exists files,
    get_audio_files_for_time (world_at late_evening) = (Ok files, world_at late_evening).
Proof.
  pose proof (resolver_total late_evening (world_at late_evening)
                late_evening_valid eq_refl) as H.
  change (round_minute (hour late_evening) (hour_12_of (hour late_evening))
            (minute late_evening)) with (0, 12, 0) in H.
  destruct H as (_ & _ & _ & files & Hrun & _).
  exists files. exact Hrun.
Defined.

(** ** The next announcement *)

(** Chronological order is an order on valid datetimes. *)
Lemma to_us_inj a b :
  valid_datetime a -> valid_datetime b -> to_us a = to_us b -> a = b.
Proof.
  intros (_ & Ha) (_ & Hb) E.
  rewrite <- (of_us_to_us a), <- (of_us_to_us b), E by tauto. reflexivity.
Qed.

(** One hour after the top of an hour. *)
Lemma dt_add_hour o h :
  1 <= o <= MAXORDINAL -> 0 <= h < 24 ->
  dt_add {| ordinal := o; hour := h; minute := 0; second := 0; microsecond := 0 |}
         one_hour
  = if h <? 23
    then Ok {| ordinal := o; hour := h + 1; minute := 0; second := 0; microsecond := 0 |}
    else if o <? MAXORDINAL
         then Ok {| ordinal := o + 1; hour := 0; minute := 0; second := 0;
                    microsecond := 0 |}
         else Raise OverflowError.
Proof.
  intros Ho Hh. unfold dt_add, one_hour, MAXORDINAL in *.
  set (c := to_us _ + _).
  assert (Hof : of_us c =
                if h <? 23
                then {| ordinal := o; hour := h + 1; minute := 0; second := 0;
                        microsecond := 0 |}
                else {| ordinal := o + 1; hour := 0; minute := 0; second := 0;
                        microsecond := 0 |}).
  { subst c. unfold of_us, to_us; cbn [ordinal hour minute second microsecond].
    destruct (Z.ltb_spec h 23); f_equal; Z.div_mod_to_equations; lia. }
  rewrite Hof.
  destruct (Z.ltb_spec h 23); cbn [ordinal].
  - destruct (Z.ltb_spec 0 o); [|lia].
    destruct (Z.leb_spec o 3652059); [reflexivity|lia].
  - destruct (Z.ltb_spec 0 (o + 1)); [|lia].
    destruct (Z.leb_spec (o + 1) 3652059); destruct (Z.ltb_spec o 3652059);
      first [reflexivity | lia].
Qed.

Ltac dt_arith :=
  unfold dt_lt, dt_le, aligned, valid_datetime, to_us, MAXORDINAL in *;
  cbn [ordinal hour minute second microsecond] in *;
  Z.div_mod_to_equations; lia.

(** C5: for a valid current time and an interval of 15, 30 or 60 minutes
    the instant the scheduler computes is the least datetime strictly
    after the current time whose minute is a multiple of the interval
    and whose seconds and microseconds are zero; the computation fails
    only when no such datetime exists. *)
Theorem next_announcement_least (interval : Z) (now : datetime) :
  valid_datetime now ->
  interval = 15 \/ interval = 30 \/ interval = 60 ->
  match next_announcement interval now with
  | Ok t =>
      valid_datetime t /\ dt_lt now t /\ aligned interval t /\
      forall u, valid_datetime u -> dt_lt now u -> aligned interval u -> dt_le t u
  | Raise _ =>
      forall u, valid_datetime u -> dt_lt now u -> ~ aligned interval u
  end.
Proof.
  intros Hv Hi.
  destruct now as [o h m s us].
  pose proof Hv as (Ho & Hh & Hm & Hs & Hus).
  cbn [ordinal hour minute second microsecond] in Ho, Hh, Hm, Hs, Hus.
  unfold next_announcement.
  cbn [ordinal hour minute second microsecond dt_replace result_bind andb
       Z.leb Z.ltb Z.compare].
  rewrite (dt_add_hour o h Ho Hh).
  destruct Hi as [->|[->| ->]]; cbn [Z.eqb Pos.eqb].
  - destruct (Z.eqb_spec ((m / 15 + 1) * 15) 60) as [E|E].
    + destruct (Z.ltb_spec h 23); [|destruct (Z.ltb_spec o MAXORDINAL)].
      * split; [dt_arith|]. split; [dt_arith|]. split; [dt_arith|].
        intros [o' h' m' s' us'] Hu Hlt Hal. dt_arith.
      * split; [dt_arith|]. split; [dt_arith|]. split; [dt_arith|].
        intros [o' h' m' s' us'] Hu Hlt Hal. dt_arith.
      * intros [o' h' m' s' us'] Hu Hlt Hal. dt_arith.
    + unfold dt_replace.
      assert (Hnm : 0 <= (m / 15 + 1) * 15 < 60) by (Z.div_mod_to_equations; lia).
      destruct (Z.leb_spec 0 ((m / 15 + 1) * 15)); [|lia].
      destruct (Z.ltb_spec ((m / 15 + 1) * 15) 60); [|lia].
      cbn [andb Z.leb Z.ltb Z.compare ordinal hour].
      split; [dt_arith|]. split; [dt_arith|]. split; [dt_arith|].
      intros [o' h' m' s' us'] Hu Hlt Hal. dt_arith.
  - destruct (Z.ltb_spec m 30).
    + split; [dt_arith|]. split; [dt_arith|]. split; [dt_arith|].
      intros [o' h' m' s' us'] Hu Hlt Hal. dt_arith.
    + destruct (Z.ltb_spec h 23); [|destruct (Z.ltb_spec o MAXORDINAL)].
      * split; [dt_arith|]. split; [dt_arith|]. split; [dt_arith|].
        intros [o' h' m' s' us'] Hu Hlt Hal. dt_arith.
      * split; [dt_arith|]. split; [dt_arith|]. split; [dt_arith|].
        intros [o' h' m' s' us'] Hu Hlt Hal. dt_arith.
      * intros [o' h' m' s' us'] Hu Hlt Hal. dt_arith.
  - destruct (Z.ltb_spec h 23); [|destruct (Z.ltb_spec o MAXORDINAL)].
    + split; [dt_arith|]. split; [dt_arith|]. split; [dt_arith|].
      intros [o' h' m' s' us'] Hu Hlt Hal. dt_arith.
    + split; [dt_arith|]. split; [dt_arith|]. split; [dt_arith|].
      intros [o' h' m' s' us'] Hu Hlt Hal. dt_arith.
    + intros [o' h' m' s' us'] Hu Hlt Hal. dt_arith.
Qed.

Lemma next_announcement_least_witness :
  let t := {| ordinal := 739000; hour := 7; minute := 15; second := 0;
              microsecond := 0 |} in
  next_announcement 15 early_morning = Ok t /\
  dt_lt early_morning t /\ aligned 15 t /\
  forall u, valid_datetime u -> dt_lt early_morning u -> aligned 15 u -> dt_le t u.
Proof.
  pose proof (next_announcement_least 15 early_morning early_morning_valid
                (or_introl eq_refl)) as H.
  change (next_announcement 15 early_morning)
    with (@Ok datetime {| ordinal := 739000; hour := 7; minute := 15; second := 0;
                          microsecond := 0 |}) in H.
  cbv zeta. split; [reflexivity|]. exact (proj2 H).
Defined.

(** ** Playback *)


Section Playback.
Context (env : environment).

(** A blocking call returns normally; it adds its event, and the
    handler's line when the signal arrived, and leaves the files alone. *)
Lemma blocking_run e d w :
  exists w1,
    blocking env e d w = (Ok tt, w1) /\
    fs w1 = fs w /\
    running w1 = running w && negb (sigint env (length (trace w))) /\
    trace w1 = trace w ++ e ::
                 (if sigint env (length (trace w)) then [Print MsgStopping] else []).
Proof.
  unfold blocking. destruct (sigint env (length (trace w))).
  - eexists. split; [reflexivity|]. cbn.
    rewrite andb_false_r, <- app_assoc. repeat split.
  - eexists. split; [reflexivity|]. cbn.
    rewrite andb_true_r. repeat split.
Qed.






End Playback.



(** ** Preflight *)

Lemma bind_run {A B : Type} (m : M A) (k : A -> M B) w a w1 :
  m w = (Ok a, w1) -> (m ≫= k) w = k a w1.
Proof. unfold mbind, M_bind. intros ->. reflexivity. Qed.

Lemma logs_logs evs1 evs2 w : logs evs2 (logs evs1 w) = logs (evs1 ++ evs2) w.
Proof. unfold logs; cbn. rewrite app_assoc. reflexivity. Qed.

Lemma log_logs e w : log e w = logs [e] w.
Proof. reflexivity. Qed.

Lemma logs_nil w : logs [] w = w.
Proof. destruct w. unfold logs; cbn. rewrite app_nil_r. reflexivity. Qed.

Lemma string_length_append (a b : string) :
  String.length (a +:+ b) = (String.length a + String.length b)%nat.
Proof.
  induction a as [|c a IH]; [reflexivity|].
  change (S (String.length (a +:+ b)) = S (String.length a + String.length b)).
  f_equal. exact IH.
Qed.

(** A relative, non-empty name joined to a directory is not the
    directory. *)
Lemma os_path_join_ne_dir dir f :
  f <> ""%string -> starts_with_sep f = false -> os_path_join dir f <> dir.
Proof.
  intros Hne Hsep E. unfold os_path_join in E. rewrite Hsep in E.
  destruct f as [|c f]; [congruence|].
  destruct (_ || _); cbv iota in E; apply (f_equal String.length) in E;
    rewrite !string_length_append in E; cbn in E; lia.
Qed.

Lemma AUDIO_FILES_values_relative :
  Forall (fun f => f <> ""%string /\ starts_with_sep f = false)
         (dict_values AUDIO_FILES).
Proof. repeat constructor; discriminate. Qed.

Lemma filter_ext_Forall {A : Type} (P Q : A -> Prop)
    `{!forall x, Decision (P x)} `{!forall x, Decision (Q x)} (l : list A) :
  Forall (fun x => P x <-> Q x) l -> filter P l = filter Q l.
Proof.
  induction 1 as [|x l Hx _ IH]; [reflexivity|].
  rewrite !filter_cons, IH.
  destruct (decide (P x)), (decide (Q x)); tauto.
Qed.

Section Preflight.
Context (env : environment).

Lemma collect_missing_run names acc w :
  collect_missing env names acc w
  = (Ok (acc ++ filter (fun f => os_path_join (AUDIO_DIR env) f ∉ fs w) names), w).
Proof.
  revert acc. induction names as [|f names IH]; intros acc; cbn [collect_missing].
  - rewrite filter_nil, app_nil_r. reflexivity.
  - unfold mbind, M_bind, os_path_exists. rewrite IH.
    rewrite filter_cons.
    destruct (decide (os_path_join (AUDIO_DIR env) f ∈ fs w)) as [Hin|Hout].
    + rewrite (bool_decide_eq_true_2 _ Hin). cbn [negb].
      destruct (decide (os_path_join (AUDIO_DIR env) f ∉ fs w)); [tauto|]. reflexivity.
    + rewrite (bool_decide_eq_false_2 _ Hout). cbn [negb].
      destruct (decide (os_path_join (AUDIO_DIR env) f ∉ fs w)); [|tauto].
      rewrite <- app_assoc. reflexivity.
Qed.

(** The check returns the required files that do not exist, in table
    order, when the directory is there or can be created, and all of
    them when it cannot; it prints one line about the directory unless
    that was there. *)
Lemma check_audio_files_run w :
  exists w1,
    check_audio_files env w
    = (Ok (if bool_decide (AUDIO_DIR env ∈ fs w) then
             filter (fun f => os_path_join (AUDIO_DIR env) f ∉ fs w)
                    (dict_values AUDIO_FILES)
           else
             match makedirs_outcome env with
             | None => filter (fun f => os_path_join (AUDIO_DIR env) f ∉ fs w)
                              (dict_values AUDIO_FILES)
             | Some _ => dict_values AUDIO_FILES
             end), w1) /\
    trace w1 = trace w
               ++ (if bool_decide (AUDIO_DIR env ∈ fs w) then []
                   else match makedirs_outcome env with
                        | None => [Print (MsgCreatedDir (AUDIO_DIR env))]
                        | Some e => [Print (MsgCreateDirError e)]
                        end) /\
    running w1 = running w /\ clock w1 = clock w.
Proof.
  unfold check_audio_files.
  generalize AUDIO_FILES_values_relative.
  generalize (dict_values AUDIO_FILES) as required. intros required Hrel.
  unfold mbind at 1, M_bind at 1, os_path_exists at 1.
  destruct (bool_decide (AUDIO_DIR env ∈ fs w)) eqn:Hdir;
    cbv beta iota zeta delta [negb].
  - exists w.
    split; [unfold mbind, M_bind, mret, M_ret; apply collect_missing_run|].
    split; [rewrite app_nil_r; reflexivity|]. split; reflexivity.
  - unfold try_except, os_makedirs, mbind, M_bind, print, mret, M_ret.
    destruct (makedirs_outcome env) as [e|] eqn:Hmk; cbv beta iota zeta.
    + exists (log (Print (MsgCreateDirError e)) w).
      split; [reflexivity|]. split; [reflexivity|]. split; reflexivity.
    + rewrite collect_missing_run.
      assert (E : filter (fun f => os_path_join (AUDIO_DIR env) f
                                   ∉ ({[ AUDIO_DIR env ]} ∪ fs w : gset string)) required
                  = filter (fun f => os_path_join (AUDIO_DIR env) f ∉ fs w) required).
      { apply filter_ext_Forall.
        eapply Forall_impl; [exact Hrel|]. cbv beta. intros f [Hne Hsep].
        rewrite elem_of_union, elem_of_singleton.
        pose proof (os_path_join_ne_dir (AUDIO_DIR env) f Hne Hsep). tauto. }
      cbn [fs log]. rewrite E.
      eexists. split; [reflexivity|]. split; [reflexivity|]. split; reflexivity.
Qed.

Lemma for_each_print {A : Type} (l : list A) (g : A -> message) w :
  for_each l (fun x => print (g x)) w = (Ok tt, logs (map (fun x => Print (g x)) l) w).
Proof.
  revert w. induction l as [|x l IH]; intros w; cbn [for_each map].
  - rewrite logs_nil. reflexivity.
  - unfold mbind, M_bind, print. rewrite IH.
    change (log (Print (g x)) w) with (logs [Print (g x)] w).
    rewrite logs_logs. reflexivity.
Qed.

(** The lines of the report: the count, the first ten names, the size
    of the remainder when there is one, the closing line. *)
Lemma report_missing_run missing w :
  report_missing env missing w
  = (Ok tt,
     logs (Print (MsgMissingCount (length missing) (AUDIO_DIR env))
             :: map (fun f => Print (MsgMissingFile f)) (take 10 missing)
             ++ (if Nat.ltb 10 (length missing)
                 then [Print (MsgMore (length missing - 10))] else [])
             ++ [Print MsgPleaseAdd]) w).
Proof.
  unfold report_missing.
  rewrite (bind_run _ _ w tt (logs [Print (MsgMissingCount (length missing)
                                              (AUDIO_DIR env))] w)) by reflexivity.
  erewrite bind_run by apply for_each_print.
  rewrite logs_logs.
  destruct (Nat.ltb 10 (length missing)).
  - erewrite bind_run by reflexivity.
    unfold print. rewrite !log_logs, !logs_logs, <- !app_assoc. reflexivity.
  - erewrite bind_run by reflexivity.
    unfold print. rewrite !log_logs, !logs_logs, <- !app_assoc. reflexivity.
Qed.

End Preflight.

Lemma report_lines_quiet n dir (l : list string) (b : bool) k :
  Forall (fun e => is_scheduling e = false)
         (Print (MsgMissingCount n dir)
            :: map (fun f => Print (MsgMissingFile f)) l
            ++ (if b then [Print (MsgMore k)] else [])
            ++ [Print MsgPleaseAdd]).
Proof.
  constructor; [reflexivity|].
  apply Forall_app. split.
  - induction l; constructor; [reflexivity | assumption].
  - destruct b; repeat constructor.
Qed.

(** What the check reports when a required file is missing. *)
Lemma missing_files_nonempty dir (present : gset string) (created : option exn) f :
  f ∈ dict_values AUDIO_FILES ->
  os_path_join dir f ∉ present ->
  let absent := filter (fun f => os_path_join dir f ∉ present) (dict_values AUDIO_FILES) in
  let missing := if bool_decide (dir ∈ present) then absent
                 else match created with
                      | None => absent
                      | Some _ => dict_values AUDIO_FILES
                      end in
  missing <> [] /\
  (forall g, g ∈ missing -> g ∈ dict_values AUDIO_FILES) /\
  (dir ∈ present \/ created = None -> missing = absent) /\
  ((dir ∉ present) /\ created <> None -> missing = dict_values AUDIO_FILES).
Proof.
  generalize (dict_values AUDIO_FILES) as required.
  intros required Hf Hout absent missing.
  assert (Habs : absent <> [] /\ forall g, g ∈ absent -> g ∈ required).
  { split.
    - intros E.
      assert (Hin : f ∈ absent) by (apply list_elem_of_filter; split; assumption).
      rewrite E in Hin. apply elem_of_nil in Hin. exact Hin.
    - intros g Hg. apply list_elem_of_filter in Hg. tauto. }
  assert (Hreq : required <> []).
  { intros E. rewrite E in Hf. apply elem_of_nil in Hf. exact Hf. }
  subst missing. destruct (bool_decide (dir ∈ present)) eqn:Hdir.
  - apply bool_decide_eq_true_1 in Hdir.
    split; [tauto|]. split; [tauto|]. split; [reflexivity|]. tauto.
  - apply bool_decide_eq_false_1 in Hdir. destruct created as [e|].
    + split; [exact Hreq|]. split; [auto|].
      split; [intros [H|H]; [destruct (Hdir H) | discriminate H] | reflexivity].
    + split; [tauto|]. split; [tauto|]. split; [reflexivity|].
      intros [_ H]. destruct (H eq_refl).
Qed.

(** C6: when a required clip has no file at startup, [run_announcer]
    returns without a sleep, a clip played, an announcement or the
    banner of the loop.  When a backend is available, so that the check
    is reached, the files reported are the required files that do not
    exist, in table order, when the audio directory is there or can be
    created, and all the required files when it cannot; and what is
    printed is the line about the directory, the number of files
    reported, the first ten of them, the size of the remainder when
    there are more than ten, and the closing line. *)
Theorem preflight_blocks_startup
    (env : environment) (fuel : nat) (interval : Z) (test_only : bool) (w : world) :
  (exists f, f ∈ dict_values AUDIO_FILES /\ os_path_join (AUDIO_DIR env) f ∉ fs w) ->
  exists w' evs,
    run_announcer env fuel interval test_only w = (Ok Returned, w') /\
    trace w' = trace w ++ evs /\
    running w' = running w /\ clock w' = clock w /\
    Forall (fun e => is_scheduling e = false) evs /\
    (PYGAME_AVAILABLE env = true \/ aplay_probe env = None ->
     exists missing,
       missing <> [] /\
       (forall g, g ∈ missing -> g ∈ dict_values AUDIO_FILES) /\
       (AUDIO_DIR env ∈ fs w \/ makedirs_outcome env = None ->
        missing = filter (fun f => os_path_join (AUDIO_DIR env) f ∉ fs w)
                         (dict_values AUDIO_FILES)) /\
       ((AUDIO_DIR env ∉ fs w) /\ makedirs_outcome env <> None ->
        missing = dict_values AUDIO_FILES) /\
       evs = (if PYGAME_AVAILABLE env then [] else [Print MsgNoPygame])
             ++ (if bool_decide (AUDIO_DIR env ∈ fs w) then []
                 else match makedirs_outcome env with
                      | None => [Print (MsgCreatedDir (AUDIO_DIR env))]
                      | Some e => [Print (MsgCreateDirError e)]
                      end)
             ++ Print (MsgMissingCount (length missing) (AUDIO_DIR env))
                :: map (fun f => Print (MsgMissingFile f)) (take 10 missing)
                ++ (if Nat.ltb 10 (length missing)
                    then [Print (MsgMore (length missing - 10))] else [])
                ++ [Print MsgPleaseAdd]).
Proof.
  intros (f & Hf & Hout).
  set (dir_line := if bool_decide (AUDIO_DIR env ∈ fs w) then []
                   else match makedirs_outcome env with
                        | None => [Print (MsgCreatedDir (AUDIO_DIR env))]
                        | Some e => [Print (MsgCreateDirError e)]
                        end).
  assert (Hdl : Forall (fun e => is_scheduling e = false) dir_line).
  { subst dir_line. destruct (bool_decide _); [constructor|].
    destruct (makedirs_outcome env); repeat constructor. }
  assert (Hstop : forall w0 pre0,
    fs w0 = fs w -> trace w0 = trace w ++ pre0 ->
    running w0 = running w -> clock w0 = clock w ->
    Forall (fun e => is_scheduling e = false) pre0 ->
    exists w' missing,
      (check_audio_files env ≫= fun missing_files =>
         if negb (bool_decide (missing_files = [])) then
           report_missing env missing_files ;; mret Returned
         else if test_only then announce_time env ;; mret Returned
         else
           print (MsgStarted interval) ;;
           print (MsgAudioDir (AUDIO_DIR env)) ;;
           print MsgPressCtrlC ;;
           announce_time env ;;
           main_loop env fuel interval) w0 = (Ok Returned, w') /\
      running w' = running w /\ clock w' = clock w /\
      missing <> [] /\
      (forall g, g ∈ missing -> g ∈ dict_values AUDIO_FILES) /\
      (AUDIO_DIR env ∈ fs w \/ makedirs_outcome env = None ->
       missing = filter (fun f => os_path_join (AUDIO_DIR env) f ∉ fs w)
                        (dict_values AUDIO_FILES)) /\
      ((AUDIO_DIR env ∉ fs w) /\ makedirs_outcome env <> None ->
       missing = dict_values AUDIO_FILES) /\
      trace w' = trace w
                 ++ pre0 ++ dir_line
                 ++ Print (MsgMissingCount (length missing) (AUDIO_DIR env))
                    :: map (fun f => Print (MsgMissingFile f)) (take 10 missing)
                    ++ (if Nat.ltb 10 (length missing)
                        then [Print (MsgMore (length missing - 10))] else [])
                    ++ [Print MsgPleaseAdd]).
  { intros w0 pre0 Hfs Htr Hrun Hclk Hq.
    destruct (check_audio_files_run env w0) as (w1 & Hchk & Htr1 & Hrun1 & Hclk1).
    rewrite Hfs in Hchk, Htr1. fold dir_line in Htr1.
    destruct (missing_files_nonempty (AUDIO_DIR env) (fs w) (makedirs_outcome env)
                f Hf Hout) as (Hne & Hsub & Hthere & Hnot).
    cbv zeta in Hne, Hsub, Hthere, Hnot.
    revert Hchk Hne Hsub Hthere Hnot.
    generalize (if bool_decide (AUDIO_DIR env ∈ fs w)
                then filter (fun f => os_path_join (AUDIO_DIR env) f ∉ fs w)
                            (dict_values AUDIO_FILES)
                else match makedirs_outcome env with
                     | None => filter (fun f => os_path_join (AUDIO_DIR env) f ∉ fs w)
                                      (dict_values AUDIO_FILES)
                     | Some _ => dict_values AUDIO_FILES
                     end) as missing.
    intros missing Hchk Hne Hsub Hthere Hnot.
    rewrite (bind_run _ _ _ _ _ Hchk).
    rewrite (bool_decide_eq_false_2 _ Hne). cbv beta iota delta [negb].
    rewrite (bind_run _ _ _ _ _ (report_missing_run env missing w1)).
    eexists _, missing. split; [reflexivity|].
    unfold logs; cbn [trace running clock].
    split; [congruence|]. split; [congruence|].
    split; [exact Hne|]. split; [exact Hsub|]. split; [exact Hthere|].
    split; [exact Hnot|].
    rewrite Htr1, Htr, <- !app_assoc. reflexivity. }
  assert (Hquiet : forall pre0 missing,
    Forall (fun e => is_scheduling e = false) pre0 ->
    Forall (fun e => is_scheduling e = false)
      (pre0 ++ dir_line
       ++ Print (MsgMissingCount (length missing) (AUDIO_DIR env))
          :: map (fun f => Print (MsgMissingFile f)) (take 10 missing)
          ++ (if Nat.ltb 10 (length missing)
              then [Print (MsgMore (length missing - 10))] else [])
          ++ [Print MsgPleaseAdd])).
  { intros pre0 missing Hq. apply Forall_app. split; [exact Hq|].
    apply Forall_app. split; [exact Hdl | apply report_lines_quiet]. }
  unfold run_announcer.
  destruct (PYGAME_AVAILABLE env) eqn:Hpg; cbv beta iota delta [negb].
  - rewrite (bind_run _ _ w true w) by reflexivity. cbv beta iota delta [negb].
    destruct (Hstop w [] eq_refl (eq_sym (app_nil_r _)) eq_refl eq_refl (Forall_nil_2 _))
      as (w' & missing & Hrun & Hr & Hc & Hne & Hsub & Hthere & Hnot & Htr).
    eexists w', _. split; [exact Hrun|]. split; [exact Htr|].
    split; [exact Hr|]. split; [exact Hc|].
    split; [apply Hquiet; constructor|].
    intros _. exists missing. repeat (split; [assumption|]). reflexivity.
  - destruct (aplay_probe env) as [e|] eqn:Hprobe.
    + rewrite (bind_run _ _ w false
                 (log (Print MsgInstallHint)
                    (log (Print MsgNoBackend) (log (Print MsgNoPygame) w)))).
      2:{ unfold mbind, M_bind, print, try_except, run_aplay_version.
          rewrite Hprobe. reflexivity. }
      cbv beta iota delta [negb].
      eexists _, [Print MsgNoPygame; Print MsgNoBackend; Print MsgInstallHint].
      split; [reflexivity|].
      split; [cbn [trace log]; rewrite <- !app_assoc; reflexivity|].
      split; [reflexivity|]. split; [reflexivity|].
      split; [repeat constructor|].
      intros [H|H]; discriminate H.
    + rewrite (bind_run _ _ w true (logs [Print MsgNoPygame] w)).
      2:{ unfold mbind, M_bind, print, try_except, run_aplay_version.
          rewrite Hprobe. reflexivity. }
      cbv beta iota delta [negb].
      destruct (Hstop (logs [Print MsgNoPygame] w) [Print MsgNoPygame]
                  eq_refl eq_refl eq_refl eq_refl)
        as (w' & missing & Hrun & Hr & Hc & Hne & Hsub & Hthere & Hnot & Htr);
        [repeat constructor|].
      eexists w', _. split; [exact Hrun|]. split; [exact Htr|].
      split; [exact Hr|]. split; [exact Hc|].
      split; [apply Hquiet; repeat constructor|].
      intros _. exists missing. repeat (split; [assumption|]). reflexivity.
Qed.

(** On an empty disk all 22 required files are reported after the
    directory has been created: ten by name, twelve as the remainder. *)
Lemma preflight_blocks_startup_witness :
  exists w' evs,
    run_announcer sample_env 3 30 false (world_at late_evening) = (Ok Returned, w') /\
    trace w' = trace (world_at late_evening) ++ evs /\
    Forall (fun e => is_scheduling e = false) evs /\
    exists missing,
      missing = dict_values AUDIO_FILES /\
      evs = Print (MsgCreatedDir "/home/user/time_announcer_audio")
            :: Print (MsgMissingCount 22 "/home/user/time_announcer_audio")
            :: map (fun f => Print (MsgMissingFile f)) (take 10 missing)
            ++ [Print (MsgMore 12); Print MsgPleaseAdd].
Proof.
  destruct (preflight_blocks_startup sample_env 3 30 false (world_at late_evening))
    as (w' & evs & Hrun & Htr & _ & _ & Hq & Hrep).
  - exists "rat.wav"%string. split.
    + apply (bool_decide_unpack _). vm_compute. reflexivity.
    + cbn [fs world_at]. apply not_elem_of_empty.
  - destruct (Hrep (or_introl eq_refl)) as (missing & _ & _ & Hthere & _ & Hevs).
    assert (Hm : missing = dict_values AUDIO_FILES).
    { rewrite (Hthere (or_intror eq_refl)). vm_compute. reflexivity. }
    subst missing.
    exists w', evs. split; [exact Hrun|]. split; [exact Htr|]. split; [exact Hq|].
    exists (dict_values AUDIO_FILES). split; [reflexivity|].
    rewrite Hevs. vm_compute. reflexivity.
Defined.

(** ** The scheduling loop *)

Section Monitor.
Context {strict : bool}.

Lemma monitor_app s evs1 evs2 :
  monitor strict s (evs1 ++ evs2)
  = match monitor strict s evs1 with
    | Some s' => monitor strict s' evs2
    | None => None
    end.
Proof.
  revert s. induction evs1 as [|e evs1 IH]; intros s; cbn [monitor app]; [reflexivity|].
  destruct (monitor_step strict s e); [apply IH | reflexivity].
Qed.

Lemma monitor_step_stopping s : monitor_step strict s (Print MsgStopping) = Some (stop s).
Proof. destruct s; reflexivity. Qed.

Lemma stop_not_final s : s <> Final -> stop s <> Final.
Proof. destruct s; cbn [stop]; congruence. Qed.

Lemma stop_not_live s : live (stop s) = false.
Proof. destruct s; reflexivity. Qed.

Lemma monitor_final evs s' :
  monitor strict Final evs = Some s' -> Forall (fun e => e = Print MsgStopping) evs.
Proof.
  induction evs as [|e evs IH]; [constructor|].
  cbn [monitor monitor_step].
  destruct e as [[]| | |]; try discriminate.
  intros H. constructor; [reflexivity | exact (IH H)].
Qed.

Lemma monitor_draining evs s' :
  monitor strict Draining evs = Some s' -> Forall (fun e => is_playback e = true) evs.
Proof.
  induction evs as [|e evs IH]; [constructor|].
  cbn [monitor monitor_step]. destruct (is_playback e) eqn:E; [|discriminate].
  intros H. constructor; [exact E | exact (IH H)].
Qed.

Lemma monitor_step_sleep s d s' :
  monitor_step strict s (Sleep d) = Some s' -> 0 < d <= chunk.
Proof.
  destruct s; cbn [monitor_step is_playback]; try discriminate;
    destruct strict; cbn [negb andb]; try discriminate;
    (destruct (Z.ltb_spec 0 d); destruct (Z.leb_spec d chunk); cbn [andb];
     try discriminate; intros _; lia).
Qed.

Lemma monitor_sleeps_bounded s evs s' :
  monitor strict s evs = Some s' -> forall d, Sleep d ∈ evs -> 0 < d <= chunk.
Proof.
  revert s. induction evs as [|e evs IH]; intros s H d Hd.
  - apply elem_of_nil in Hd. destruct Hd.
  - cbn [monitor] in H. destruct (monitor_step strict s e) as [s1|] eqn:E; [|discriminate].
    apply elem_of_cons in Hd. destruct Hd as [<-|Hd].
    + exact (monitor_step_sleep _ _ _ E).
    + exact (IH s1 H d Hd).
Qed.

End Monitor.

(** With the flag down and nothing done since, what follows is the
    rest of a playback, or one announcement from its first line on, or
    one sleep; handler's lines apart. *)
Lemma monitor_down evs s' :
  monitor false Down evs = Some s' ->
  Forall (fun e => is_playback e = true) evs \/
  (exists stops t rest,
     evs = stops ++ Print (MsgAnnouncing t) :: rest /\
     Forall (fun e => e = Print MsgStopping) stops /\
     Forall (fun e => is_playback e = true) rest) \/
  (exists stops d stops',
     evs = stops ++ Sleep d :: stops' /\
     Forall (fun e => e = Print MsgStopping) stops /\
     Forall (fun e => e = Print MsgStopping) stops').
Proof.
  induction evs as [|e evs IH]; [left; constructor|].
  cbn [monitor].
  destruct (monitor_step false Down e) as [s1|] eqn:Hstep; [|discriminate].
  intros H.
  destruct e as [m|d|p|ms].
  - destruct m; cbn [monitor_step is_playback] in Hstep; try discriminate Hstep;
      injection Hstep as <-.
    + right. left. exists [], now, evs.
      split; [reflexivity|]. split; [constructor | exact (monitor_draining _ _ H)].
    + left. constructor; [reflexivity | exact (monitor_draining _ _ H)].
    + left. constructor; [reflexivity | exact (monitor_draining _ _ H)].
    + destruct (IH H)
        as [Hp|[(stops & t & rest & -> & Hs & Hr)|(stops & d & stops' & -> & Hs & Hs')]].
      * left. constructor; [reflexivity | exact Hp].
      * right. left. exists (Print MsgStopping :: stops), t, rest.
        split; [reflexivity|]. split; [constructor; [reflexivity | exact Hs] | exact Hr].
      * right. right. exists (Print MsgStopping :: stops), d, stops'.
        split; [reflexivity|].
        split; [constructor; [reflexivity | exact Hs] | exact Hs'].
  - cbn [monitor_step negb andb] in Hstep.
    destruct ((0 <? d) && (d <=? chunk)); [|discriminate]. injection Hstep as <-.
    right. right. exists [], d, evs.
    split; [reflexivity|]. split; [constructor | exact (monitor_final _ _ H)].
  - injection Hstep as <-. left. constructor; [reflexivity | exact (monitor_draining _ _ H)].
  - injection Hstep as <-. left. constructor; [reflexivity | exact (monitor_draining _ _ H)].
Qed.

(** When the monitor is strict, only playback follows once the flag is
    down. *)
Lemma monitor_down_strict evs s' :
  monitor true Down evs = Some s' -> Forall (fun e => is_playback e = true) evs.
Proof.
  induction evs as [|e evs IH]; [constructor|].
  cbn [monitor].
  destruct (monitor_step true Down e) as [s1|] eqn:Hstep; [|discriminate].
  intros H.
  destruct e as [m|d|p|ms].
  - destruct m; cbn [monitor_step is_playback] in Hstep; try discriminate Hstep;
      injection Hstep as <-;
      (constructor; [reflexivity|]); first [exact (IH H) | exact (monitor_draining _ _ H)].
  - discriminate Hstep.
  - injection Hstep as <-. constructor; [reflexivity | exact (monitor_draining _ _ H)].
  - injection Hstep as <-. constructor; [reflexivity | exact (monitor_draining _ _ H)].
Qed.

(** A trace the monitor accepts stops in one of three ways after a line
    of the handler: with the rest of the playback in progress, with one
    whole announcement, or with one sleep. *)
Lemma monitor_after_stop s evs s' :
  monitor false s evs = Some s' ->
  forall pre post, evs = pre ++ Print MsgStopping :: post ->
    Forall (fun e => is_playback e = true) post \/
    (exists stops t rest,
       post = stops ++ Print (MsgAnnouncing t) :: rest /\
       Forall (fun e => e = Print MsgStopping) stops /\
       Forall (fun e => is_playback e = true) rest) \/
    (exists stops d stops',
       post = stops ++ Sleep d :: stops' /\
       Forall (fun e => e = Print MsgStopping) stops /\
       Forall (fun e => e = Print MsgStopping) stops').
Proof.
  intros H pre post ->.
  rewrite monitor_app in H.
  destruct (monitor false s pre) as [s0|] eqn:Hpre; [|discriminate].
  cbn [monitor] in H. rewrite monitor_step_stopping in H.
  destruct s0; cbn [stop] in H.
  - exact (monitor_down _ _ H).
  - exact (monitor_down _ _ H).
  - left. exact (monitor_draining _ _ H).
  - left. eapply Forall_impl; [exact (monitor_final _ _ H)|].
    intros e ->. reflexivity.
Qed.

(** A trace the strict monitor accepts has neither a sleep nor the
    first line of an announcement after a line of the handler. *)
Lemma monitor_after_stop_strict s evs s' :
  monitor true s evs = Some s' ->
  forall pre post, evs = pre ++ Print MsgStopping :: post ->
    Forall (fun e => is_playback e = true) post.
Proof.
  intros H pre post ->.
  rewrite monitor_app in H.
  destruct (monitor true s pre) as [s0|] eqn:Hpre; [|discriminate].
  cbn [monitor] in H. rewrite monitor_step_stopping in H.
  destruct s0; cbn [stop] in H.
  - exact (monitor_down_strict _ _ H).
  - exact (monitor_down_strict _ _ H).
  - exact (monitor_draining _ _ H).
  - eapply Forall_impl; [exact (monitor_final _ _ H)|].
    intros e ->. reflexivity.
Qed.

Section Tracked.
Context {strict : bool}.

Lemma tracked_bind {A B : Type} (m : M A) (k : A -> M B) s w
    (Q : result A -> phase -> world -> Prop)
    (Q' : result B -> phase -> world -> Prop) :
  tracked strict m s w Q ->
  (forall a s1 w1, agrees s1 w1 -> Q (Ok a) s1 w1 -> tracked strict (k a) s1 w1 Q') ->
  (forall e s1 w1, agrees s1 w1 -> Q (Raise e) s1 w1 -> Q' (Raise e) s1 w1) ->
  tracked strict (m ≫= k) s w Q'.
Proof.
  intros (r & w1 & evs & s1 & Hm & Htr & Hmon & Hag & HQ) Hk Hraise.
  destruct r as [a|e].
  - destruct (Hk a s1 w1 Hag HQ)
      as (r2 & w2 & evs2 & s2 & Hk2 & Htr2 & Hmon2 & Hag2 & HQ2).
    exists r2, w2, (evs ++ evs2), s2.
    split; [unfold mbind, M_bind; rewrite Hm; exact Hk2|].
    split; [rewrite Htr2, Htr, app_assoc; reflexivity|].
    split; [rewrite monitor_app, Hmon; exact Hmon2|]. split; assumption.
  - exists (Raise e), w1, evs, s1.
    split; [unfold mbind, M_bind; rewrite Hm; reflexivity|].
    repeat (split; [assumption|]). apply Hraise; assumption.
Qed.

Lemma tracked_silent {A : Type} (m : M A) s w r
    (Q : result A -> phase -> world -> Prop) :
  m w = (r, w) -> agrees s w -> Q r s w -> tracked strict m s w Q.
Proof.
  intros Hm Hag HQ. exists r, w, [], s.
  split; [exact Hm|]. split; [rewrite app_nil_r; reflexivity|].
  split; [reflexivity|]. split; assumption.
Qed.

Lemma tracked_weaken {A : Type} (m : M A) s w
    (Q Q' : result A -> phase -> world -> Prop) :
  tracked strict m s w Q -> (forall r s1 w1, Q r s1 w1 -> Q' r s1 w1) -> tracked strict m s w Q'.
Proof.
  intros (r & w1 & evs & s1 & Hm & Htr & Hmon & Hag & HQ) Himp.
  exists r, w1, evs, s1. repeat (split; [assumption|]). apply Himp, HQ.
Qed.

Lemma tracked_ext {A : Type} (m m' : M A) s w
    (Q : result A -> phase -> world -> Prop) :
  m w = m' w -> tracked strict m' s w Q -> tracked strict m s w Q.
Proof. unfold tracked. intros ->. exact (fun H => H). Qed.

Lemma tracked_try {A : Type} (m : M A) (h : exn -> M A) s w
    (Q Q' : result A -> phase -> world -> Prop) :
  tracked strict m s w Q ->
  (forall a s1 w1, agrees s1 w1 -> Q (Ok a) s1 w1 -> Q' (Ok a) s1 w1) ->
  (forall e s1 w1, agrees s1 w1 -> Q (Raise e) s1 w1 -> tracked strict (h e) s1 w1 Q') ->
  tracked strict (try_except m h) s w Q'.
Proof.
  intros (r & w1 & evs & s1 & Hm & Htr & Hmon & Hag & HQ) Hok Hh.
  destruct r as [a|e].
  - exists (Ok a), w1, evs, s1.
    split; [unfold try_except; rewrite Hm; reflexivity|].
    repeat (split; [assumption|]). apply Hok; assumption.
  - destruct (Hh e s1 w1 Hag HQ)
      as (r2 & w2 & evs2 & s2 & Hk2 & Htr2 & Hmon2 & Hag2 & HQ2).
    exists r2, w2, (evs ++ evs2), s2.
    split; [unfold try_except; rewrite Hm; exact Hk2|].
    split; [rewrite Htr2, Htr, app_assoc; reflexivity|].
    split; [rewrite monitor_app, Hmon; exact Hmon2|]. split; assumption.
Qed.

Section Scheduler.
Context (env : environment) (pending : nat -> Z -> bool).

(** A point of delivery: nothing, or the handler's line and the flag
    down. *)
Lemma deliver_tracked line s w :
  agrees s w ->
  tracked strict (Async.deliver pending line) s w
          (fun r s1 _ => r = Ok tt /\ (s1 = s \/ s1 = stop s)).
Proof.
  unfold agrees. intros Hag.
  destruct (pending (length (trace w)) line) eqn:E.
  - exists (Ok tt),
      {| clock := clock w; running := false; fs := fs w;
         trace := trace w ++ [Print MsgStopping] |},
      [Print MsgStopping], (stop s).
    split; [unfold Async.deliver; rewrite E; reflexivity|]. split; [reflexivity|].
    split; [cbn [monitor]; rewrite monitor_step_stopping; reflexivity|].
    split; [unfold agrees; apply stop_not_live|].
    split; [reflexivity | right; reflexivity].
  - exists (Ok tt), w, [], s. rewrite app_nil_r.
    split; [unfold Async.deliver; rewrite E; reflexivity|].
    split; [reflexivity|]. split; [reflexivity|].
    split; [exact Hag|]. split; [reflexivity | left; reflexivity].
Qed.

(** A statement with its point of delivery, the statement being one
    that can be run whether the handler has just run or not. *)
Lemma deliver_then {A : Type} line (m : M A) (P : phase -> Prop) s w
    (Q : result A -> phase -> world -> Prop) :
  agrees s w -> P s -> P (stop s) ->
  (forall s1 w1, agrees s1 w1 -> P s1 -> tracked strict m s1 w1 Q) ->
  tracked strict (Async.deliver pending line ;; m) s w Q.
Proof.
  intros Hag HP HPs Hm.
  eapply tracked_bind; [apply deliver_tracked; exact Hag | |].
  - intros [] s1 w1 Hag1 [_ [->| ->]]; apply Hm; assumption.
  - intros e s1 w1 _ [H _]. discriminate H.
Qed.

(** A sleep of at most one chunk, taken with the flag up, or, when the
    monitor is not strict, with the flag down and nothing done since. *)
Lemma time_sleep_tracked s d w :
  agrees s w -> s = Up \/ (strict = false /\ s = Down) -> 0 < d <= chunk ->
  tracked strict (time_sleep env d) s w (fun r _ _ => r = Ok tt).
Proof.
  unfold agrees. intros Hag Hs Hd.
  destruct (blocking_run env (Sleep d) d w) as (w1 & Hb & _ & Hr1 & Htr).
  assert (Hc : (0 <? d) && (d <=? chunk) = true).
  { apply andb_true_iff. split; [apply Z.ltb_lt | apply Z.leb_le]; lia. }
  rewrite <- Hag in Hr1.
  destruct (sigint env (length (trace w))); cbn [negb] in Hr1.
  - rewrite andb_false_r in Hr1.
    exists (Ok tt), w1, [Sleep d; Print MsgStopping],
      (match s with Up => Down | _ => Final end).
    split; [exact Hb|]. split; [exact Htr|].
    split; [destruct Hs as [-> | [Hst ->]]; cbn [monitor monitor_step];
            rewrite ?Hst, Hc; reflexivity|].
    split; [unfold agrees; rewrite Hr1; destruct s; reflexivity | reflexivity].
  - rewrite andb_true_r in Hr1.
    exists (Ok tt), w1, [Sleep d], (match s with Up => Up | _ => Final end).
    split; [exact Hb|]. split; [exact Htr|].
    split; [destruct Hs as [-> | [Hst ->]]; cbn [monitor monitor_step];
            rewrite ?Hst, Hc; reflexivity|].
    split; [unfold agrees; rewrite Hr1; destruct Hs as [-> | [_ ->]]; reflexivity
           | reflexivity].
Qed.

(** A blocking call of the playback. *)
Lemma blocking_playback_tracked s e d w :
  agrees s w -> s <> Final ->
  (exists p, e = Play p) \/ (exists ms, e = Delay ms) ->
  tracked strict (blocking env e d) s w (fun r s1 _ => r = Ok tt /\ s1 <> Final).
Proof.
  unfold agrees. intros Hag Hs He.
  destruct (blocking_run env e d w) as (w1 & Hb & _ & Hr1 & Htr).
  rewrite <- Hag in Hr1.
  destruct (sigint env (length (trace w))); cbn [negb] in Hr1.
  - rewrite andb_false_r in Hr1.
    exists (Ok tt), w1, [e; Print MsgStopping],
      (match s with Up => Down | _ => Draining end).
    split; [exact Hb|]. split; [exact Htr|].
    split; [destruct He as [[p ->]|[ms ->]]; destruct s; try congruence; reflexivity|].
    split; [unfold agrees; rewrite Hr1; destruct s; reflexivity|].
    split; [reflexivity | destruct s; discriminate].
  - rewrite andb_true_r in Hr1.
    exists (Ok tt), w1, [e], (match s with Up => Up | _ => Draining end).
    split; [exact Hb|]. split; [exact Htr|].
    split; [destruct He as [[p ->]|[ms ->]]; destruct s; try congruence; reflexivity|].
    split; [unfold agrees; rewrite Hr1; destruct s; try congruence; reflexivity|].
    split; [reflexivity | destruct s; discriminate].
Qed.

(** A warning or an error line of the playback loop. *)
Lemma print_playback_tracked s m w :
  agrees s w -> s <> Final ->
  is_playback (Print m) = true -> m <> MsgStopping ->
  tracked strict (print m) s w (fun r s1 _ => r = Ok tt /\ s1 <> Final).
Proof.
  unfold agrees. intros Hag Hs Hm Hne.
  exists (Ok tt), (log (Print m) w), [Print m], (match s with Up => Up | _ => Draining end).
  split; [reflexivity|]. split; [reflexivity|].
  split.
  { destruct s; try congruence; destruct m; try discriminate Hm; try congruence;
      reflexivity. }
  split; [unfold agrees; cbn [running log]; rewrite <- Hag; destruct s;
          try congruence; reflexivity|].
  split; [reflexivity | destruct s; discriminate].
Qed.

(** The first line of an announcement. *)
Lemma print_announcing_tracked s now w :
  agrees s w -> s = Up \/ (strict = false /\ s = Down) ->
  tracked strict (print (MsgAnnouncing now)) s w (fun r s1 _ => r = Ok tt /\ s1 <> Final).
Proof.
  unfold agrees. intros Hag Hs.
  exists (Ok tt), (log (Print (MsgAnnouncing now)) w), [Print (MsgAnnouncing now)],
    (match s with Up => Up | _ => Draining end).
  split; [reflexivity|]. split; [reflexivity|].
  split; [destruct Hs as [-> | [Hst ->]]; cbn [monitor monitor_step];
          rewrite ?Hst; reflexivity|].
  split; [unfold agrees; cbn [running log]; rewrite <- Hag;
          destruct Hs as [-> | [_ ->]]; reflexivity|].
  split; [reflexivity | destruct s; discriminate].
Qed.

Lemma subprocess_run_aplay_tracked s full_path w :
  agrees s w -> s <> Final ->
  tracked strict (subprocess_run_aplay env full_path) s w (fun _ s1 _ => s1 <> Final).
Proof.
  intros Hag Hs.
  set (o := aplay env (length (trace w)) full_path).
  apply (tracked_ext _ (blocking env (Play full_path) (elapsed o) ;;
                        match raised o with
                        | Some e => raise e
                        | None => mret tt
                        end)); [reflexivity|].
  eapply tracked_bind; [apply blocking_playback_tracked; eauto | |].
  - intros [] s1 w1 Hag1 [_ Hs1].
    destruct (raised o) as [e|];
      (eapply tracked_silent; [reflexivity | assumption | assumption]).
  - intros e s1 w1 _ [H _]. discriminate H.
Qed.

Lemma aplay_clip_tracked s audio_file w :
  agrees s w -> s <> Final ->
  tracked strict (Async.aplay_clip env pending audio_file) s w
          (fun r s1 _ => r = Ok tt /\ s1 <> Final).
Proof.
  intros Hag Hs.
  set (full_path := os_path_join (AUDIO_DIR env) audio_file).
  apply (tracked_ext _
           (if negb (bool_decide (full_path ∈ fs w))
            then Async.deliver pending 144 ;; print (MsgNotFound full_path)
            else try_except
                   (Async.deliver pending 148 ;; subprocess_run_aplay env full_path)
                   (fun e => Async.deliver pending 150 ;;
                             print (MsgPlayError audio_file e))));
    [reflexivity|].
  destruct (bool_decide (full_path ∈ fs w)); cbn [negb].
  - eapply tracked_try.
    + apply (deliver_then _ _ (fun s => s <> Final));
        [assumption | assumption | apply stop_not_final; assumption|].
      intros s1 w1 Hag1 Hs1. apply subprocess_run_aplay_tracked; assumption.
    + intros [] s1 w1 _ Hs1. split; [reflexivity | assumption].
    + intros e s1 w1 Hag1 Hs1.
      apply (deliver_then _ _ (fun s => s <> Final));
        [assumption | assumption | apply stop_not_final; assumption|].
      intros s2 w2 Hag2 Hs2.
      apply print_playback_tracked; [assumption | assumption | reflexivity | discriminate].
  - apply (deliver_then _ _ (fun s => s <> Final));
      [assumption | assumption | apply stop_not_final; assumption|].
    intros s1 w1 Hag1 Hs1.
    apply print_playback_tracked; [assumption | assumption | reflexivity | discriminate].
Qed.

Lemma pygame_sound_play_tracked s full_path w :
  agrees s w -> s <> Final ->
  tracked strict (pygame_sound_play env full_path) s w (fun _ s1 _ => s1 <> Final).
Proof.
  unfold agrees. intros Hag Hs. unfold pygame_sound_play.
  destruct (mixer_sound env (length (trace w)) full_path) as [e|] eqn:E.
  - exists (Raise e), w, [], s. rewrite E, app_nil_r. repeat split; assumption.
  - exists (Ok tt), (log (Play full_path) w), [Play full_path],
      (match s with Up => Up | _ => Draining end).
    rewrite E. split; [reflexivity|]. split; [reflexivity|].
    split; [destruct s; try congruence; reflexivity|].
    split; [unfold agrees; cbn [running log]; rewrite <- Hag; destruct s;
            try congruence; reflexivity|].
    destruct s; discriminate.
Qed.

Lemma wait_while_busy_tracked polls s w :
  agrees s w -> s <> Final ->
  tracked strict (Async.wait_while_busy env pending polls) s w
          (fun r s1 _ => r = Ok tt /\ s1 <> Final).
Proof.
  revert s w. induction polls as [|polls IH]; intros s w Hag Hs;
    cbn [Async.wait_while_busy].
  - eapply tracked_silent; [reflexivity | assumption | split; [reflexivity | assumption]].
  - apply (deliver_then _ _ (fun s => s <> Final));
      [assumption | assumption | apply stop_not_final; assumption|].
    intros s0 w0 Hag0 Hs0.
    eapply tracked_bind; [apply blocking_playback_tracked; eauto | |].
    + intros [] s1 w1 Hag1 [_ Hs1]. apply IH; assumption.
    + intros e s1 w1 _ [H _]. discriminate H.
Qed.

Lemma pygame_clip_tracked s audio_file w :
  agrees s w -> s <> Final ->
  tracked strict (Async.pygame_clip env pending audio_file) s w
          (fun r s1 _ => r = Ok tt /\ s1 <> Final).
Proof.
  intros Hag Hs.
  set (full_path := os_path_join (AUDIO_DIR env) audio_file).
  set (polls := mixer_busy env (length (trace w)) full_path).
  destruct (bool_decide (full_path ∈ fs w)) eqn:Hex.
  - apply (tracked_ext _ (try_except
                            (Async.deliver pending 131 ;;
                             pygame_sound_play env full_path ;;
                             Async.wait_while_busy env pending polls)
                            (fun e => Async.deliver pending 137 ;;
                                      print (MsgPlayError audio_file e)))).
    { unfold Async.pygame_clip, mbind at 1, M_bind at 1, os_path_exists.
      fold full_path. rewrite Hex. reflexivity. }
    eapply (tracked_try _ _ _ _ (fun _ s1 _ => s1 <> Final)).
    + apply (deliver_then _ _ (fun s => s <> Final));
        [assumption | assumption | apply stop_not_final; assumption|].
      intros s0 w0 Hag0 Hs0.
      eapply tracked_bind; [apply pygame_sound_play_tracked; assumption | |].
      * intros [] s1 w1 Hag1 Hs1.
        eapply tracked_weaken; [apply wait_while_busy_tracked; assumption|].
        intros r s2 w2 [_ H]. exact H.
      * intros e s1 w1 _ Hs1. exact Hs1.
    + intros [] s1 w1 _ Hs1. split; [reflexivity | assumption].
    + intros e s1 w1 Hag1 Hs1.
      apply (deliver_then _ _ (fun s => s <> Final));
        [assumption | assumption | apply stop_not_final; assumption|].
      intros s2 w2 Hag2 Hs2.
      apply print_playback_tracked; [assumption | assumption | reflexivity | discriminate].
  - apply (tracked_ext _ (Async.deliver pending 127 ;; print (MsgNotFound full_path))).
    { unfold Async.pygame_clip, mbind at 1, M_bind at 1, os_path_exists.
      fold full_path. rewrite Hex. reflexivity. }
    apply (deliver_then _ _ (fun s => s <> Final));
      [assumption | assumption | apply stop_not_final; assumption|].
    intros s1 w1 Hag1 Hs1.
    apply print_playback_tracked; [assumption | assumption | reflexivity | discriminate].
Qed.

Lemma for_each_pygame_tracked s audio_files w :
  agrees s w -> s <> Final ->
  tracked strict (for_each audio_files (Async.pygame_clip env pending)) s w
          (fun r s1 _ => r = Ok tt /\ s1 <> Final).
Proof.
  revert s w. induction audio_files as [|f rest IH]; intros s w Hag Hs; cbn [for_each].
  - apply (tracked_silent _ s w (Ok tt));
      [reflexivity | assumption | split; [reflexivity | assumption]].
  - eapply tracked_bind; [apply pygame_clip_tracked; assumption | |].
    + intros [] s1 w1 Hag1 [_ Hs1]. apply IH; assumption.
    + intros e s1 w1 _ [H _]. discriminate H.
Qed.

Lemma for_each_clip_tracked s audio_files w :
  agrees s w -> s <> Final ->
  tracked strict (for_each audio_files (Async.aplay_clip env pending)) s w
          (fun r s1 _ => r = Ok tt /\ s1 <> Final).
Proof.
  revert s w. induction audio_files as [|f rest IH]; intros s w Hag Hs; cbn [for_each].
  - apply (tracked_silent _ s w (Ok tt));
      [reflexivity | assumption | split; [reflexivity | assumption]].
  - eapply tracked_bind; [apply aplay_clip_tracked; assumption | |].
    + intros [] s1 w1 Hag1 [_ Hs1]. apply IH; assumption.
    + intros e s1 w1 _ [H _]. discriminate H.
Qed.

End Scheduler.

Section Loop.
Context (env : environment) (pending : nat -> Z -> bool).

(** The two places where the handler can run between a test of the flag
    and what the test guards: before the sleep of line 257 and before
    the first line of the announcement, line 155.  The strict monitor is
    for runs in which no signal is delivered there. *)
Hypothesis windows :
  strict = true -> forall k, pending k 155 = false /\ pending k 257 = false.

Lemma deliver_window {A : Type} line (m : M A) w
    (Q : result A -> phase -> world -> Prop) :
  line = 155 \/ line = 257 ->
  agrees Up w ->
  (forall s1 w1, agrees s1 w1 -> s1 = Up \/ (strict = false /\ s1 = Down) ->
                 tracked strict m s1 w1 Q) ->
  tracked strict (Async.deliver pending line ;; m) Up w Q.
Proof.
  intros Hline Hag Hm.
  destruct (Bool.bool_dec strict true) as [Hst|Hst].
  - destruct (windows Hst (length (trace w))) as [H155 H257].
    apply (tracked_ext _ m).
    { unfold mbind, M_bind, Async.deliver.
      destruct Hline as [-> | ->]; [rewrite H155 | rewrite H257]; reflexivity. }
    apply Hm; [exact Hag | left; reflexivity].
  - apply Bool.not_true_is_false in Hst.
    apply (deliver_then _ _ _ (fun s => s = Up \/ (strict = false /\ s = Down)));
      [exact Hag | left; reflexivity | right; split; [exact Hst | reflexivity]
      | exact Hm].
Qed.

Lemma get_running_tracked s w :
  agrees s w ->
  tracked strict get_running s w (fun r s1 w1 => r = Ok (running w) /\ s1 = s /\ w1 = w).
Proof.
  intros Hag. apply (tracked_silent _ s w (Ok (running w)));
    [reflexivity | assumption | repeat split].
Qed.

Lemma agrees_up s w : agrees s w -> running w = true -> s = Up.
Proof. unfold agrees. destruct s; cbn [live]; congruence. Qed.

(** An announcement whose check has passed: whether or not the handler
    runs before its first line or later, the trace stays one the monitor
    accepts, and no sleep has been the last thing done. *)
Lemma announce_time_tracked w :
  agrees Up w ->
  tracked strict (Async.announce_time env pending) Up w (fun _ s1 _ => s1 <> Final).
Proof.
  intros Hag.
  apply (tracked_ext _
           (Async.deliver pending 155 ;;
            print (MsgAnnouncing (of_us (clock w))) ;;
            audio_files ← get_audio_files_for_time;
            if PYGAME_AVAILABLE env
            then Async.play_audio_sequence_pygame env pending audio_files
            else Async.play_audio_sequence_aplay env pending audio_files));
    [reflexivity|].
  apply deliver_window; [left; reflexivity | assumption|].
  intros s0 w0 Hag0 Hs0.
  eapply tracked_bind; [apply print_announcing_tracked; assumption | |].
  2:{ intros e s1 w1 _ [H _]. discriminate H. }
  intros [] s1 w1 Hag1 [_ Hs1].
  eapply (tracked_bind _ _ _ _ (fun _ s2 _ => s2 <> Final)).
  { eapply tracked_silent;
      [apply (get_audio_files_for_time_reads_clock w1 w1 eq_refl) | assumption
      | assumption]. }
  2:{ intros e s2 w2 _ H. exact H. }
  intros audio_files s2 w2 Hag2 Hs2.
  destruct (PYGAME_AVAILABLE env).
  2:{ eapply tracked_weaken;
        [apply for_each_clip_tracked; assumption|].
      intros r s3 w3 [_ H]. exact H. }
  unfold Async.play_audio_sequence_pygame.
  apply (deliver_then _ _ _ (fun s => s <> Final));
    [assumption | assumption | apply stop_not_final; assumption|].
  intros s3 w3 Hag3 Hs3.
  eapply (tracked_bind _ _ _ _ (fun _ s4 _ => s4 <> Final)).
  - assert (Hinit : exists r, pygame_mixer_init env w3 = (r, w3)).
    { unfold pygame_mixer_init.
      destruct (mixer_init env (length (trace w3))); eexists; reflexivity. }
    destruct Hinit as [r Hinit].
    eapply tracked_silent; [exact Hinit | assumption | assumption].
  - intros [] s4 w4 Hag4 Hs4.
    eapply tracked_weaken; [apply for_each_pygame_tracked; assumption|].
    intros r s5 w5 [_ H]. exact H.
  - intros e s4 w4 _ H. exact H.
Qed.

Lemma async_wait_loop_body wait_seconds :
  Async.wait_loop env pending wait_seconds
  = if decide (0 < wait_seconds) then
      Async.deliver pending 254 ;;
      r ← get_running;
      if (r : bool) then
        Async.deliver pending 257 ;;
        time_sleep env (Z.min wait_seconds chunk) ;;
        Async.deliver pending 259 ;;
        r ← get_running;
        if negb r then mret tt
        else Async.wait_loop env pending (wait_seconds - Z.min wait_seconds chunk)
      else mret tt
    else mret tt.
Proof.
  rewrite Async.wait_loop_equation_1 at 1.
  destruct (decide (0 < wait_seconds)); reflexivity.
Qed.

(** The wait always ends, sleeps in chunks of at most [chunk], and
    sleeps at most once more after the flag has gone down. *)
Lemma wait_loop_tracked wait_seconds s w :
  agrees s w ->
  tracked strict (Async.wait_loop env pending wait_seconds) s w (fun r _ _ => r = Ok tt).
Proof.
  remember (Z.to_nat ((wait_seconds + chunk - 1) / chunk)) as n eqn:Hn.
  revert wait_seconds Hn s w.
  induction n as [n IH] using lt_wf_ind. intros wait_seconds Hn s w Hag.
  rewrite async_wait_loop_body.
  destruct (decide (0 < wait_seconds)) as [Hpos|Hneg];
    [|eapply tracked_silent; [reflexivity | assumption | reflexivity]].
  apply (deliver_then _ _ _ (fun _ => True)); [assumption | exact I | exact I|].
  intros s0 w0 Hag0 _.
  eapply tracked_bind; [apply get_running_tracked; assumption | |].
  2:{ intros e s1 w1 _ [H _]. discriminate H. }
  intros r s1 w1 _ ([= ->] & -> & ->).
  destruct (running w0) eqn:Hrun;
    [|eapply tracked_silent; [reflexivity | assumption | reflexivity]].
  pose proof (agrees_up _ _ Hag0 Hrun) as ->.
  apply deliver_window; [right; reflexivity | assumption|].
  intros s1 w1 Hag1 Hs1.
  eapply tracked_bind;
    [apply time_sleep_tracked; [assumption | assumption | unfold chunk; lia] | |].
  2:{ intros e s2 w2 _ H. discriminate H. }
  intros [] s2 w2 Hag2 _.
  apply (deliver_then _ _ _ (fun _ => True)); [assumption | exact I | exact I|].
  intros s3 w3 Hag3 _.
  eapply tracked_bind; [apply get_running_tracked; assumption | |].
  2:{ intros e s4 w4 _ [H _]. discriminate H. }
  intros r s4 w4 _ ([= ->] & -> & ->).
  destruct (running w3); cbn [negb];
    [|eapply tracked_silent; [reflexivity | assumption | reflexivity]].
  eapply (IH (Z.to_nat ((wait_seconds - Z.min wait_seconds chunk + chunk - 1) / chunk)));
    [|reflexivity | assumption].
  subst n. unfold chunk. apply Z2Nat.inj_lt; Z.div_mod_to_equations; lia.
Qed.

Lemma loop_body_tracked interval s w :
  agrees s w -> running w = true ->
  tracked strict (Async.loop_body env pending interval) s w (fun _ _ _ => True).
Proof.
  intros Hag Hrun. unfold Async.loop_body.
  apply (deliver_then _ _ _ (fun _ => True)); [assumption | exact I | exact I|].
  intros s0 w0 Hag0 _.
  eapply (tracked_bind _ _ _ _ (fun _ s1 w1 => s1 = s0 /\ w1 = w0)).
  { eapply tracked_silent; [reflexivity | assumption | split; reflexivity]. }
  2:{ intros; exact I. }
  intros now s1 w1 _ [-> ->].
  eapply (tracked_bind _ _ _ _ (fun _ s1 w1 => s1 = s0 /\ w1 = w0)).
  { eapply tracked_silent; [reflexivity | assumption | split; reflexivity]. }
  2:{ intros; exact I. }
  intros next_time s1 w1 _ [-> ->].
  eapply tracked_bind; [apply wait_loop_tracked; assumption | |].
  2:{ intros; exact I. }
  intros [] s1 w1 Hag1 _.
  apply (deliver_then _ _ _ (fun _ => True)); [assumption | exact I | exact I|].
  intros s2 w2 Hag2 _.
  eapply tracked_bind; [apply get_running_tracked; assumption | |].
  2:{ intros; exact I. }
  intros r s3 w3 _ ([= ->] & -> & ->).
  destruct (running w2) eqn:Hrun2.
  - pose proof (agrees_up _ _ Hag2 Hrun2) as ->.
    eapply tracked_weaken; [apply announce_time_tracked; assumption|].
    intros; exact I.
  - eapply tracked_silent; [reflexivity | assumption | exact I].
Qed.

(** The loop as a whole: its trace is accepted by the monitor, and it
    is still looping only if the flag is still up. *)
Lemma main_loop_tracked fuel interval s w :
  agrees s w ->
  tracked strict (Async.main_loop env pending fuel interval) s w
          (fun r _ w1 => r = Ok Looping -> running w1 = true).
Proof.
  revert s w. induction fuel as [|fuel IH]; intros s w Hag; cbn [Async.main_loop].
  - apply (deliver_then _ _ _ (fun _ => True)); [assumption | exact I | exact I|].
    intros s0 w0 Hag0 _.
    eapply tracked_bind; [apply get_running_tracked; assumption | |].
    2:{ intros e s1 w1 _ _ H. discriminate H. }
    intros r s1 w1 _ ([= ->] & -> & ->).
    destruct (running w0) eqn:Hrun;
      (eapply tracked_silent; [reflexivity | assumption |]).
    + intros _. exact Hrun.
    + intros H. discriminate H.
  - apply (deliver_then _ _ _ (fun _ => True)); [assumption | exact I | exact I|].
    intros s0 w0 Hag0 _.
    eapply tracked_bind; [apply get_running_tracked; assumption | |].
    2:{ intros e s1 w1 _ _ H. discriminate H. }
    intros r s1 w1 _ ([= ->] & -> & ->).
    destruct (running w0) eqn:Hrun.
    + eapply tracked_bind; [apply loop_body_tracked; assumption | |].
      * intros [] s1 w1 Hag1 _. apply IH. assumption.
      * intros e s1 w1 _ _ H. discriminate H.
    + eapply tracked_silent; [reflexivity | assumption |].
      intros H. discriminate H.
Qed.

(** A loop entered with the flag down returns at once. *)
Lemma main_loop_down fuel interval w :
  running w = false ->
  exists w1 evs,
    Async.main_loop env pending fuel interval w = (Ok Returned, w1) /\
    trace w1 = trace w ++ evs /\
    Forall (fun e => e = Print MsgStopping) evs.
Proof.
  intros Hdown.
  assert (E : Async.main_loop env pending fuel interval
              = (Async.deliver pending 230 ;;
                 r ← get_running;
                 if (r : bool) then
                   match fuel with
                   | O => mret Looping
                   | S fuel' => Async.loop_body env pending interval ;;
                                Async.main_loop env pending fuel' interval
                   end
                 else mret Returned)) by (destruct fuel; reflexivity).
  rewrite E. unfold mbind, M_bind, get_running, Async.deliver.
  destruct (pending (length (trace w)) 230).
  - cbn. eexists _, [Print MsgStopping]. split; [reflexivity|].
    split; [reflexivity | repeat constructor].
  - rewrite Hdown. exists w, []. split; [reflexivity|].
    split; [rewrite app_nil_r; reflexivity | constructor].
Qed.

End Loop.

End Tracked.

Lemma wait_loop_body env wait_seconds :
  wait_loop env wait_seconds
  = if decide (0 < wait_seconds) then
      r ← get_running;
      if (r : bool) then
        time_sleep env (Z.min wait_seconds chunk) ;;
        r ← get_running;
        if negb r then mret tt
        else wait_loop env (wait_seconds - Z.min wait_seconds chunk)
      else mret tt
    else mret tt.
Proof.
  rewrite wait_loop_equation_1 at 1.
  destruct (decide (0 < wait_seconds)); reflexivity.
Qed.

(** ** The loop when the handler runs inside blocking calls only *)

Lemma bind_ext_head {A B : Type} (m m' : M A) (k k' : A -> M B) w :
  m w = m' w -> (forall a w1, k a w1 = k' a w1) -> (m ≫= k) w = (m' ≫= k') w.
Proof.
  intros Hm H. unfold mbind, M_bind. rewrite Hm.
  destruct (m' w) as [[a|e] w1]; [apply H | reflexivity].
Qed.

Lemma bind_ext {A B : Type} (m : M A) (k k' : A -> M B) w :
  (forall a w1, k a w1 = k' a w1) -> (m ≫= k) w = (m ≫= k') w.
Proof. apply bind_ext_head. reflexivity. Qed.

Lemma try_except_ext {A : Type} (m m' : M A) (h h' : exn -> M A) w :
  m w = m' w -> (forall e w1, h e w1 = h' e w1) ->
  try_except m h w = try_except m' h' w.
Proof.
  intros Hm Hh. unfold try_except. rewrite Hm.
  destruct (m' w) as [[a|e] w1]; [reflexivity | apply Hh].
Qed.

Lemma for_each_ext {A : Type} (f g : A -> M unit) (l : list A) w :
  (forall x w1, f x w1 = g x w1) -> for_each l f w = for_each l g w.
Proof.
  intros H. revert w. induction l as [|x l IH]; intros w; cbn [for_each]; [reflexivity|].
  unfold mbind, M_bind. rewrite H. destruct (g x w) as [[[]|e] w1]; [apply IH | reflexivity].
Qed.

Section Quiet.
Context (env : environment) (pending : nat -> Z -> bool).
Hypothesis quiet : forall k line, pending k line = false.

Lemma deliver_quiet {A : Type} line (m : M A) w :
  (Async.deliver pending line ;; m) w = m w.
Proof. unfold mbind, M_bind, Async.deliver. rewrite quiet. reflexivity. Qed.

Lemma wait_while_busy_quiet polls w :
  Async.wait_while_busy env pending polls w = wait_while_busy env polls w.
Proof.
  revert w. induction polls as [|polls IH]; intros w;
    cbn [Async.wait_while_busy wait_while_busy]; [reflexivity|].
  rewrite deliver_quiet. apply bind_ext. intros [] w1. apply IH.
Qed.

Lemma pygame_clip_quiet audio_file w :
  Async.pygame_clip env pending audio_file w = pygame_clip env audio_file w.
Proof.
  unfold Async.pygame_clip, pygame_clip. apply bind_ext. intros ex w1.
  destruct (negb ex); [apply deliver_quiet|].
  apply try_except_ext.
  - cbv beta. rewrite deliver_quiet. apply bind_ext. intros [] w2.
    apply wait_while_busy_quiet.
  - intros e w2. apply deliver_quiet.
Qed.

Lemma aplay_clip_quiet audio_file w :
  Async.aplay_clip env pending audio_file w = aplay_clip env audio_file w.
Proof.
  unfold Async.aplay_clip, aplay_clip. apply bind_ext. intros ex w1.
  destruct (negb ex); [apply deliver_quiet|].
  apply try_except_ext; [apply deliver_quiet|].
  intros e w2. apply deliver_quiet.
Qed.

Lemma announce_time_quiet w :
  Async.announce_time env pending w = announce_time env w.
Proof.
  unfold Async.announce_time, announce_time. apply bind_ext. intros now w1.
  rewrite deliver_quiet. apply bind_ext. intros [] w2.
  apply bind_ext. intros audio_files w3.
  destruct (PYGAME_AVAILABLE env).
  - unfold Async.play_audio_sequence_pygame, play_audio_sequence_pygame.
    rewrite deliver_quiet. apply bind_ext. intros [] w4.
    apply for_each_ext. apply pygame_clip_quiet.
  - apply for_each_ext. apply aplay_clip_quiet.
Qed.

Lemma wait_loop_quiet wait_seconds w :
  Async.wait_loop env pending wait_seconds w = wait_loop env wait_seconds w.
Proof.
  remember (Z.to_nat ((wait_seconds + chunk - 1) / chunk)) as n eqn:Hn.
  revert wait_seconds Hn w.
  induction n as [n IH] using lt_wf_ind. intros wait_seconds Hn w.
  rewrite async_wait_loop_body, wait_loop_body.
  destruct (decide (0 < wait_seconds)) as [Hpos|Hneg]; [|reflexivity].
  rewrite deliver_quiet. apply bind_ext. intros r w1.
  destruct r; [|reflexivity].
  rewrite deliver_quiet. apply bind_ext. intros [] w2.
  rewrite deliver_quiet. apply bind_ext. intros r w3.
  destruct r; cbn [negb]; [|reflexivity].
  eapply (IH (Z.to_nat ((wait_seconds - Z.min wait_seconds chunk + chunk - 1) / chunk)));
    [|reflexivity].
  subst n. unfold chunk. apply Z2Nat.inj_lt; Z.div_mod_to_equations; lia.
Qed.

Lemma loop_body_quiet interval w :
  Async.loop_body env pending interval w = loop_body env interval w.
Proof.
  unfold Async.loop_body, loop_body. rewrite deliver_quiet.
  apply bind_ext. intros now w1. apply bind_ext. intros next_time w2.
  cbv zeta. apply bind_ext_head; [apply wait_loop_quiet|]. intros [] w3.
  rewrite deliver_quiet. apply bind_ext. intros r w4.
  destruct r; [apply announce_time_quiet | reflexivity].
Qed.

(** With no signal between statements, the loop is [main_loop]. *)
Lemma main_loop_quiet fuel interval w :
  Async.main_loop env pending fuel interval w = main_loop env fuel interval w.
Proof.
  revert w. induction fuel as [|fuel IH]; intros w; cbn [Async.main_loop main_loop];
    rewrite deliver_quiet; apply bind_ext; intros r w1; destruct r; try reflexivity.
  apply bind_ext_head; [apply loop_body_quiet|]. intros [] w2. apply IH.
Qed.

End Quiet.

(** ** Playback does not look at the flag *)

Lemma same_but_flag_refl w : same_but_flag w w.
Proof. repeat split. Qed.

Lemma flag_blind_ret {A : Type} (a : A) : flag_blind (mret a).
Proof. intros w w' H. split; [reflexivity | exact H]. Qed.

Lemma flag_blind_bind {A B : Type} (m : M A) (k : A -> M B) :
  flag_blind m -> (forall a, flag_blind (k a)) -> flag_blind (m ≫= k).
Proof.
  intros Hm Hk w w' Hs. unfold mbind, M_bind.
  destruct (Hm w w' Hs) as [Hr Hs1].
  destruct (m w) as [r1 w1], (m w') as [r1' w1']. cbn [fst snd] in Hr, Hs1. subst r1'.
  destruct r1 as [a|e]; [apply Hk; exact Hs1 | split; [reflexivity | exact Hs1]].
Qed.

Lemma flag_blind_try {A : Type} (m : M A) (h : exn -> M A) :
  flag_blind m -> (forall e, flag_blind (h e)) -> flag_blind (try_except m h).
Proof.
  intros Hm Hh w w' Hs. unfold try_except.
  destruct (Hm w w' Hs) as [Hr Hs1].
  destruct (m w) as [r1 w1], (m w') as [r1' w1']. cbn [fst snd] in Hr, Hs1. subst r1'.
  destruct r1 as [a|e]; [split; [reflexivity | exact Hs1] | apply Hh; exact Hs1].
Qed.

Lemma flag_blind_for_each {A : Type} (l : list A) (body : A -> M unit) :
  (forall x, flag_blind (body x)) -> flag_blind (for_each l body).
Proof.
  intros Hb. induction l as [|x l IH]; cbn [for_each].
  - apply flag_blind_ret.
  - apply flag_blind_bind; [apply Hb | intros _; exact IH].
Qed.

(** A piece of program chosen by the length of the trace. *)
Lemma flag_blind_at {A : Type} (f : nat -> M A) :
  (forall k, flag_blind (f k)) -> flag_blind (fun w => f (length (trace w)) w).
Proof.
  intros Hf w w' Hs. destruct Hs as (Hc & Hfs & Htr). rewrite Htr.
  apply Hf. repeat split; assumption.
Qed.

Lemma same_but_flag_log e w w' :
  same_but_flag w w' -> same_but_flag (log e w) (log e w').
Proof.
  intros (Hc & Hfs & Htr). unfold same_but_flag, log. cbn [clock fs trace].
  rewrite Hc, Hfs, Htr. repeat split.
Qed.

Lemma same_but_flag_advance d w w' :
  same_but_flag w w' -> same_but_flag (advance d w) (advance d w').
Proof.
  intros (Hc & Hfs & Htr). unfold same_but_flag, advance. cbn [clock fs trace].
  rewrite Hc, Hfs, Htr. repeat split.
Qed.

Lemma flag_blind_print m : flag_blind (print m).
Proof.
  intros w w' H. split; [reflexivity|]. exact (same_but_flag_log _ _ _ H).
Qed.

Lemma flag_blind_signal_handler : flag_blind signal_handler.
Proof.
  intros w w' H. split; [reflexivity|].
  destruct (same_but_flag_log (Print MsgStopping) _ _ H) as (Hc & Hfs & Htr).
  repeat split; assumption.
Qed.

Lemma flag_blind_os_path_exists p : flag_blind (os_path_exists p).
Proof.
  intros w w' (Hc & Hfs & Htr). unfold os_path_exists. cbn [fst snd].
  rewrite Hfs. split; [reflexivity | repeat split; assumption].
Qed.

Section FlagBlind.
Context (env : environment) (pending : nat -> Z -> bool).

Lemma flag_blind_deliver line : flag_blind (Async.deliver pending line).
Proof.
  intros w w' H. pose proof H as (Hc & Hfs & Htr).
  unfold Async.deliver. rewrite Htr.
  destruct (pending (length (trace w)) line);
    [apply flag_blind_signal_handler; exact H | split; [reflexivity | exact H]].
Qed.

Lemma flag_blind_blocking e d : flag_blind (blocking env e d).
Proof.
  intros w w' H.
  pose proof (same_but_flag_advance d _ _ (same_but_flag_log e _ _ H)) as H1.
  destruct H as (Hc & Hfs & Htr). unfold blocking. rewrite Htr.
  destruct (sigint env (length (trace w))).
  - apply flag_blind_signal_handler. exact H1.
  - split; [reflexivity | exact H1].
Qed.

Lemma flag_blind_subprocess_run_aplay p : flag_blind (subprocess_run_aplay env p).
Proof.
  apply (flag_blind_at
           (fun k => blocking env (Play p) (elapsed (aplay env k p)) ;;
                     match raised (aplay env k p) with
                     | Some e => raise e
                     | None => mret tt
                     end)).
  intros k. apply flag_blind_bind; [apply flag_blind_blocking|].
  intros _. destruct (raised _); [|apply flag_blind_ret].
  intros w w' H. split; [reflexivity | exact H].
Qed.

Lemma flag_blind_pygame_sound_play p : flag_blind (pygame_sound_play env p).
Proof.
  apply (flag_blind_at
           (fun k w => match mixer_sound env k p with
                       | Some e => (Raise e, w)
                       | None => (Ok tt, log (Play p) w)
                       end)).
  intros k w w' (Hc & Hfs & Htr). destruct (mixer_sound env k p).
  - split; [reflexivity | repeat split; assumption].
  - split; [reflexivity|]. apply same_but_flag_log. repeat split; assumption.
Qed.

Lemma flag_blind_pygame_mixer_init : flag_blind (pygame_mixer_init env).
Proof.
  apply (flag_blind_at
           (fun k w => match mixer_init env k with
                       | Some e => (Raise e, w)
                       | None => (Ok tt, w)
                       end)).
  intros k w w' H. destruct (mixer_init env k); split; try reflexivity; exact H.
Qed.

Lemma flag_blind_wait_while_busy polls :
  flag_blind (Async.wait_while_busy env pending polls).
Proof.
  induction polls as [|polls IH]; cbn [Async.wait_while_busy].
  - apply flag_blind_ret.
  - apply flag_blind_bind; [apply flag_blind_deliver | intros _].
    apply flag_blind_bind; [apply flag_blind_blocking | intros _; exact IH].
Qed.

Lemma flag_blind_pygame_clip audio_file :
  flag_blind (Async.pygame_clip env pending audio_file).
Proof.
  unfold Async.pygame_clip.
  apply flag_blind_bind; [apply flag_blind_os_path_exists | intros ex].
  destruct (negb ex).
  - apply flag_blind_bind; [apply flag_blind_deliver | intros _; apply flag_blind_print].
  - apply flag_blind_try.
    + apply (flag_blind_at
               (fun k => Async.deliver pending 131 ;;
                         pygame_sound_play env _ ;;
                         Async.wait_while_busy env pending (mixer_busy env k _))).
      intros k.
      apply flag_blind_bind; [apply flag_blind_deliver | intros _].
      apply flag_blind_bind; [apply flag_blind_pygame_sound_play | intros _].
      apply flag_blind_wait_while_busy.
    + intros e.
      apply flag_blind_bind; [apply flag_blind_deliver | intros _; apply flag_blind_print].
Qed.

Lemma flag_blind_aplay_clip audio_file :
  flag_blind (Async.aplay_clip env pending audio_file).
Proof.
  unfold Async.aplay_clip.
  apply flag_blind_bind; [apply flag_blind_os_path_exists | intros ex].
  destruct (negb ex).
  - apply flag_blind_bind; [apply flag_blind_deliver | intros _; apply flag_blind_print].
  - apply flag_blind_try.
    + apply flag_blind_bind;
        [apply flag_blind_deliver | intros _; apply flag_blind_subprocess_run_aplay].
    + intros e.
      apply flag_blind_bind; [apply flag_blind_deliver | intros _; apply flag_blind_print].
Qed.

(** An announcement goes the same way, clip by clip, whether the flag
    is up or down. *)
Lemma flag_blind_announce_time : flag_blind (Async.announce_time env pending).
Proof.
  unfold Async.announce_time.
  apply flag_blind_bind.
  { intros w w' (Hc & Hfs & Htr). unfold datetime_now. cbn [fst snd].
    rewrite Hc. split; [reflexivity | repeat split; assumption]. }
  intros now.
  apply flag_blind_bind; [apply flag_blind_deliver | intros _].
  apply flag_blind_bind; [apply flag_blind_print | intros _].
  apply flag_blind_bind.
  { intros w w' Hs. pose proof Hs as (Hc & Hfs & Htr).
    rewrite (get_audio_files_for_time_reads_clock w w' Hc).
    rewrite (get_audio_files_for_time_reads_clock w w eq_refl).
    split; [reflexivity | exact Hs]. }
  intros audio_files.
  destruct (PYGAME_AVAILABLE env).
  - unfold Async.play_audio_sequence_pygame.
    apply flag_blind_bind; [apply flag_blind_deliver | intros _].
    apply flag_blind_bind; [apply flag_blind_pygame_mixer_init | intros _].
    apply flag_blind_for_each. apply flag_blind_pygame_clip.
  - apply flag_blind_for_each. apply flag_blind_aplay_clip.
Qed.

End FlagBlind.

(** C8, amended: in the scheduling loop, with the handler run at any
    point, every sleep lasts at most 10 seconds ([chunk] microseconds),
    and the wait always returns.  After a line of the handler, that is
    once the flag is cleared, the loop does one of three things before
    it ends: it goes on with the playback in progress and nothing else;
    or it carries out one whole announcement, the one whose test had
    passed; or it sleeps once more, one chunk at most, and announces
    nothing.  When no signal is delivered between the test of line 254
    and the sleep of line 257, nor between the test of line 263 and the
    first line of the announcement, only the first remains: neither a
    sleep nor the first line of an announcement follows.  A loop whose
    flag is down has returned, at once when it was entered so.  An
    announcement does not look at the flag: it goes the same way, clip
    by clip, whether the flag is up or down.  With no signal between
    statements the loop is [main_loop]. *)
Theorem scheduler_stops_within_a_chunk
    (env : environment) (pending : nat -> Z -> bool)
    (fuel : nat) (interval : Z) (w : world) :
  chunk = 10 * 1000000 /\
  (forall wait_seconds, fst (Async.wait_loop env pending wait_seconds w) = Ok tt) /\
  (exists evs,
     trace (snd (Async.main_loop env pending fuel interval w)) = trace w ++ evs /\
     (forall d, Sleep d ∈ evs -> 0 < d <= chunk) /\
     (forall pre post, evs = pre ++ Print MsgStopping :: post ->
        Forall (fun e => is_playback e = true) post \/
        (exists stops t rest,
           post = stops ++ Print (MsgAnnouncing t) :: rest /\
           Forall (fun e => e = Print MsgStopping) stops /\
           Forall (fun e => is_playback e = true) rest) \/
        (exists stops d stops',
           post = stops ++ Sleep d :: stops' /\
           Forall (fun e => e = Print MsgStopping) stops /\
           Forall (fun e => e = Print MsgStopping) stops')) /\
     ((forall k, pending k 155 = false /\ pending k 257 = false) ->
      forall pre post, evs = pre ++ Print MsgStopping :: post ->
        Forall (fun e => is_playback e = true) post) /\
     (running (snd (Async.main_loop env pending fuel interval w)) = false ->
      fst (Async.main_loop env pending fuel interval w) <> Ok Looping) /\
     (running w = false ->
      fst (Async.main_loop env pending fuel interval w) = Ok Returned /\
      Forall (fun e => e = Print MsgStopping) evs)) /\
  (forall b,
     fst (Async.announce_time env pending (snd (set_running b w)))
     = fst (Async.announce_time env pending w) /\
     same_but_flag (snd (Async.announce_time env pending w))
                   (snd (Async.announce_time env pending (snd (set_running b w))))) /\
  ((forall k line, pending k line = false) ->
   Async.main_loop env pending fuel interval w = main_loop env fuel interval w).
Proof.
  split; [reflexivity|].
  set (s := if running w then Up else Down).
  assert (Hag : agrees s w) by (unfold agrees, s; destruct (running w); reflexivity).
  assert (Hloose : false = true ->
                   forall k, pending k 155 = false /\ pending k 257 = false)
    by (intros H; discriminate H).
  split.
  { intros wait_seconds.
    destruct (wait_loop_tracked (strict:=false) env pending Hloose wait_seconds s w Hag)
      as (r & w1 & evs & s1 & Hrun & _ & _ & _ & ->).
    rewrite Hrun. reflexivity. }
  split; [|split; [|intros Hq; apply main_loop_quiet; exact Hq]].
  2:{ intros b. apply flag_blind_announce_time. repeat split. }
  destruct (main_loop_tracked (strict:=false) env pending Hloose fuel interval s w Hag)
    as (r & w1 & evs & s1 & Hrun & Htr & Hmon & Hag1 & Hloop).
  exists evs. rewrite Hrun. cbn [fst snd].
  split; [exact Htr|].
  split; [exact (monitor_sleeps_bounded _ _ _ Hmon)|].
  split; [exact (monitor_after_stop _ _ _ Hmon)|].
  split.
  { intros Hwin.
    destruct (main_loop_tracked (strict:=true) env pending (fun _ => Hwin)
                fuel interval s w Hag)
      as (r' & w1' & evs' & s1' & Hrun' & Htr' & Hmon' & _).
    rewrite Hrun in Hrun'. injection Hrun' as <- <-.
    rewrite Htr in Htr'. apply app_inv_head in Htr'. subst evs'.
    exact (monitor_after_stop_strict _ _ _ Hmon'). }
  split.
  - intros Hstop Hr. rewrite (Hloop Hr) in Hstop. discriminate Hstop.
  - intros Hdown.
    destruct (main_loop_down env pending fuel interval w Hdown)
      as (w2 & evs2 & Hrun2 & Htr2 & Hall).
    rewrite Hrun in Hrun2. injection Hrun2 as -> ->.
    split; [reflexivity|].
    rewrite Htr in Htr2. apply app_inv_head in Htr2. subst evs2. exact Hall.
Qed.

(** Ctrl+C while the first clip plays: the three clips that remain are
    still played, nothing else follows, and then the loop has
    returned. *)
Lemma scheduler_stops_within_a_chunk_witness :
  exists pre post,
    trace (snd (Async.main_loop interrupted_env no_signal 1 30 waiting_world))
    = pre ++ Print MsgStopping :: post /\
    played post = ["/home/user/time_announcer_audio/sokal.wav";
                   "/home/user/time_announcer_audio/shatta.wav";
                   "/home/user/time_announcer_audio/trish_minute.wav"]%string /\
    Forall (fun e => is_playback e = true) post /\
    fst (Async.main_loop interrupted_env no_signal 1 30 waiting_world) <> Ok Looping.
Proof.
  destruct (scheduler_stops_within_a_chunk interrupted_env no_signal 1 30 waiting_world)
    as (_ & _ & (evs & Htr & _ & _ & Hstop & Hexit & _) & _ & _).
  assert (Hc : trace (snd (Async.main_loop interrupted_env no_signal 1 30 waiting_world))
               = [Sleep 5000000;
                  Print (MsgAnnouncing {| ordinal := 739000; hour := 7; minute := 30;
                                          second := 0; microsecond := 0 |});
                  Play "/home/user/time_announcer_audio/ekhon_somoy.wav"]
                 ++ Print MsgStopping
                 :: [Play "/home/user/time_announcer_audio/sokal.wav";
                     Play "/home/user/time_announcer_audio/shatta.wav";
                     Play "/home/user/time_announcer_audio/trish_minute.wav"])
    by (vm_compute; reflexivity).
  rewrite Hc in Htr. change (trace waiting_world ++ evs) with evs in Htr.
  eexists _, _. split; [exact Hc|]. split; [reflexivity|].
  split; [apply (Hstop (fun _ => conj eq_refl eq_refl) _ _ (eq_sym Htr))|].
  apply Hexit. vm_compute. reflexivity.
Defined.

(** C8 as stated fails: Ctrl+C after the test of line 263 has passed
    and before the announcement prints its line.  The flag is down, and
    the loop still carries out a whole announcement of four clips
    before it returns. *)
Lemma scheduler_stops_within_a_chunk_counterexample :
  exists evs,
    fst (Async.main_loop aplay_env late_signal 1 30 waiting_world) = Ok Returned /\
    trace (snd (Async.main_loop aplay_env late_signal 1 30 waiting_world))
    = trace waiting_world ++ evs /\
    evs = [Sleep 5000000; Print MsgStopping;
           Print (MsgAnnouncing {| ordinal := 739000; hour := 7; minute := 30;
                                   second := 0; microsecond := 0 |});
           Play "/home/user/time_announcer_audio/ekhon_somoy.wav";
           Play "/home/user/time_announcer_audio/sokal.wav";
           Play "/home/user/time_announcer_audio/shatta.wav";
           Play "/home/user/time_announcer_audio/trish_minute.wav"] /\
    ~ stops_without_announcing evs.
Proof.
  eexists. split; [vm_compute; reflexivity|].
  split; [|split; [reflexivity|]].
  - vm_compute. reflexivity.
  - intros H. specialize (H [Sleep 5000000] _ eq_refl). discriminate H.
Qed.

(** * Further properties of the code *)

(** ** The announced time *)

(** X1: the time the resolver announces (rounded minute with the 24-hour
    value after rounding) lies on a quarter hour, is at most seven
    minutes away from the time of the clock, around midnight included,
    and the 12-hour value announced is the 12-hour value of that 24-hour
    value. *)
Theorem announced_time_is_nearest_quarter (h m : Z) :
  0 <= h < 24 -> 0 <= m < 60 ->
  match round_minute h (hour_12_of h) m with
  | (mr, h12, h24) =>
      h12 = hour_12_of h24 /\
      (h24 * 60 + mr) mod 15 = 0 /\
      0 <= h24 * 60 + mr < 1440 /\
      exists delta, -7 <= delta <= 7 /\ h24 * 60 + mr = (h * 60 + m + delta) mod 1440
  end.
Proof.
  intros Hh Hm. unfold round_minute.
  destruct (Z.ltb_spec m 8); [|destruct (Z.ltb_spec m 23);
    [|destruct (Z.ltb_spec m 38); [|destruct (Z.ltb_spec m 53)]]].
  - split; [reflexivity|]. split; [Z.div_mod_to_equations; lia|]. split; [lia|].
    exists (- m). split; [lia|]. Z.div_mod_to_equations; lia.
  - split; [reflexivity|]. split; [Z.div_mod_to_equations; lia|]. split; [lia|].
    exists (15 - m). split; [lia|]. Z.div_mod_to_equations; lia.
  - split; [reflexivity|]. split; [Z.div_mod_to_equations; lia|]. split; [lia|].
    exists (30 - m). split; [lia|]. Z.div_mod_to_equations; lia.
  - split; [reflexivity|]. split; [Z.div_mod_to_equations; lia|]. split; [lia|].
    exists (45 - m). split; [lia|]. Z.div_mod_to_equations; lia.
  - split; [apply hour_12_of_succ, Hh|].
    split; [Z.div_mod_to_equations; lia|]. split; [Z.div_mod_to_equations; lia|].
    exists (60 - m). split; [lia|]. Z.div_mod_to_equations; lia.
Qed.

Lemma announced_time_is_nearest_quarter_witness :
  round_minute 23 (hour_12_of 23) 55 = (0, 12, 0) /\
  exists delta, -7 <= delta <= 7 /\ 0 * 60 + 0 = (23 * 60 + 55 + delta) mod 1440.
Proof.
  split; [reflexivity|].
  pose proof (announced_time_is_nearest_quarter 23 55 ltac:(lia) ltac:(lia)) as H.
  change (round_minute 23 (hour_12_of 23) 55) with (0, 12, 0) in H.
  exact (proj2 (proj2 (proj2 H))).
Defined.

(** ** How long the scheduler waits *)

(** X2: whatever the interval argument, the instant computed for the
    next announcement is strictly later than the present and at most one
    hour later; at most 15 minutes later for interval 15 and at most 30
    for interval 30.  An interval other than 15 or 30 is treated as 60. *)
Theorem next_announcement_within_interval (interval : Z) (now t : datetime) :
  0 <= hour now < 24 -> 0 <= minute now < 60 ->
  0 <= second now < 60 -> 0 <= microsecond now < 1000000 ->
  next_announcement interval now = Ok t ->
  0 < to_us t - to_us now <= 3600000000 /\
  (interval = 15 -> to_us t - to_us now <= 900000000) /\
  (interval = 30 -> to_us t - to_us now <= 1800000000) /\
  (interval <> 15 -> interval <> 30 ->
   next_announcement interval now = next_announcement 60 now).
Proof.
  intros Hh Hm Hs Hus. destruct now as [o h m s us].
  cbn [ordinal hour minute second microsecond] in *.
  unfold next_announcement.
  cbn [ordinal hour minute second microsecond dt_replace result_bind andb
       Z.leb Z.ltb Z.compare].
  assert (Hadd : forall t,
    dt_add {| ordinal := o; hour := h; minute := 0; second := 0; microsecond := 0 |}
           one_hour = Ok t ->
    to_us t = to_us {| ordinal := o; hour := h; minute := 0; second := 0;
                       microsecond := 0 |} + 3600000000).
  { intros t0. unfold dt_add, one_hour.
    destruct (_ && _); [|discriminate]. intros [= <-]. apply to_us_of_us. }
  destruct (Z.eqb_spec interval 15) as [->|H15].
  - destruct (Z.eqb_spec ((m / 15 + 1) * 15) 60) as [E|E].
    + intros Ht. apply Hadd in Ht. unfold to_us in *.
      cbn [ordinal hour minute second microsecond] in *.
      repeat split; intros; try congruence; Z.div_mod_to_equations; lia.
    + unfold dt_replace.
      destruct (_ && _); [|discriminate]. intros [= <-]. unfold to_us.
      cbn [ordinal hour minute second microsecond].
      repeat split; intros; try congruence; Z.div_mod_to_equations; lia.
  - destruct (Z.eqb_spec interval 30) as [->|H30].
    + destruct (Z.ltb_spec m 30).
      * intros [= <-]. unfold to_us. cbn [ordinal hour minute second microsecond].
        repeat split; intros; try congruence; lia.
      * intros Ht. apply Hadd in Ht. unfold to_us in *.
        cbn [ordinal hour minute second microsecond] in *.
        repeat split; intros; try congruence; lia.
    + intros Ht. apply Hadd in Ht. unfold to_us in *.
      cbn [ordinal hour minute second microsecond] in *.
      repeat split; intros; try congruence; lia.
Qed.

Lemma next_announcement_within_interval_witness :
  exists t, next_announcement 45 early_morning = Ok t /\
            0 < to_us t - to_us early_morning <= 3600000000.
Proof.
  eexists. split; [reflexivity|].
  refine (proj1 (next_announcement_within_interval 45 early_morning _ _ _ _ _ eq_refl));
    cbn; lia.
Defined.

(** ** What an announcement tells *)

Lemma dict_get_inj {K V : Type} `{EqDecision K} (d : dict K V) k1 k2 v :
  NoDup (dict_values d) ->
  dict_get d k1 = Some v -> dict_get d k2 = Some v -> k1 = k2.
Proof.
  induction d as [|[k v0] d IH]; [discriminate|].
  unfold dict_values. cbn [fmap list_fmap snd dict_get].
  intros Hnd H1 H2. apply NoDup_cons in Hnd. destruct Hnd as [Hnotin Hnd].
  destruct (decide (k1 = k)) as [->|N1], (decide (k2 = k)) as [->|N2].
  - reflexivity.
  - injection H1 as <-. apply dict_get_values in H2. destruct (Hnotin H2).
  - injection H2 as <-. apply dict_get_values in H1. destruct (Hnotin H1).
  - exact (IH Hnd H1 H2).
Qed.

Lemma AUDIO_FILES_values_NoDup : NoDup (dict_values AUDIO_FILES).
Proof. apply (bool_decide_unpack _). vm_compute. reflexivity. Qed.

Lemma key_suffix_inj (a b : Z) (pre : string) :
  pre +:+ pretty a = pre +:+ pretty b -> a = b.
Proof.
  intros H. apply (inj pretty).
  induction pre as [|c pre IH]; [exact H|].
  apply IH. injection H as H. exact H.
Qed.

(** Within a period of the day the 12-hour value tells the hour. *)
Lemma period_and_hour_12_tell_hour a b :
  0 <= a < 24 -> 0 <= b < 24 ->
  TIME_PERIODS !! a = TIME_PERIODS !! b -> hour_12_of a = hour_12_of b -> a = b.
Proof.
  intros Ha Hb.
  assert (Hall : Forall (fun x => Forall (fun y =>
            TIME_PERIODS !! x = TIME_PERIODS !! y ->
            hour_12_of x = hour_12_of y -> x = y) (seqZ 0 24)) (seqZ 0 24)).
  { apply (bool_decide_unpack _). vm_compute. reflexivity. }
  rewrite Forall_forall in Hall.
  specialize (Hall a ltac:(apply elem_of_seqZ; lia)).
  rewrite Forall_forall in Hall.
  exact (Hall b ltac:(apply elem_of_seqZ; lia)).
Qed.

Lemma round_minute_hour_12 h m :
  0 <= h < 24 ->
  match round_minute h (hour_12_of h) m with
  | (_, h12, h24) => h12 = hour_12_of h24
  end.
Proof.
  intros Hh. unfold round_minute.
  repeat match goal with |- context [if ?b then _ else _] => destruct b end;
    first [reflexivity | apply hour_12_of_succ, Hh].
Qed.

(** X3: two valid instants get the same list of clips from the resolver
    exactly when they round to the same announced time (same rounded
    minute, same 12-hour and 24-hour value): what is played tells the
    quarter hour, and nothing else about the instant. *)
Theorem announcement_identifies_rounded_time (now1 now2 : datetime) (w1 w2 : world) :
  valid_datetime now1 -> valid_datetime now2 ->
  clock w1 = to_us now1 -> clock w2 = to_us now2 ->
  (fst (get_audio_files_for_time w1) = fst (get_audio_files_for_time w2) <->
   round_minute (hour now1) (hour_12_of (hour now1)) (minute now1)
   = round_minute (hour now2) (hour_12_of (hour now2)) (minute now2)).
Proof.
  intros Hv1 Hv2 Hc1 Hc2.
  pose proof Hv1 as (_ & Hh1 & _). pose proof Hv2 as (_ & Hh2 & _).
  pose proof (get_audio_files_for_time_run now1 w1 Hv1 Hc1) as R1.
  pose proof (get_audio_files_for_time_run now2 w2 Hv2 Hc2) as R2.
  pose proof (round_minute_hour_12 (hour now1) (minute now1) Hh1) as A1.
  pose proof (round_minute_hour_12 (hour now2) (minute now2) Hh2) as A2.
  pose proof (round_minute_range (hour now1) (hour_12_of (hour now1)) (minute now1)
                Hh1 (hour_12_of_range _ Hh1)) as B1.
  pose proof (round_minute_range (hour now2) (hour_12_of (hour now2)) (minute now2)
                Hh2 (hour_12_of_range _ Hh2)) as B2.
  destruct (round_minute (hour now1) _ _) as [[mr1 h12a] h24a].
  destruct (round_minute (hour now2) _ _) as [[mr2 h12b] h24b].
  destruct R1 as (i1 & p1 & pc1 & hc1 & Hi1 & Hp1 & Hpc1 & Hhc1 & R1).
  destruct R2 as (i2 & p2 & pc2 & hc2 & Hi2 & Hp2 & Hpc2 & Hhc2 & R2).
  destruct B1 as (_ & _ & H24a). destruct B2 as (_ & _ & H24b).
  split.
  - intros E.
    assert (Hcore : pc1 = pc2 -> hc1 = hc2 -> h12a = h12b /\ h24a = h24b).
    { intros -> ->.
      pose proof (dict_get_inj _ _ _ _ AUDIO_FILES_values_NoDup Hpc1 Hpc2) as Ep.
      pose proof (dict_get_inj _ _ _ _ AUDIO_FILES_values_NoDup Hhc1 Hhc2) as Eh.
      apply key_suffix_inj in Eh.
      split; [exact Eh|].
      apply period_and_hour_12_tell_hour; [assumption | assumption | congruence | congruence]. }
    destruct R1 as [[-> R1]|[M1 (mc1 & Hmc1 & R1)]];
      destruct R2 as [[-> R2]|[M2 (mc2 & Hmc2 & R2)]];
      rewrite R1, R2 in E; cbn [fst] in E; injection E as E; try discriminate.
    + destruct Hcore as [-> ->]; congruence.
    + destruct Hcore as [-> ->]; try congruence.
      assert (mc1 = mc2) by congruence. subst mc2.
      pose proof (dict_get_inj _ _ _ _ AUDIO_FILES_values_NoDup Hmc1 Hmc2) as Em.
      apply key_suffix_inj in Em. congruence.
  - intros [= -> -> ->].
    assert (p1 = p2) by congruence. subst p2.
    assert (pc1 = pc2) by congruence. assert (hc1 = hc2) by congruence.
    assert (i1 = i2) by congruence. subst.
    destruct R1 as [[E1 R1]|[M1 (mc1 & Hmc1 & R1)]];
      destruct R2 as [[E2 R2]|[M2 (mc2 & Hmc2 & R2)]];
      rewrite R1, R2; cbn [fst]; try lia; [reflexivity|].
    assert (mc1 = mc2) by congruence. subst. reflexivity.
Qed.

Lemma announcement_identifies_rounded_time_witness :
  fst (get_audio_files_for_time (world_at late_evening))
  <> fst (get_audio_files_for_time (world_at early_morning)).
Proof.
  intros E.
  apply (announcement_identifies_rounded_time late_evening early_morning
           (world_at late_evening) (world_at early_morning)
           late_evening_valid early_morning_valid eq_refl eq_refl) in E.
  discriminate E.
Defined.

(** ** What playback does and does not do *)

Lemma footprint_refl w : footprint w w [].
Proof. unfold footprint. rewrite app_nil_r. repeat split; auto. Qed.

Lemma footprint_trans w w1 w2 evs1 evs2 :
  footprint w w1 evs1 -> footprint w1 w2 evs2 -> footprint w w2 (evs1 ++ evs2).
Proof.
  intros (Ht1 & Hf1 & Hr1) (Ht2 & Hf2 & Hr2). unfold footprint.
  split; [rewrite Ht2, Ht1, app_assoc; reflexivity|].
  split; [congruence | auto].
Qed.

Lemma footprint_log e w : footprint w (log e w) [e].
Proof. unfold footprint. repeat split; auto. Qed.

Lemma played_app evs1 evs2 : played (evs1 ++ evs2) = played evs1 ++ played evs2.
Proof. apply omap_app. Qed.

Lemma warned_app evs1 evs2 : warned (evs1 ++ evs2) = warned evs1 ++ warned evs2.
Proof. apply omap_app. Qed.

Lemma slept_app evs1 evs2 : slept (evs1 ++ evs2) = slept evs1 + slept evs2.
Proof.
  induction evs1 as [|e evs1 IH]; [reflexivity|].
  cbn [app slept foldr]. fold (slept (evs1 ++ evs2)). fold (slept evs1).
  rewrite IH. destruct e; lia.
Qed.

Section Footprint.
Context (env : environment).

Lemma blocking_effect e d w :
  exists w1,
    blocking env e d w = (Ok tt, w1) /\
    footprint w w1 (e :: if sigint env (length (trace w)) then [Print MsgStopping] else []) /\
    clock w1 = clock w + d /\
    running w1 = running w && negb (sigint env (length (trace w))).
Proof.
  unfold blocking, footprint. destruct (sigint env (length (trace w))).
  - eexists. split; [reflexivity|]. cbn.
    rewrite andb_false_r, <- app_assoc. repeat split. discriminate.
  - eexists. split; [reflexivity|]. cbn.
    rewrite andb_true_r. repeat split. auto.
Qed.

(** One clip given to [aplay]: the file is handed over when, and only
    when, it exists; otherwise it is warned about. *)
Lemma aplay_clip_footprint audio_file w :
  let full_path := os_path_join (AUDIO_DIR env) audio_file in
  exists w1 evs,
    aplay_clip env audio_file w = (Ok tt, w1) /\
    footprint w w1 evs /\
    Forall (fun e => is_playback e = true) evs /\
    played evs = (if bool_decide (full_path ∈ fs w) then [full_path] else []) /\
    warned evs = (if bool_decide (full_path ∈ fs w) then [] else [full_path]).
Proof.
  intros full_path.
  unfold aplay_clip, mbind, M_bind, os_path_exists. fold full_path.
  destruct (bool_decide (full_path ∈ fs w)); cbn [negb].
  - unfold try_except, subprocess_run_aplay, mbind, M_bind.
    set (o := aplay env (length (trace w)) full_path).
    destruct (blocking_effect (Play full_path) (elapsed o) w) as (w1 & Hb & Hfp & _).
    rewrite Hb.
    assert (Hq : Forall (fun e => is_playback e = true)
                   (Play full_path ::
                      (if sigint env (length (trace w)) then [Print MsgStopping] else []))).
    { destruct (sigint env _); repeat constructor. }
    assert (Hp : played (Play full_path ::
                   (if sigint env (length (trace w)) then [Print MsgStopping] else []))
                 = [full_path]) by (destruct (sigint env _); reflexivity).
    assert (Hw : warned (Play full_path ::
                   (if sigint env (length (trace w)) then [Print MsgStopping] else []))
                 = []) by (destruct (sigint env _); reflexivity).
    destruct (raised o) as [e|].
    + eexists _, _. split; [reflexivity|].
      split; [exact (footprint_trans _ _ _ _ _ Hfp (footprint_log _ _))|].
      split; [apply Forall_app; split; [exact Hq | repeat constructor]|].
      rewrite played_app, warned_app, Hp, Hw. split; reflexivity.
    + eexists _, _. split; [reflexivity|]. split; [exact Hfp|].
      split; [exact Hq|]. split; assumption.
  - eexists _, _. split; [reflexivity|]. split; [apply footprint_log|].
    split; [repeat constructor|]. split; reflexivity.
Qed.

Lemma wait_while_busy_footprint polls w :
  exists w1 evs,
    wait_while_busy env polls w = (Ok tt, w1) /\
    footprint w w1 evs /\
    Forall (fun e => is_playback e = true) evs /\
    played evs = [] /\ warned evs = [].
Proof.
  revert w. induction polls as [|polls IH]; intros w; cbn [wait_while_busy].
  - exists w, []. split; [reflexivity|]. split; [apply footprint_refl|].
    split; [constructor|]. split; reflexivity.
  - destruct (blocking_effect (Delay 100) 100000 w) as (w1 & Hb & Hfp & _).
    destruct (IH w1) as (w2 & evs & Hw & Hfp2 & Hq & Hp & Hwn).
    eexists _, _.
    split; [unfold mbind, M_bind; rewrite Hb; exact Hw|].
    split; [exact (footprint_trans _ _ _ _ _ Hfp Hfp2)|].
    split; [apply Forall_app; split; [destruct (sigint env _); repeat constructor | exact Hq]|].
    rewrite played_app, warned_app, Hp, Hwn.
    destruct (sigint env _); split; reflexivity.
Qed.

(** One clip given to pygame: a missing file is warned about and not
    touched, a file that is there is played unless the mixer refuses
    it. *)
Lemma pygame_clip_footprint audio_file w :
  let full_path := os_path_join (AUDIO_DIR env) audio_file in
  exists w1 evs,
    pygame_clip env audio_file w = (Ok tt, w1) /\
    footprint w w1 evs /\
    Forall (fun e => is_playback e = true) evs /\
    played evs = (if bool_decide (full_path ∈ fs w)
                  then match mixer_sound env (length (trace w)) full_path with
                       | None => [full_path]
                       | Some _ => []
                       end
                  else []) /\
    warned evs = (if bool_decide (full_path ∈ fs w) then [] else [full_path]).
Proof.
  intros full_path.
  unfold pygame_clip, mbind at 1, M_bind at 1, os_path_exists. fold full_path.
  destruct (bool_decide (full_path ∈ fs w)); cbn [negb].
  - unfold try_except, pygame_sound_play, mbind, M_bind.
    destruct (mixer_sound env (length (trace w)) full_path) as [e|].
    + eexists _, _. split; [reflexivity|]. split; [apply footprint_log|].
      split; [repeat constructor|]. split; reflexivity.
    + destruct (wait_while_busy_footprint
                  (mixer_busy env (length (trace w)) full_path)
                  (log (Play full_path) w)) as (w1 & evs & Hw & Hfp & Hq & Hp & Hwn).
      rewrite Hw. exists w1, ([Play full_path] ++ evs).
      split; [reflexivity|].
      split; [exact (footprint_trans _ _ _ _ _ (footprint_log _ _) Hfp)|].
      split; [apply Forall_app; split; [repeat constructor | exact Hq]|].
      rewrite played_app, warned_app, Hp, Hwn. split; reflexivity.
  - eexists _, _. split; [reflexivity|]. split; [apply footprint_log|].
    split; [repeat constructor|]. split; reflexivity.
Qed.

End Footprint.

Lemma for_each_aplay_footprint
    (env : environment) (audio_files : list string) (w : world) :
  exists w1 evs,
    for_each audio_files (aplay_clip env) w = (Ok tt, w1) /\
    footprint w w1 evs /\
    Forall (fun e => is_playback e = true) evs /\
    played evs = filter (fun p => p ∈ fs w)
                        (os_path_join (AUDIO_DIR env) <$> audio_files) /\
    warned evs = filter (fun p => p ∉ fs w)
                        (os_path_join (AUDIO_DIR env) <$> audio_files).
Proof.
  revert w. induction audio_files as [|f rest IH]; intros w.
  - exists w, []. split; [reflexivity|]. split; [apply footprint_refl|].
    split; [constructor|]. split; reflexivity.
  - destruct (aplay_clip_footprint env f w) as (w1 & evs1 & Hc & Hfp1 & Hq1 & Hp1 & Hw1).
    destruct (IH w1) as (w2 & evs2 & Hr & Hfp2 & Hq2 & Hp2 & Hw2).
    pose proof Hfp1 as (_ & Hfs & _). rewrite Hfs in Hp2, Hw2.
    exists w2, (evs1 ++ evs2).
    split; [cbn [for_each]; unfold mbind, M_bind; rewrite Hc; exact Hr|].
    split; [exact (footprint_trans _ _ _ _ _ Hfp1 Hfp2)|].
    split; [apply Forall_app; split; assumption|].
    rewrite played_app, warned_app, Hp1, Hw1, Hp2, Hw2.
    cbn [fmap list_fmap]. rewrite !filter_cons.
    destruct (decide (os_path_join (AUDIO_DIR env) f ∈ fs w)) as [Hin|Hout].
    + rewrite (bool_decide_eq_true_2 _ Hin).
      destruct (decide (os_path_join (AUDIO_DIR env) f ∉ fs w)); [tauto|].
      split; reflexivity.
    + rewrite (bool_decide_eq_false_2 _ Hout).
      destruct (decide (os_path_join (AUDIO_DIR env) f ∉ fs w)); [|tauto].
      split; reflexivity.
Qed.

(** X4: the [aplay] loop never raises, leaves the files and the flag
    alone (the flag can only go down), hands to the player exactly the
    files of the list that exist, each once and in the order of the
    list, and warns about exactly the others, in order; so every file of
    the list is either played or warned about. *)
Theorem aplay_plays_existing_files_in_order
    (env : environment) (audio_files : list string) (w : world) :
  exists w1 evs,
    play_audio_sequence_aplay env audio_files w = (Ok tt, w1) /\
    footprint w w1 evs /\
    Forall (fun e => is_playback e = true) evs /\
    played evs = filter (fun p => p ∈ fs w)
                        (os_path_join (AUDIO_DIR env) <$> audio_files) /\
    warned evs = filter (fun p => p ∉ fs w)
                        (os_path_join (AUDIO_DIR env) <$> audio_files) /\
    (length (played evs) + length (warned evs) = length audio_files)%nat.
Proof.
  destruct (for_each_aplay_footprint env audio_files w)
    as (w1 & evs & Hrun & Hfp & Hq & Hp & Hw).
  exists w1, evs. unfold play_audio_sequence_aplay.
  do 5 (split; [assumption|]).
  rewrite Hp, Hw, <- (length_fmap (os_path_join (AUDIO_DIR env)) audio_files).
  generalize (os_path_join (AUDIO_DIR env) <$> audio_files) as paths.
  induction paths as [|p paths IH]; [reflexivity|].
  rewrite !filter_cons.
  destruct (decide (p ∈ fs w)), (decide (p ∉ fs w)); try tauto;
    cbn [length]; lia.
Qed.

Lemma for_each_pygame_footprint
    (env : environment) (audio_files : list string) (w : world) :
  exists w1 evs,
    for_each audio_files (pygame_clip env) w = (Ok tt, w1) /\
    footprint w w1 evs /\
    Forall (fun e => is_playback e = true) evs /\
    played evs `sublist_of`
      filter (fun p => p ∈ fs w) (os_path_join (AUDIO_DIR env) <$> audio_files) /\
    warned evs = filter (fun p => p ∉ fs w)
                        (os_path_join (AUDIO_DIR env) <$> audio_files).
Proof.
  revert w. induction audio_files as [|f rest IH]; intros w.
  - exists w, []. split; [reflexivity|]. split; [apply footprint_refl|].
    split; [constructor|]. split; reflexivity.
  - destruct (pygame_clip_footprint env f w) as (w1 & evs1 & Hc & Hfp1 & Hq1 & Hp1 & Hw1).
    destruct (IH w1) as (w2 & evs2 & Hr & Hfp2 & Hq2 & Hp2 & Hw2).
    pose proof Hfp1 as (_ & Hfs & _). rewrite Hfs in Hp2, Hw2.
    exists w2, (evs1 ++ evs2).
    split; [cbn [for_each]; unfold mbind, M_bind; rewrite Hc; exact Hr|].
    split; [exact (footprint_trans _ _ _ _ _ Hfp1 Hfp2)|].
    split; [apply Forall_app; split; assumption|].
    rewrite played_app, warned_app, Hp1, Hw1, Hw2.
    cbn [fmap list_fmap]. rewrite !filter_cons.
    destruct (decide (os_path_join (AUDIO_DIR env) f ∈ fs w)) as [Hin|Hout].
    + rewrite (bool_decide_eq_true_2 _ Hin).
      destruct (decide (os_path_join (AUDIO_DIR env) f ∉ fs w)); [tauto|].
      split; [|reflexivity].
      destruct (mixer_sound env (length (trace w)) _).
      * apply sublist_cons. exact Hp2.
      * apply (sublist_skip _ _ _ Hp2).
    + rewrite (bool_decide_eq_false_2 _ Hout).
      destruct (decide (os_path_join (AUDIO_DIR env) f ∉ fs w)); [|tauto].
      split; [exact Hp2 | reflexivity].
Qed.

(** X5: the pygame loop raises exactly when [pygame.mixer.init()]
    does, and then nothing is played or printed; otherwise it returns
    normally, leaves the files alone, plays only files that exist, in
    the order of the list, and warns about exactly the files that do
    not exist. *)
Theorem pygame_plays_only_existing_files
    (env : environment) (audio_files : list string) (w : world) :
  match mixer_init env (length (trace w)) with
  | Some e => play_audio_sequence_pygame env audio_files w = (Raise e, w)
  | None =>
      exists w1 evs,
        play_audio_sequence_pygame env audio_files w = (Ok tt, w1) /\
        footprint w w1 evs /\
        Forall (fun e => is_playback e = true) evs /\
        played evs `sublist_of`
          filter (fun p => p ∈ fs w) (os_path_join (AUDIO_DIR env) <$> audio_files) /\
        warned evs = filter (fun p => p ∉ fs w)
                            (os_path_join (AUDIO_DIR env) <$> audio_files)
  end.
Proof.
  destruct (mixer_init env (length (trace w))) as [e|] eqn:Hinit.
  - unfold play_audio_sequence_pygame, mbind, M_bind, pygame_mixer_init.
    rewrite Hinit. reflexivity.
  - destruct (for_each_pygame_footprint env audio_files w) as (w1 & evs & Hr & H).
    exists w1, evs. split; [|exact H].
    unfold play_audio_sequence_pygame, mbind, M_bind, pygame_mixer_init.
    rewrite Hinit. exact Hr.
Qed.

(** ** An announcement on a complete disk *)

Lemma filter_all_true {A : Type} (P : A -> Prop) `{!forall x, Decision (P x)} (l : list A) :
  (forall x, x ∈ l -> P x) -> filter P l = l.
Proof.
  induction l as [|x l IH]; intros Hall; [reflexivity|].
  rewrite filter_cons_True by (apply Hall, list_elem_of_here).
  f_equal. apply IH. intros y Hy. apply Hall, list_elem_of_further, Hy.
Qed.

Lemma filter_all_false {A : Type} (P : A -> Prop) `{!forall x, Decision (P x)} (l : list A) :
  (forall x, x ∈ l -> ~ P x) -> filter P l = [].
Proof.
  induction l as [|x l IH]; intros Hall; [reflexivity|].
  rewrite filter_cons_False by (apply Hall, list_elem_of_here).
  apply IH. intros y Hy. apply Hall, list_elem_of_further, Hy.
Qed.

(** At a valid instant the resolver hands back three or four names of
    the clip table. *)
Lemma resolver_at now w :
  valid_datetime now -> clock w = to_us now ->
  exists files,
    get_audio_files_for_time w = (Ok files, w) /\
    (length files = 3%nat \/ length files = 4%nat) /\
    forall f, f ∈ files -> f ∈ dict_values AUDIO_FILES.
Proof.
  intros Hv Hc.
  pose proof (get_audio_files_for_time_run now w Hv Hc) as Hrun.
  destruct (round_minute _ _ _) as [[mr h12] h24].
  destruct Hrun as (ic & p & pc & hc & Hi & Hp & Hpc & Hhc & Hrun).
  apply dict_get_values in Hi, Hpc, Hhc.
  destruct Hrun as [[_ Hrun]|[_ (mc & Hmc & Hrun)]].
  - exists [ic; pc; hc]. split; [exact Hrun|]. split; [left; reflexivity|].
    intros f Hf. repeat (apply elem_of_cons in Hf; destruct Hf as [->|Hf]); try assumption.
    apply elem_of_nil in Hf. destruct Hf.
  - apply dict_get_values in Hmc.
    exists [ic; pc; hc; mc]. split; [exact Hrun|]. split; [right; reflexivity|].
    intros f Hf. repeat (apply elem_of_cons in Hf; destruct Hf as [->|Hf]); try assumption.
    apply elem_of_nil in Hf. destruct Hf.
Qed.

(** X6: when the audio directory holds every required file, an
    announcement at a valid instant prints its line and then, with
    [aplay], hands the three or four clips of the resolver to the player
    in order and warns about nothing; with pygame it warns about nothing
    and plays clips of the resolver only, unless [pygame.mixer.init()]
    raises, and then the exception leaves [announce_time] right after
    the line, with no clip played. *)
Theorem announcement_on_complete_disk (env : environment) (now : datetime) (w : world) :
  valid_datetime now -> clock w = to_us now ->
  disk_complete (AUDIO_DIR env) (fs w) ->
  exists files,
    fst (get_audio_files_for_time w) = Ok files /\
    (length files = 3%nat \/ length files = 4%nat) /\
    if PYGAME_AVAILABLE env then
      match mixer_init env (S (length (trace w))) with
      | Some e => announce_time env w = (Raise e, log (Print (MsgAnnouncing now)) w)
      | None =>
          exists w1 rest,
            announce_time env w = (Ok tt, w1) /\
            footprint w w1 (Print (MsgAnnouncing now) :: rest) /\
            warned rest = [] /\
            played rest `sublist_of` (os_path_join (AUDIO_DIR env) <$> files)
      end
    else
      exists w1 rest,
        announce_time env w = (Ok tt, w1) /\
        footprint w w1 (Print (MsgAnnouncing now) :: rest) /\
        warned rest = [] /\
        played rest = os_path_join (AUDIO_DIR env) <$> files.
Proof.
  intros Hv Hc [_ Hdisk].
  destruct (resolver_at now w Hv Hc) as (files & Hres & Hlen & Hsub).
  exists files. split; [rewrite Hres; reflexivity|]. split; [exact Hlen|].
  set (w0 := log (Print (MsgAnnouncing now)) w).
  assert (Hres0 : get_audio_files_for_time w0 = (Ok files, w0)).
  { rewrite (get_audio_files_for_time_reads_clock w w0 eq_refl), Hres. reflexivity. }
  assert (Hpresent : forall p, p ∈ os_path_join (AUDIO_DIR env) <$> files -> p ∈ fs w0).
  { intros p Hp. apply list_elem_of_fmap in Hp. destruct Hp as (f & -> & Hf).
    apply Hdisk, Hsub, Hf. }
  assert (Hann : forall k : list string -> M unit,
    (now' ← datetime_now; print (MsgAnnouncing now') ;;
     audio_files ← get_audio_files_for_time; k audio_files) w = k files w0).
  { intros k. unfold mbind, M_bind.
    rewrite (datetime_now_at now w Hv Hc). unfold print. fold w0.
    rewrite Hres0. reflexivity. }
  assert (Hlen0 : length (trace w0) = S (length (trace w))).
  { unfold w0. cbn [trace log]. rewrite length_app. cbn [length]. lia. }
  unfold announce_time.
  destruct (PYGAME_AVAILABLE env).
  - rewrite (Hann (play_audio_sequence_pygame env)).
    destruct (mixer_init env (S (length (trace w)))) as [e|] eqn:Hinit.
    + unfold play_audio_sequence_pygame, mbind, M_bind, pygame_mixer_init.
      rewrite Hlen0, Hinit. reflexivity.
    + destruct (for_each_pygame_footprint env files w0)
        as (w1 & rest & Hrun & Hfp & _ & Hp & Hw).
      exists w1, rest.
      split; [unfold play_audio_sequence_pygame, mbind, M_bind, pygame_mixer_init;
              rewrite Hlen0, Hinit; exact Hrun|].
      split; [exact (footprint_trans _ _ _ [_] _ (footprint_log _ _) Hfp)|].
      split.
      * rewrite Hw. apply filter_all_false. intros p Hp' Hn. exact (Hn (Hpresent p Hp')).
      * rewrite (filter_all_true _ _ Hpresent) in Hp. exact Hp.
  - rewrite (Hann (play_audio_sequence_aplay env)).
    destruct (for_each_aplay_footprint env files w0)
      as (w1 & rest & Hrun & Hfp & _ & Hp & Hw).
    exists w1, rest. split; [exact Hrun|].
    split; [exact (footprint_trans _ _ _ [_] _ (footprint_log _ _) Hfp)|].
    split.
    + rewrite Hw. apply filter_all_false. intros p Hp' Hn. exact (Hn (Hpresent p Hp')).
    + rewrite Hp. apply filter_all_true, Hpresent.
Qed.

Lemma full_disk_complete : disk_complete "/home/user/time_announcer_audio" full_disk.
Proof.
  unfold disk_complete, full_disk. split.
  - apply elem_of_list_to_set, list_elem_of_here.
  - intros f Hf. apply elem_of_list_to_set, list_elem_of_further, list_elem_of_fmap.
    exists f. split; [reflexivity | exact Hf].
Defined.

Lemma announcement_on_complete_disk_witness :
  exists w1 rest,
    announce_time aplay_env ready_world = (Ok tt, w1) /\
    footprint ready_world w1 (Print (MsgAnnouncing early_morning) :: rest) /\
    warned rest = [] /\
    length (played rest) = 4%nat.
Proof.
  destruct (announcement_on_complete_disk aplay_env early_morning ready_world
              early_morning_valid eq_refl full_disk_complete)
    as (files & Hres & _ & H).
  cbn [PYGAME_AVAILABLE aplay_env] in H.
  destruct H as (w1 & rest & Hrun & Hfp & Hw & Hp).
  exists w1, rest. repeat (split; [assumption|]).
  rewrite Hp, length_fmap.
  assert (E : fst (get_audio_files_for_time ready_world)
              = Ok ["ekhon_somoy.wav"; "sokal.wav"; "shatta.wav"; "poner_minute.wav"]%string)
    by (vm_compute; reflexivity).
  rewrite E in Hres. injection Hres as <-. reflexivity.
Defined.

(** ** The startup check *)

(** X7: [check_audio_files] never raises and does not touch the clock or
    the flag.  When the directory exists, or can be created, it returns
    exactly the required files that do not exist, once each, in table
    order, creating the directory in the second case; when the
    directory cannot be created it returns every required file.  So the
    list is empty exactly when the directory is available and nothing is
    missing. *)
Theorem check_audio_files_reports_exactly_the_missing (env : environment) (w : world) :
  exists w1 missing,
    check_audio_files env w = (Ok missing, w1) /\
    running w1 = running w /\ clock w1 = clock w /\
    (if bool_decide (AUDIO_DIR env ∈ fs w) then
       w1 = w /\
       missing = filter (fun f => os_path_join (AUDIO_DIR env) f ∉ fs w)
                        (dict_values AUDIO_FILES)
     else
       match makedirs_outcome env with
       | None =>
           fs w1 = {[ AUDIO_DIR env ]} ∪ fs w /\
           trace w1 = trace w ++ [Print (MsgCreatedDir (AUDIO_DIR env))] /\
           missing = filter (fun f => os_path_join (AUDIO_DIR env) f ∉ fs w)
                            (dict_values AUDIO_FILES)
       | Some e =>
           fs w1 = fs w /\
           trace w1 = trace w ++ [Print (MsgCreateDirError e)] /\
           missing = dict_values AUDIO_FILES
       end) /\
    missing `sublist_of` dict_values AUDIO_FILES /\
    NoDup missing /\
    (missing = [] <->
     (AUDIO_DIR env ∈ fs w \/ makedirs_outcome env = None) /\
     forall f, f ∈ dict_values AUDIO_FILES -> os_path_join (AUDIO_DIR env) f ∈ fs w).
Proof.
  assert (Hfilter :
    let missing := filter (fun f => os_path_join (AUDIO_DIR env) f ∉ fs w)
                          (dict_values AUDIO_FILES) in
    missing `sublist_of` dict_values AUDIO_FILES /\ NoDup missing /\
    (missing = [] <->
     forall f, f ∈ dict_values AUDIO_FILES -> os_path_join (AUDIO_DIR env) f ∈ fs w)).
  { cbv zeta. split; [apply sublist_filter|].
    split; [apply NoDup_filter, AUDIO_FILES_values_NoDup|].
    split.
    - intros E f Hf. destruct (decide (os_path_join (AUDIO_DIR env) f ∈ fs w)) as [|Hn];
        [assumption|].
      destruct (filter_nil_not_elem_of _ _ f E Hn Hf).
    - intros Hall. apply filter_all_false. intros f Hf Hn. exact (Hn (Hall f Hf)). }
  cbv zeta in Hfilter. destruct Hfilter as (Hsub & Hnd & Hnil).
  assert (Hvals : dict_values AUDIO_FILES <> []) by discriminate.
  unfold check_audio_files.
  generalize AUDIO_FILES_values_relative.
  revert Hsub Hnd Hnil Hvals.
  generalize AUDIO_FILES_values_NoDup.
  generalize (dict_values AUDIO_FILES) as required.
  intros required Hndr Hsub Hnd Hnil Hvals Hrel.
  unfold mbind at 1, M_bind at 1, os_path_exists at 1.
  destruct (bool_decide (AUDIO_DIR env ∈ fs w)) eqn:Hdir;
    cbv beta iota zeta delta [negb].
  - apply bool_decide_eq_true_1 in Hdir.
    exists w, (filter (fun f => os_path_join (AUDIO_DIR env) f ∉ fs w) required).
    split; [unfold mbind, M_bind, mret, M_ret; apply collect_missing_run|].
    split; [reflexivity|]. split; [reflexivity|]. split; [split; reflexivity|].
    split; [exact Hsub|]. split; [exact Hnd|].
    rewrite Hnil. tauto.
  - apply bool_decide_eq_false_1 in Hdir.
    unfold try_except, os_makedirs, mbind, M_bind, print, mret, M_ret.
    destruct (makedirs_outcome env) as [e|] eqn:Hmk; cbv beta iota zeta.
    + exists (log (Print (MsgCreateDirError e)) w), required.
      split; [reflexivity|]. split; [reflexivity|]. split; [reflexivity|].
      split; [repeat split|]. split; [reflexivity|]. split; [exact Hndr|].
      split; [intros E; destruct (Hvals E)|].
      intros [[H|H] _]; [destruct (Hdir H) | discriminate H].
    + rewrite collect_missing_run.
      assert (E : filter (fun f => os_path_join (AUDIO_DIR env) f
                                   ∉ ({[ AUDIO_DIR env ]} ∪ fs w : gset string)) required
                  = filter (fun f => os_path_join (AUDIO_DIR env) f ∉ fs w) required).
      { apply filter_ext_Forall.
        eapply Forall_impl; [exact Hrel|]. cbv beta. intros f [Hne Hsep].
        rewrite elem_of_union, elem_of_singleton.
        pose proof (os_path_join_ne_dir (AUDIO_DIR env) f Hne Hsep). tauto. }
      cbn [fs log]. rewrite E.
      eexists _, _. split; [reflexivity|].
      split; [reflexivity|]. split; [reflexivity|].
      split; [split; [reflexivity|]; split; reflexivity|].
      split; [exact Hsub|]. split; [exact Hnd|].
      rewrite Hnil. split; [intros H; split; [right; reflexivity | exact H] | tauto].
Qed.

(** ** The footprint of an announcement and of the loop *)

Section LoopFootprint.
Context (env : environment).

(** An announcement, wherever it is made: its line first, with the time
    the clock shows, then playback events only. *)
Lemma announce_time_footprint w :
  exists r w1 rest,
    announce_time env w = (r, w1) /\
    footprint w w1 (Print (MsgAnnouncing (of_us (clock w))) :: rest) /\
    Forall (fun e => is_playback e = true) rest.
Proof.
  set (w0 := log (Print (MsgAnnouncing (of_us (clock w)))) w).
  assert (Hann : forall k : list string -> M unit,
    (now' ← datetime_now; print (MsgAnnouncing now') ;;
     audio_files ← get_audio_files_for_time; k audio_files) w
    = match fst (get_audio_files_for_time w) with
      | Ok files => k files w0
      | Raise e => (Raise e, w0)
      end).
  { intros k. unfold mbind, M_bind, datetime_now, print. fold w0.
    rewrite (get_audio_files_for_time_reads_clock w w0 eq_refl).
    destruct (fst (get_audio_files_for_time w)); reflexivity. }
  assert (Hnone : footprint w w0 (Print (MsgAnnouncing (of_us (clock w))) :: []))
    by apply footprint_log.
  unfold announce_time.
  destruct (PYGAME_AVAILABLE env).
  - rewrite (Hann (play_audio_sequence_pygame env)).
    destruct (fst (get_audio_files_for_time w)) as [files|e];
      [|exists (Raise e), w0, []; split; [reflexivity|]; split; [exact Hnone | constructor]].
    unfold play_audio_sequence_pygame, mbind, M_bind, pygame_mixer_init.
    destruct (mixer_init env (length (trace w0))) as [e|];
      [exists (Raise e), w0, []; split; [reflexivity|]; split; [exact Hnone | constructor]|].
    destruct (for_each_pygame_footprint env files w0) as (w1 & rest & Hrun & Hfp & Hq & _).
    exists (Ok tt), w1, rest. split; [exact Hrun|].
    split; [exact (footprint_trans _ _ _ [_] _ (footprint_log _ _) Hfp) | exact Hq].
  - rewrite (Hann (play_audio_sequence_aplay env)).
    destruct (fst (get_audio_files_for_time w)) as [files|e];
      [|exists (Raise e), w0, []; split; [reflexivity|]; split; [exact Hnone | constructor]].
    destruct (for_each_aplay_footprint env files w0) as (w1 & rest & Hrun & Hfp & Hq & _).
    exists (Ok tt), w1, rest. split; [exact Hrun|].
    split; [exact (footprint_trans _ _ _ [_] _ (footprint_log _ _) Hfp) | exact Hq].
Qed.

(** The wait, in full: it always returns; it only sleeps; the clock
    moves by what was slept, which is never more than what was asked;
    and when the flag is still up at the end, all of it was slept. *)
Lemma wait_loop_footprint wait_seconds w :
  exists w1 evs,
    wait_loop env wait_seconds w = (Ok tt, w1) /\
    footprint w w1 evs /\
    Forall (fun e => sleep_or_stop e = true) evs /\
    clock w1 = clock w + slept evs /\
    0 <= slept evs <= Z.max 0 wait_seconds /\
    (running w1 = true -> slept evs = Z.max 0 wait_seconds) /\
    (running w = false -> w1 = w) /\
    ((forall k, sigint env k = false) -> running w1 = running w).
Proof.
  remember (Z.to_nat ((wait_seconds + chunk - 1) / chunk)) as n eqn:Hn.
  revert wait_seconds Hn w.
  induction n as [n IH] using lt_wf_ind. intros wait_seconds Hn w.
  rewrite wait_loop_body.
  destruct (decide (0 < wait_seconds)) as [Hpos|Hneg].
  2:{ exists w, []. split; [reflexivity|]. split; [apply footprint_refl|].
      split; [constructor|]. cbn [slept foldr]. repeat split; lia. }
  unfold mbind at 1, M_bind at 1, get_running at 1.
  destruct (running w) eqn:Hrun.
  2:{ exists w, []. split; [reflexivity|]. split; [apply footprint_refl|].
      split; [constructor|]. cbn [slept foldr]. split; [lia|]. split; [lia|].
      split; [congruence|]. split; [reflexivity | intros _; congruence]. }
  set (d := Z.min wait_seconds chunk).
  assert (Hd : 0 < d <= wait_seconds) by (unfold d, chunk; lia).
  destruct (blocking_effect env (Sleep d) d w) as (w1 & Hb & Hfp1 & Hc1 & Hr1).
  unfold time_sleep, mbind, M_bind. rewrite Hb. unfold get_running.
  rewrite Hrun in Hr1. cbn [andb] in Hr1.
  destruct (sigint env (length (trace w))) eqn:Hsig; cbn [negb] in Hr1; rewrite Hr1;
    cbn [negb].
  - exists w1, [Sleep d; Print MsgStopping].
    split; [reflexivity|]. split; [exact Hfp1|].
    split; [repeat constructor|]. cbn [slept foldr].
    split; [lia|]. split; [lia|]. split; [congruence|]. split; [congruence|].
    intros Hquiet. rewrite Hquiet in Hsig. discriminate Hsig.
  - destruct (IH (Z.to_nat ((wait_seconds - d + chunk - 1) / chunk))
                ltac:(subst n; unfold d, chunk; apply Z2Nat.inj_lt;
                      Z.div_mod_to_equations; lia)
                (wait_seconds - d) eq_refl w1)
      as (w2 & evs2 & Hrun2 & Hfp2 & Hq2 & Hc2 & Hs2 & Hfull & _ & Hquiet2).
    exists w2, ([Sleep d] ++ evs2).
    split; [exact Hrun2|].
    split; [exact (footprint_trans _ _ _ _ _ Hfp1 Hfp2)|].
    split; [apply Forall_app; split; [repeat constructor | exact Hq2]|].
    rewrite slept_app. cbn [slept foldr].
    split; [lia|]. split; [lia|].
    split; [intros Hr2; specialize (Hfull Hr2); lia|].
    split; [congruence|].
    intros Hquiet. rewrite (Hquiet2 Hquiet). congruence.
Qed.

End LoopFootprint.

(** X8: the wait of the scheduler always ends; it does nothing but
    sleep (and run the handler); the clock moves by the time slept,
    which never exceeds the time asked for; when the flag is still up
    afterwards, exactly the time asked for was slept, which is the case
    whenever no signal arrives; and with the flag down from the start
    nothing happens at all. *)
Theorem wait_loop_sleeps_what_is_asked
    (env : environment) (wait_seconds : Z) (w : world) :
  exists w1 evs,
    wait_loop env wait_seconds w = (Ok tt, w1) /\
    footprint w w1 evs /\
    Forall (fun e => sleep_or_stop e = true) evs /\
    clock w1 = clock w + slept evs /\
    0 <= slept evs <= Z.max 0 wait_seconds /\
    (running w1 = true -> clock w1 = clock w + Z.max 0 wait_seconds) /\
    (running w = false -> w1 = w) /\
    ((forall k, sigint env k = false) -> running w = true ->
     running w1 = true /\ clock w1 = clock w + Z.max 0 wait_seconds).
Proof.
  destruct (wait_loop_footprint env wait_seconds w)
    as (w1 & evs & Hrun & Hfp & Hq & Hc & Hs & Hfull & Hdown & Hquiet).
  exists w1, evs. do 5 (split; [assumption|]).
  split; [intros Hr; rewrite Hc, (Hfull Hr); reflexivity|].
  split; [exact Hdown|].
  intros Hq0 Hup. rewrite <- (Hquiet Hq0) in Hup.
  split; [exact Hup|]. rewrite Hc, (Hfull Hup). reflexivity.
Qed.

Lemma wait_loop_sleeps_what_is_asked_witness :
  exists w1,
    wait_loop aplay_env 25000000 ready_world = (Ok tt, w1) /\
    clock w1 = clock ready_world + 25000000.
Proof.
  destruct (wait_loop_sleeps_what_is_asked aplay_env 25000000 ready_world)
    as (w1 & evs & Hrun & _ & _ & _ & _ & _ & _ & Hquiet).
  exists w1. split; [exact Hrun|].
  exact (proj2 (Hquiet (fun _ => eq_refl) eq_refl)).
Defined.

(** ** Announcements of the loop *)

Lemma announcements_app evs1 evs2 :
  announcements (evs1 ++ evs2) = announcements evs1 ++ announcements evs2.
Proof. apply omap_app. Qed.

Lemma announcements_playback evs :
  Forall (fun e => is_playback e = true) evs -> announcements evs = [].
Proof.
  induction 1 as [|e evs He _ IH]; [reflexivity|].
  change (e :: evs) with ([e] ++ evs). rewrite announcements_app, IH. destruct e as [[]| | |]; try discriminate He; reflexivity.
Qed.

Lemma announcements_sleep evs :
  Forall (fun e => sleep_or_stop e = true) evs -> announcements evs = [].
Proof.
  induction 1 as [|e evs He _ IH]; [reflexivity|].
  change (e :: evs) with ([e] ++ evs). rewrite announcements_app, IH. destruct e as [[]| | |]; try discriminate He; reflexivity.
Qed.

(** The instant computed from any reading of the clock, for one of the
    three intervals, is a tick boundary in the future that survives the
    round trip through the clock. *)
Lemma next_announcement_aligned interval c t :
  interval = 15 \/ interval = 30 \/ interval = 60 ->
  next_announcement interval (of_us c) = Ok t ->
  aligned interval t /\ of_us (to_us t) = t /\ c < to_us t.
Proof.
  intros Hi.
  pose proof (of_us_valid_time c) as (Hh & Hm & Hs & Hus).
  pose proof (to_us_of_us c) as Hc.
  destruct (of_us c) as [o h m s us].
  cbn [ordinal hour minute second microsecond] in *.
  unfold next_announcement.
  cbn [ordinal hour minute second microsecond dt_replace result_bind andb
       Z.leb Z.ltb Z.compare].
  assert (Hadd : forall t,
    dt_add {| ordinal := o; hour := h; minute := 0; second := 0; microsecond := 0 |}
           one_hour = Ok t ->
    aligned 60 t /\ of_us (to_us t) = t /\ c < to_us t).
  { intros t0. unfold dt_add, one_hour.
    destruct (_ && _); [|discriminate]. intros [= <-].
    rewrite to_us_of_us. split; [|split; [reflexivity|]].
    - unfold aligned, of_us, to_us; cbn [ordinal hour minute second microsecond].
      repeat split; Z.div_mod_to_equations; lia.
    - unfold to_us in *; cbn [ordinal hour minute second microsecond] in *. lia. }
  assert (Hrep : forall m',
    0 <= m' < 60 -> m < m' -> m' mod interval = 0 ->
    let t := {| ordinal := o; hour := h; minute := m'; second := 0; microsecond := 0 |} in
    aligned interval t /\ of_us (to_us t) = t /\ c < to_us t).
  { intros m' Hm' Hlt Hal. cbv zeta.
    split; [repeat split; assumption|].
    split; [apply of_us_to_us; cbn; lia|].
    unfold to_us in *; cbn [ordinal hour minute second microsecond] in *. lia. }
  assert (Hal60 : forall t, aligned 60 t -> aligned interval t).
  { intros t0 (Ha & Hb & Hc'). unfold aligned. repeat split; try assumption.
    destruct Hi as [->|[->| ->]]; Z.div_mod_to_equations; lia. }
  destruct Hi as [->|[->| ->]]; cbn [Z.eqb Pos.eqb].
  - destruct (Z.eqb_spec ((m / 15 + 1) * 15) 60) as [E|E].
    + intros Ht. destruct (Hadd t Ht) as (Ha & Hb & Hc'). auto.
    + unfold dt_replace. destruct (_ && _); [|discriminate]. intros [= <-].
      apply Hrep; Z.div_mod_to_equations; lia.
  - destruct (Z.ltb_spec m 30).
    + intros [= <-]. apply Hrep; [lia | lia | reflexivity].
    + intros Ht. destruct (Hadd t Ht) as (Ha & Hb & Hc'). auto.
  - intros Ht. exact (Hadd t Ht).
Qed.

Section LoopAnnouncements.
Context (env : environment).

(** One turn of the loop: at most one announcement, and it carries the
    boundary that was computed at the start of the turn. *)
Lemma loop_body_footprint interval w :
  interval = 15 \/ interval = 30 \/ interval = 60 ->
  exists r w1 evs,
    loop_body env interval w = (r, w1) /\
    footprint w w1 evs /\
    (announcements evs = [] \/
     exists t, next_announcement interval (of_us (clock w)) = Ok t /\
               aligned interval t /\ announcements evs = [t]) /\
    (running w1 = true -> r = Ok tt -> length (announcements evs) = 1%nat).
Proof.
  intros Hi. unfold loop_body.
  unfold mbind at 1, M_bind at 1, datetime_now at 1.
  unfold mbind at 1, M_bind at 1, lift at 1.
  destruct (next_announcement interval (of_us (clock w))) as [t|e] eqn:Hnext.
  2:{ exists (Raise e), w, []. split; [reflexivity|]. split; [apply footprint_refl|].
      split; [left; reflexivity | discriminate]. }
  destruct (next_announcement_aligned interval (clock w) t Hi Hnext) as (Hal & Hrt & Hlt).
  rewrite to_us_of_us.
  destruct (wait_loop_footprint env (to_us t - clock w) w)
    as (w1 & evs1 & Hwait & Hfp1 & Hq1 & Hc1 & _ & Hfull & _ & _).
  unfold mbind at 1, M_bind at 1. rewrite Hwait.
  unfold mbind at 1, M_bind at 1, get_running at 1.
  destruct (running w1) eqn:Hr1.
  - destruct (announce_time_footprint env w1) as (r & w2 & rest & Hann & Hfp2 & Hq2).
    exists r, w2, (evs1 ++ Print (MsgAnnouncing (of_us (clock w1))) :: rest).
    split; [exact Hann|].
    split; [exact (footprint_trans _ _ _ _ _ Hfp1 Hfp2)|].
    assert (Hnow : of_us (clock w1) = t).
    { rewrite Hc1, (Hfull eq_refl).
      transitivity (of_us (to_us t)); [f_equal; lia | exact Hrt]. }
    assert (Hlist : announcements
                      (evs1 ++ Print (MsgAnnouncing (of_us (clock w1))) :: rest) = [t]).
    { rewrite announcements_app, (announcements_sleep _ Hq1).
      change (announcements (Print (MsgAnnouncing (of_us (clock w1))) :: rest))
        with (of_us (clock w1) :: announcements rest).
      rewrite (announcements_playback _ Hq2), Hnow. reflexivity. }
    split; [right; exists t; repeat split; first [assumption | reflexivity | apply Hal]|].
    intros _ _. rewrite Hlist. reflexivity.
  - exists (Ok tt), w1, evs1. split; [reflexivity|]. split; [exact Hfp1|].
    split; [left; apply announcements_sleep, Hq1|].
    intros Hup. congruence.
Qed.

(** The loop: every announcement carries a tick boundary, there is at
    most one for each turn, and exactly one for each turn when the loop
    is still going. *)
Lemma main_loop_footprint fuel interval w :
  interval = 15 \/ interval = 30 \/ interval = 60 ->
  exists r w1 evs,
    main_loop env fuel interval w = (r, w1) /\
    footprint w w1 evs /\
    Forall (aligned interval) (announcements evs) /\
    (length (announcements evs) <= fuel)%nat /\
    (r = Ok Looping -> length (announcements evs) = fuel /\ running w1 = true).
Proof.
  intros Hi. revert w. induction fuel as [|fuel IH]; intros w; cbn [main_loop];
    unfold mbind at 1, M_bind at 1, get_running at 1;
    destruct (running w) eqn:Hrun.
  - exists (Ok Looping), w, []. split; [reflexivity|]. split; [apply footprint_refl|].
    split; [constructor|]. split; [reflexivity|]. intros _. split; [reflexivity | exact Hrun].
  - exists (Ok Returned), w, []. split; [reflexivity|]. split; [apply footprint_refl|].
    split; [constructor|]. split; [reflexivity | discriminate].
  - destruct (loop_body_footprint interval w Hi) as (r & w1 & evs1 & Hbody & Hfp1 & Hone & Hup).
    unfold mbind, M_bind. rewrite Hbody.
    assert (Hal1 : Forall (aligned interval) (announcements evs1) /\
                   (length (announcements evs1) <= 1)%nat).
    { destruct Hone as [->|(t & _ & Hal & ->)]; [split; [constructor | cbn; lia]|].
      split; [constructor; [exact Hal | constructor] | cbn; lia]. }
    destruct Hal1 as [Hal1 Hlen1].
    destruct r as [[]|e].
    + destruct (IH w1) as (r2 & w2 & evs2 & Hloop & Hfp2 & Hal2 & Hlen2 & Hgo).
      exists r2, w2, (evs1 ++ evs2). split; [exact Hloop|].
      split; [exact (footprint_trans _ _ _ _ _ Hfp1 Hfp2)|].
      rewrite announcements_app, length_app.
      split; [apply Forall_app; split; assumption|].
      split; [lia|].
      intros Hr. destruct (Hgo Hr) as [Hn Hr2]. split; [|exact Hr2].
      destruct Hfp2 as (_ & _ & Hmono). rewrite (Hup (Hmono Hr2) eq_refl). lia.
    + exists (Raise e), w1, evs1. split; [reflexivity|]. split; [exact Hfp1|].
      split; [exact Hal1|]. split; [lia | discriminate].
  - exists (Ok Returned), w, []. split; [reflexivity|]. split; [apply footprint_refl|].
    split; [constructor|]. split; [cbn; lia | discriminate].
Qed.

End LoopAnnouncements.

(** X9: in the scheduling loop, for an interval of 15, 30 or 60, every
    announcement is made at a tick boundary (minute a multiple of the
    interval, seconds and microseconds zero): the chunks of the wait add
    up to the distance to the boundary.  There is at most one
    announcement for each turn of the loop, exactly one when the loop is
    still going, and the loop never touches the files nor puts the flag
    back up. *)
Theorem loop_announces_on_boundaries
    (env : environment) (fuel : nat) (interval : Z) (w : world) :
  interval = 15 \/ interval = 30 \/ interval = 60 ->
  exists r w1 evs,
    main_loop env fuel interval w = (r, w1) /\
    footprint w w1 evs /\
    Forall (aligned interval) (announcements evs) /\
    (length (announcements evs) <= fuel)%nat /\
    (r = Ok Looping -> length (announcements evs) = fuel /\ running w1 = true) /\
    (running w = false -> evs = [] /\ r = Ok Returned).
Proof.
  intros Hi.
  destruct (main_loop_footprint env fuel interval w Hi)
    as (r & w1 & evs & Hrun & Hfp & Hal & Hlen & Hgo).
  exists r, w1, evs. do 5 (split; [assumption|]).
  intros Hdown.
  assert (E : main_loop env fuel interval w = (Ok Returned, w)).
  { destruct fuel; cbn [main_loop]; unfold mbind, M_bind, get_running;
      rewrite Hdown; reflexivity. }
  rewrite E in Hrun. injection Hrun as <- <-.
  destruct Hfp as (Htr & _). split; [|reflexivity].
  apply (app_inv_head (trace w)). rewrite app_nil_r. symmetry. exact Htr.
Qed.

Lemma loop_announces_on_boundaries_witness :
  exists r w1 evs,
    main_loop aplay_env 2 15 ready_world = (r, w1) /\
    footprint ready_world w1 evs /\
    Forall (aligned 15) (announcements evs).
Proof.
  destruct (loop_announces_on_boundaries aplay_env 2 15 ready_world (or_introl eq_refl))
    as (r & w1 & evs & Hrun & Hfp & Hal & _).
  exists r, w1, evs. split; [exact Hrun|]. split; [exact Hfp | exact Hal].
Defined.

(** ** Starting up *)

Lemma check_audio_files_pass env w :
  disk_complete (AUDIO_DIR env) (fs w) -> check_audio_files env w = (Ok [], w).
Proof.
  intros [Hdir Hall]. unfold check_audio_files.
  unfold mbind at 1, M_bind at 1, os_path_exists at 1.
  rewrite (bool_decide_eq_true_2 _ Hdir). cbv beta iota zeta delta [negb].
  unfold mbind, M_bind, mret, M_ret. rewrite collect_missing_run.
  rewrite filter_all_false; [reflexivity|].
  intros f Hf Hn. exact (Hn (Hall f Hf)).
Qed.

(** With a backend at hand and nothing missing, [run_announcer] goes on
    to the announcement, after the pygame warning when pygame is not
    there. *)
Lemma run_announcer_ready env fuel interval test_only w :
  disk_complete (AUDIO_DIR env) (fs w) ->
  PYGAME_AVAILABLE env = true \/ aplay_probe env = None ->
  let w0 := if PYGAME_AVAILABLE env then w else log (Print MsgNoPygame) w in
  run_announcer env fuel interval test_only w
  = if test_only then (announce_time env ;; mret Returned) w0
    else (print (MsgStarted interval) ;;
          print (MsgAudioDir (AUDIO_DIR env)) ;;
          print MsgPressCtrlC ;;
          announce_time env ;;
          main_loop env fuel interval) w0.
Proof.
  intros Hdisk Hback w0. unfold run_announcer.
  assert (Hw0 : disk_complete (AUDIO_DIR env) (fs w0))
    by (unfold w0; destruct (PYGAME_AVAILABLE env); exact Hdisk).
  assert (Hfirst :
    (if negb (PYGAME_AVAILABLE env)
     then print MsgNoPygame ;;
          try_except (run_aplay_version env ;; mret true)
            (fun _ : exn => print MsgNoBackend ;; print MsgInstallHint ;; mret false)
     else mret true) w = (Ok true, w0)).
  { unfold w0. destruct (PYGAME_AVAILABLE env) eqn:Hpg; [reflexivity|].
    destruct Hback as [H|Hprobe]; [discriminate H|].
    cbv beta iota delta [negb].
    unfold mbind, M_bind, print, try_except, run_aplay_version.
    rewrite Hprobe. reflexivity. }
  rewrite (bind_run _ _ _ _ _ Hfirst). cbv beta iota delta [negb].
  rewrite (bind_run _ _ _ _ _ (check_audio_files_pass env w0 Hw0)).
  rewrite bool_decide_eq_true_2 by reflexivity. cbv beta iota delta [negb].
  destruct test_only; reflexivity.
Qed.

(** An announcement on a complete disk, with all that is known of it. *)
Lemma announce_time_complete env now w :
  valid_datetime now -> clock w = to_us now ->
  disk_complete (AUDIO_DIR env) (fs w) ->
  exists files r w1 rest,
    get_audio_files_for_time w = (Ok files, w) /\
    announce_time env w = (r, w1) /\
    footprint w w1 (Print (MsgAnnouncing now) :: rest) /\
    Forall (fun e => is_playback e = true) rest /\
    warned rest = [] /\
    if PYGAME_AVAILABLE env then
      match mixer_init env (S (length (trace w))) with
      | Some e => r = Raise e /\ rest = []
      | None => r = Ok tt
      end
    else r = Ok tt /\ played rest = os_path_join (AUDIO_DIR env) <$> files.
Proof.
  intros Hv Hc [_ Hdisk].
  destruct (resolver_at now w Hv Hc) as (files & Hres & _ & Hsub).
  exists files.
  set (w0 := log (Print (MsgAnnouncing now)) w).
  assert (Hres0 : get_audio_files_for_time w0 = (Ok files, w0)).
  { rewrite (get_audio_files_for_time_reads_clock w w0 eq_refl), Hres. reflexivity. }
  assert (Hpresent : forall p, p ∈ os_path_join (AUDIO_DIR env) <$> files -> p ∈ fs w0).
  { intros p Hp. apply list_elem_of_fmap in Hp. destruct Hp as (f & -> & Hf).
    apply Hdisk, Hsub, Hf. }
  assert (Hann : forall k : list string -> M unit,
    (now' ← datetime_now; print (MsgAnnouncing now') ;;
     audio_files ← get_audio_files_for_time; k audio_files) w = k files w0).
  { intros k. unfold mbind, M_bind.
    rewrite (datetime_now_at now w Hv Hc). unfold print. fold w0.
    rewrite Hres0. reflexivity. }
  assert (Hlen0 : length (trace w0) = S (length (trace w))).
  { unfold w0. cbn [trace log]. rewrite length_app. cbn [length]. lia. }
  unfold announce_time.
  destruct (PYGAME_AVAILABLE env).
  - rewrite (Hann (play_audio_sequence_pygame env)).
    unfold play_audio_sequence_pygame, mbind, M_bind, pygame_mixer_init.
    rewrite Hlen0.
    destruct (mixer_init env (S (length (trace w)))) as [e|] eqn:Hinit.
    + exists (Raise e), w0, []. split; [exact Hres|]. split; [reflexivity|].
      split; [apply footprint_log|]. split; [constructor|].
      split; [reflexivity|]. split; reflexivity.
    + destruct (for_each_pygame_footprint env files w0)
        as (w1 & rest & Hrun & Hfp & Hq & _ & Hw).
      exists (Ok tt), w1, rest. split; [exact Hres|]. split; [exact Hrun|].
      split; [exact (footprint_trans _ _ _ [_] _ (footprint_log _ _) Hfp)|].
      split; [exact Hq|]. split; [|reflexivity].
      rewrite Hw. apply filter_all_false. intros p Hp' Hn. exact (Hn (Hpresent p Hp')).
  - rewrite (Hann (play_audio_sequence_aplay env)).
    destruct (for_each_aplay_footprint env files w0)
      as (w1 & rest & Hrun & Hfp & Hq & Hp & Hw).
    exists (Ok tt), w1, rest. split; [exact Hres|]. split; [exact Hrun|].
    split; [exact (footprint_trans _ _ _ [_] _ (footprint_log _ _) Hfp)|].
    split; [exact Hq|].
    split; [rewrite Hw; apply filter_all_false; intros p Hp' Hn;
            exact (Hn (Hpresent p Hp'))|].
    split; [reflexivity|]. rewrite Hp. apply filter_all_true, Hpresent.
Qed.

(** X10: in test mode, with a backend at hand and every required file
    in place, [run_announcer] makes exactly one announcement, of the
    time of the clock, and returns, whatever the interval: after the
    announcement line (and the pygame warning before it when pygame is
    not there) come playback events only, no sleep, no warning about a
    missing file.  With [aplay] the clips of the resolver are played in
    order; with pygame a failing [pygame.mixer.init()] ends the program
    with its exception, no clip played. *)
Theorem test_mode_announces_once
    (env : environment) (fuel : nat) (interval : Z) (now : datetime) (w : world) :
  valid_datetime now -> clock w = to_us now ->
  disk_complete (AUDIO_DIR env) (fs w) ->
  PYGAME_AVAILABLE env = true \/ aplay_probe env = None ->
  exists r w1 rest,
    run_announcer env fuel interval true w = (r, w1) /\
    footprint w w1 ((if PYGAME_AVAILABLE env then [] else [Print MsgNoPygame])
                    ++ Print (MsgAnnouncing now) :: rest) /\
    Forall (fun e => is_playback e = true) rest /\
    warned rest = [] /\
    if PYGAME_AVAILABLE env then
      match mixer_init env (S (length (trace w))) with
      | Some e => r = Raise e /\ rest = []
      | None => r = Ok Returned
      end
    else
      r = Ok Returned /\
      exists files,
        fst (get_audio_files_for_time w) = Ok files /\
        played rest = os_path_join (AUDIO_DIR env) <$> files.
Proof.
  intros Hv Hc Hdisk Hback.
  rewrite (run_announcer_ready env fuel interval true w Hdisk Hback).
  cbv beta iota zeta.
  destruct (PYGAME_AVAILABLE env) eqn:Hpg.
  - destruct (announce_time_complete env now w Hv Hc Hdisk)
      as (files & r & w1 & rest & _ & Hann & Hfp & Hq & Hw & Hr).
    rewrite Hpg in Hr. unfold mbind, M_bind. rewrite Hann.
    destruct (mixer_init env (S (length (trace w)))) as [e|].
    + destruct Hr as [-> ->]. exists (Raise e), w1, [].
      split; [reflexivity|]. split; [exact Hfp|]. split; [constructor|].
      split; [reflexivity|]. split; reflexivity.
    + subst r. exists (Ok Returned), w1, rest.
      split; [reflexivity|]. split; [exact Hfp|]. split; [exact Hq|].
      split; [exact Hw | reflexivity].
  - set (w0 := log (Print MsgNoPygame) w).
    destruct (announce_time_complete env now w0 Hv Hc Hdisk)
      as (files & r & w1 & rest & Hres & Hann & Hfp & Hq & Hw & Hr).
    rewrite Hpg in Hr. destruct Hr as [-> Hp].
    unfold mbind, M_bind. rewrite Hann.
    exists (Ok Returned), w1, rest. split; [reflexivity|].
    split; [exact (footprint_trans _ _ _ [_] _ (footprint_log _ _) Hfp)|].
    split; [exact Hq|]. split; [exact Hw|]. split; [reflexivity|].
    exists files. split; [|exact Hp].
    rewrite (get_audio_files_for_time_reads_clock w0 w eq_refl), Hres. reflexivity.
Qed.

Lemma test_mode_announces_once_witness :
  (exists w1 rest,
     run_announcer aplay_env 0 30 true ready_world = (Ok Returned, w1) /\
     footprint ready_world w1
       ([Print MsgNoPygame] ++ Print (MsgAnnouncing early_morning) :: rest) /\
     warned rest = []) /\
  (exists w1,
     run_announcer broken_mixer_env 0 30 true ready_world
     = (Raise (BackendError "No available audio device"), w1) /\
     footprint ready_world w1 [Print (MsgAnnouncing early_morning)]).
Proof.
  split.
  - destruct (test_mode_announces_once aplay_env 0 30 early_morning ready_world
                early_morning_valid eq_refl full_disk_complete (or_intror eq_refl))
      as (r & w1 & rest & Hrun & Hfp & _ & Hw & Hr).
    cbn [PYGAME_AVAILABLE aplay_env] in Hfp, Hr. destruct Hr as [-> _].
    exists w1, rest. split; [exact Hrun|]. split; [exact Hfp | exact Hw].
  - destruct (test_mode_announces_once broken_mixer_env 0 30 early_morning ready_world
                early_morning_valid eq_refl full_disk_complete (or_introl eq_refl))
      as (r & w1 & rest & Hrun & Hfp & _ & _ & Hr).
    cbn [PYGAME_AVAILABLE broken_mixer_env mixer_init] in Hfp, Hr.
    destruct Hr as [-> ->]. exists w1. split; [exact Hrun | exact Hfp].
Defined.

(** ** Normal operation *)

(** The loop returns only with the flag down. *)
Lemma main_loop_returned env fuel interval w w1 :
  main_loop env fuel interval w = (Ok Returned, w1) -> running w1 = false.
Proof.
  revert w. induction fuel as [|fuel IH]; intros w; cbn [main_loop];
    unfold mbind at 1, M_bind at 1, get_running at 1;
    destruct (running w) eqn:Hrun.
  - discriminate.
  - intros [= <-]. exact Hrun.
  - unfold mbind, M_bind. destruct (loop_body env interval w) as [[[]|e] w'].
    + apply IH.
    + discriminate.
  - intros [= <-]. exact Hrun.
Qed.

(** X11: in normal mode, with a backend at hand, every required file in
    place and an interval of 15, 30 or 60, [run_announcer] prints its
    banner, announces the time of the clock at once, and then announces
    at tick boundaries only: the times announced are the present time
    followed by boundaries of the interval.  It returns only with the
    flag down, and while it is still looping it has made one
    announcement at startup and one for each turn of the loop. *)
Theorem normal_mode_announces_now_then_on_boundaries
    (env : environment) (fuel : nat) (interval : Z) (now : datetime) (w : world) :
  valid_datetime now -> clock w = to_us now ->
  disk_complete (AUDIO_DIR env) (fs w) ->
  PYGAME_AVAILABLE env = true \/ aplay_probe env = None ->
  interval = 15 \/ interval = 30 \/ interval = 60 ->
  exists r w1 rest boundaries,
    run_announcer env fuel interval false w = (r, w1) /\
    footprint w w1
      ((if PYGAME_AVAILABLE env then [] else [Print MsgNoPygame])
       ++ [Print (MsgStarted interval); Print (MsgAudioDir (AUDIO_DIR env));
           Print MsgPressCtrlC; Print (MsgAnnouncing now)]
       ++ rest) /\
    announcements rest = boundaries /\
    Forall (aligned interval) boundaries /\
    (length boundaries <= fuel)%nat /\
    (r = Ok Returned -> running w1 = false) /\
    (r = Ok Looping -> running w1 = true /\ length boundaries = fuel).
Proof.
  intros Hv Hc Hdisk Hback Hi.
  rewrite (run_announcer_ready env fuel interval false w Hdisk Hback).
  cbv beta iota zeta.
  set (pre := if PYGAME_AVAILABLE env then [] else [Print MsgNoPygame]).
  set (w0 := if PYGAME_AVAILABLE env then w else log (Print MsgNoPygame) w).
  assert (Hfp0 : footprint w w0 pre).
  { unfold w0, pre. destruct (PYGAME_AVAILABLE env);
      [apply footprint_refl | apply footprint_log]. }
  assert (Hc0 : clock w0 = to_us now)
    by (unfold w0; destruct (PYGAME_AVAILABLE env); exact Hc).
  set (w3 := log (Print MsgPressCtrlC)
               (log (Print (MsgAudioDir (AUDIO_DIR env)))
                  (log (Print (MsgStarted interval)) w0))).
  assert (Hfp3 : footprint w0 w3
                   [Print (MsgStarted interval); Print (MsgAudioDir (AUDIO_DIR env));
                    Print MsgPressCtrlC]).
  { exact (footprint_trans _ _ _ [_] [_; _] (footprint_log _ _)
             (footprint_trans _ _ _ [_] [_] (footprint_log _ _) (footprint_log _ _))). }
  assert (Hdisk3 : disk_complete (AUDIO_DIR env) (fs w3)).
  { destruct Hfp3 as (_ & -> & _). destruct Hfp0 as (_ & -> & _). exact Hdisk. }
  assert (Hstart :
    (print (MsgStarted interval) ;; print (MsgAudioDir (AUDIO_DIR env)) ;;
     print MsgPressCtrlC ;; announce_time env ;; main_loop env fuel interval) w0
    = (announce_time env ;; main_loop env fuel interval) w3) by reflexivity.
  rewrite Hstart. clear Hstart.
  destruct (announce_time_complete env now w3 Hv Hc0 Hdisk3)
    as (files & ra & w4 & rest1 & _ & Hann & Hfp4 & Hq & _ & _).
  unfold mbind, M_bind. rewrite Hann.
  assert (Hfp : footprint w w4
                  (pre ++ [Print (MsgStarted interval);
                           Print (MsgAudioDir (AUDIO_DIR env));
                           Print MsgPressCtrlC; Print (MsgAnnouncing now)] ++ rest1)).
  { pose proof (footprint_trans _ _ _ _ _ Hfp0
                  (footprint_trans _ _ _ _ _ Hfp3 Hfp4)) as H.
    exact H. }
  destruct ra as [[]|e].
  - destruct (main_loop_footprint env fuel interval w4 Hi)
      as (r & w5 & evs & Hloop & Hfp5 & Hal & Hlen & Hgo).
    exists r, w5, (rest1 ++ evs), (announcements evs).
    split; [exact Hloop|].
    split.
    { pose proof (footprint_trans _ _ _ _ _ Hfp Hfp5) as H.
      rewrite <- !app_assoc in H. exact H. }
    split; [rewrite announcements_app, (announcements_playback _ Hq); reflexivity|].
    split; [exact Hal|]. split; [exact Hlen|].
    split.
    + intros ->. exact (main_loop_returned _ _ _ _ _ Hloop).
    + intros Hr. destruct (Hgo Hr). split; assumption.
  - exists (Raise e), w4, rest1, [].
    split; [reflexivity|]. split; [exact Hfp|].
    split; [apply announcements_playback, Hq|].
    split; [constructor|]. split; [cbn; lia|].
    split; discriminate.
Qed.

Lemma normal_mode_announces_now_then_on_boundaries_witness :
  exists r w1 rest,
    run_announcer aplay_env 2 15 false ready_world = (r, w1) /\
    Forall (aligned 15) (announcements rest) /\
    (length (announcements rest) <= 2)%nat.
Proof.
  destruct (normal_mode_announces_now_then_on_boundaries aplay_env 2 15 early_morning
              ready_world early_morning_valid eq_refl full_disk_complete
              (or_intror eq_refl) (or_introl eq_refl))
    as (r & w1 & rest & boundaries & Hrun & _ & <- & Hal & Hlen & _).
  exists r, w1, rest. split; [exact Hrun|]. split; [exact Hal | exact Hlen].
Defined.

(** X12: with neither pygame nor a working [aplay], [run_announcer]
    prints the pygame warning and the two lines of advice and returns:
    whatever the disk holds and whatever its arguments, it does not
    create the audio directory, reports no missing file, makes no
    announcement and never sleeps. *)
Theorem no_backend_returns_at_once
    (env : environment) (fuel : nat) (interval : Z) (test_only : bool)
    (w : world) (e : exn) :
  PYGAME_AVAILABLE env = false -> aplay_probe env = Some e ->
  exists w1,
    run_announcer env fuel interval test_only w = (Ok Returned, w1) /\
    trace w1 = trace w ++ [Print MsgNoPygame; Print MsgNoBackend; Print MsgInstallHint] /\
    fs w1 = fs w /\ running w1 = running w /\ clock w1 = clock w.
Proof.
  intros Hpg Hprobe.
  exists (log (Print MsgInstallHint) (log (Print MsgNoBackend) (log (Print MsgNoPygame) w))).
  split.
  - unfold run_announcer. rewrite Hpg. cbv beta iota delta [negb].
    rewrite (bind_run _ _ w false
               (log (Print MsgInstallHint)
                  (log (Print MsgNoBackend) (log (Print MsgNoPygame) w)))).
    + reflexivity.
    + unfold mbind, M_bind, print, try_except, run_aplay_version.
      rewrite Hprobe. reflexivity.
  - cbn [trace log fs running clock]. rewrite <- !app_assoc.
    repeat split.
Qed.

Lemma no_backend_returns_at_once_witness :
  exists w1,
    run_announcer silent_env 5 30 false (world_at early_morning) = (Ok Returned, w1) /\
    fs w1 = ∅.
Proof.
  destruct (no_backend_returns_at_once silent_env 5 30 false (world_at early_morning)
              (BackendError "No such file or directory: aplay") eq_refl eq_refl)
    as (w1 & Hrun & _ & Hfs & _).
  exists w1. split; [exact Hrun | exact Hfs].
Defined.

(** ** What is said at a tick *)

(** X13: at a tick boundary of an interval of 15, 30 or 60 the resolver
    rounds nothing away: the time it announces is the boundary itself,
    hour and minute, and the list has three clips on the hour and four
    otherwise. *)
Theorem boundary_is_announced_exactly (interval : Z) (t : datetime) (w : world) :
  interval = 15 \/ interval = 30 \/ interval = 60 ->
  valid_datetime t -> aligned interval t -> clock w = to_us t ->
  round_minute (hour t) (hour_12_of (hour t)) (minute t)
  = (minute t, hour_12_of (hour t), hour t) /\
  exists files,
    get_audio_files_for_time w = (Ok files, w) /\
    (minute t = 0 -> length files = 3%nat) /\
    (minute t <> 0 -> length files = 4%nat).
Proof.
  intros Hi Hv (Hal & _ & _) Hc.
  pose proof Hv as (_ & _ & Hm & _).
  assert (Hq : minute t = 0 \/ minute t = 15 \/ minute t = 30 \/ minute t = 45).
  { destruct Hi as [->|[->| ->]]; Z.div_mod_to_equations; lia. }
  assert (Hround : round_minute (hour t) (hour_12_of (hour t)) (minute t)
                   = (minute t, hour_12_of (hour t), hour t)).
  { destruct Hq as [->|[->|[->| ->]]]; reflexivity. }
  split; [exact Hround|].
  pose proof (get_audio_files_for_time_run t w Hv Hc) as Hrun.
  rewrite Hround in Hrun.
  destruct Hrun as (ic & p & pc & hc & _ & _ & _ & _ & Hrun).
  destruct Hrun as [[Hz Hrun]|[Hnz (mc & _ & Hrun)]].
  - exists [ic; pc; hc]. split; [exact Hrun|]. split; [reflexivity | intros; lia].
  - exists [ic; pc; hc; mc]. split; [exact Hrun|]. split; [intros; lia | reflexivity].
Qed.

Lemma boundary_is_announced_exactly_witness :
  let t := {| ordinal := 739000; hour := 7; minute := 15; second := 0;
              microsecond := 0 |} in
  round_minute (hour t) (hour_12_of (hour t)) (minute t) = (15, 7, 7).
Proof.
  cbv zeta.
  refine (proj1 (boundary_is_announced_exactly 15
                   {| ordinal := 739000; hour := 7; minute := 15; second := 0;
                      microsecond := 0 |}
                   (world_at {| ordinal := 739000; hour := 7; minute := 15; second := 0;
                                microsecond := 0 |})
                   (or_introl eq_refl) _ _ eq_refl)).
  - apply valid_datetimeb_spec. reflexivity.
  - repeat split.
Defined.

(** ** The footprint of the whole program *)

Lemma footprint_logs evs w : footprint w (logs evs w) evs.
Proof. unfold footprint. repeat split; auto. Qed.

(** The check may create the audio directory, and touches nothing else. *)
Lemma check_audio_files_world env w :
  exists w1 missing pre,
    check_audio_files env w = (Ok missing, w1) /\
    trace w1 = trace w ++ pre /\
    running w1 = running w /\
    (fs w1 = fs w \/
     ((AUDIO_DIR env ∉ fs w) /\ makedirs_outcome env = None /\
      fs w1 = {[ AUDIO_DIR env ]} ∪ fs w)).
Proof.
  unfold check_audio_files.
  generalize (dict_values AUDIO_FILES) as required. intros required.
  unfold mbind at 1, M_bind at 1, os_path_exists at 1.
  destruct (bool_decide (AUDIO_DIR env ∈ fs w)) eqn:Hdir;
    cbv beta iota zeta delta [negb].
  - eexists w, _, []. split.
    { unfold mbind, M_bind, mret, M_ret. apply collect_missing_run. }
    rewrite app_nil_r. repeat split. left. reflexivity.
  - apply bool_decide_eq_false_1 in Hdir.
    unfold try_except, os_makedirs, mbind, M_bind, print, mret, M_ret.
    destruct (makedirs_outcome env) as [e|] eqn:Hmk; cbv beta iota zeta.
    + eexists _, _, [_]. split; [reflexivity|].
      split; [reflexivity|]. split; [reflexivity|]. left. reflexivity.
    + rewrite collect_missing_run.
      eexists _, _, [_]. split; [reflexivity|].
      split; [reflexivity|]. split; [reflexivity|].
      right. split; [exact Hdir|]. split; reflexivity.
Qed.

(** X14: whatever its arguments (interval 15, 30 or 60) and whatever
    the machine does, [run_announcer] only adds to the trace, never puts
    the flag [running] back up once it is down, and leaves the files as
    they are, except that it may create the audio directory when that
    is missing; and it is still looping only in normal mode with the
    flag up. *)
Theorem run_announcer_footprint
    (env : environment) (fuel : nat) (interval : Z) (test_only : bool) (w : world) :
  interval = 15 \/ interval = 30 \/ interval = 60 ->
  exists r w1 evs,
    run_announcer env fuel interval test_only w = (r, w1) /\
    trace w1 = trace w ++ evs /\
    (running w1 = true -> running w = true) /\
    (fs w1 = fs w \/
     ((AUDIO_DIR env ∉ fs w) /\ makedirs_outcome env = None /\
      fs w1 = {[ AUDIO_DIR env ]} ∪ fs w)) /\
    (forall p, p ∈ fs w -> p ∈ fs w1) /\
    (r = Ok Looping -> test_only = false /\ running w1 = true).
Proof.
  intros Hi.
  assert (Hgrow : forall w1,
    fs w1 = fs w \/
    ((AUDIO_DIR env ∉ fs w) /\ makedirs_outcome env = None /\
     fs w1 = {[ AUDIO_DIR env ]} ∪ fs w) ->
    forall p, p ∈ fs w -> p ∈ fs w1).
  { intros w1 [->|(_ & _ & ->)] p Hp; [exact Hp|]. apply elem_of_union. right. exact Hp. }
  assert (Hrest : forall w0 pre0,
    footprint w w0 pre0 ->
    exists r w1 evs,
      (check_audio_files env ≫= fun missing_files =>
         if negb (bool_decide (missing_files = [])) then
           report_missing env missing_files ;; mret Returned
         else if test_only then announce_time env ;; mret Returned
         else
           print (MsgStarted interval) ;;
           print (MsgAudioDir (AUDIO_DIR env)) ;;
           print MsgPressCtrlC ;;
           announce_time env ;;
           main_loop env fuel interval) w0 = (r, w1) /\
      trace w1 = trace w ++ evs /\
      (running w1 = true -> running w = true) /\
      (fs w1 = fs w \/
       ((AUDIO_DIR env ∉ fs w) /\ makedirs_outcome env = None /\
        fs w1 = {[ AUDIO_DIR env ]} ∪ fs w)) /\
      (r = Ok Looping -> test_only = false /\ running w1 = true)).
  { intros w0 pre0 (Htr0 & Hfs0 & Hr0).
    destruct (check_audio_files_world env w0)
      as (wc & missing & prec & Hchk & Htrc & Hrc & Hfsc).
    rewrite Hfs0 in Hfsc.
    rewrite (bind_run _ _ _ _ _ Hchk).
    assert (Hfinish : forall (r : result status) w2 evs2,
      footprint wc w2 evs2 ->
      (r = Ok Looping -> test_only = false /\ running w2 = true) ->
      exists r' w1 evs,
        (r, w2) = (r', w1) /\
        trace w1 = trace w ++ evs /\
        (running w1 = true -> running w = true) /\
        (fs w1 = fs w \/
         ((AUDIO_DIR env ∉ fs w) /\ makedirs_outcome env = None /\
          fs w1 = {[ AUDIO_DIR env ]} ∪ fs w)) /\
        (r' = Ok Looping -> test_only = false /\ running w1 = true)).
    { intros r w2 evs2 (Htr2 & Hfs2 & Hr2) Hloop.
      exists r, w2, (pre0 ++ prec ++ evs2). split; [reflexivity|].
      split; [rewrite Htr2, Htrc, Htr0, <- !app_assoc; reflexivity|].
      split; [intros Hup; apply Hr0; rewrite <- Hrc; apply Hr2, Hup|].
      split; [rewrite Hfs2; exact Hfsc | exact Hloop]. }
    destruct (bool_decide (missing = [])); cbv beta iota delta [negb].
    - destruct test_only.
      + destruct (announce_time_footprint env wc) as (ra & w2 & rest & Hann & Hfp & _).
        unfold mbind, M_bind. rewrite Hann.
        destruct ra as [[]|e];
          (eapply Hfinish; [exact Hfp | discriminate]).
      + set (w3 := log (Print MsgPressCtrlC)
                     (log (Print (MsgAudioDir (AUDIO_DIR env)))
                        (log (Print (MsgStarted interval)) wc))).
        assert (Hfp3 : footprint wc w3
                         [Print (MsgStarted interval);
                          Print (MsgAudioDir (AUDIO_DIR env)); Print MsgPressCtrlC]).
        { exact (footprint_trans _ _ _ [_] [_; _] (footprint_log _ _)
                   (footprint_trans _ _ _ [_] [_] (footprint_log _ _)
                      (footprint_log _ _))). }
        change ((print (MsgStarted interval) ;; print (MsgAudioDir (AUDIO_DIR env)) ;;
                 print MsgPressCtrlC ;; announce_time env ;;
                 main_loop env fuel interval) wc)
          with ((announce_time env ;; main_loop env fuel interval) w3).
        destruct (announce_time_footprint env w3) as (ra & w4 & rest & Hann & Hfp4 & _).
        unfold mbind, M_bind. rewrite Hann.
        destruct ra as [[]|e].
        * destruct (main_loop_footprint env fuel interval w4 Hi)
            as (r & w5 & evs & Hloop & Hfp5 & _ & _ & Hgo).
          rewrite Hloop.
          eapply Hfinish;
            [exact (footprint_trans _ _ _ _ _ Hfp3 (footprint_trans _ _ _ _ _ Hfp4 Hfp5))|].
          intros Hr. destruct (Hgo Hr). split; [reflexivity | assumption].
        * eapply Hfinish;
            [exact (footprint_trans _ _ _ _ _ Hfp3 Hfp4) | discriminate].
    - rewrite (bind_run _ _ _ _ _ (report_missing_run env missing wc)).
      eapply Hfinish; [apply footprint_logs | discriminate]. }
  assert (Hwrap : forall w0 pre0,
    footprint w w0 pre0 ->
    forall r w1 evs,
      trace w1 = trace w ++ evs /\
      (running w1 = true -> running w = true) /\
      (fs w1 = fs w \/
       ((AUDIO_DIR env ∉ fs w) /\ makedirs_outcome env = None /\
        fs w1 = {[ AUDIO_DIR env ]} ∪ fs w)) /\
      (r = Ok Looping -> test_only = false /\ running w1 = true) ->
      trace w1 = trace w ++ evs /\
      (running w1 = true -> running w = true) /\
      (fs w1 = fs w \/
       ((AUDIO_DIR env ∉ fs w) /\ makedirs_outcome env = None /\
        fs w1 = {[ AUDIO_DIR env ]} ∪ fs w)) /\
      (forall p, p ∈ fs w -> p ∈ fs w1) /\
      (r = Ok Looping -> test_only = false /\ running w1 = true)).
  { intros w0 pre0 _ r w1 evs (Ha & Hb & Hc & Hd).
    split; [exact Ha|]. split; [exact Hb|]. split; [exact Hc|].
    split; [exact (Hgrow w1 Hc) | exact Hd]. }
  unfold run_announcer.
  destruct (PYGAME_AVAILABLE env) eqn:Hpg; cbv beta iota delta [negb].
  - rewrite (bind_run _ _ w true w) by reflexivity. cbv beta iota delta [negb].
    destruct (Hrest w [] (footprint_refl w)) as (r & w1 & evs & Hrun & H).
    exists r, w1, evs. split; [exact Hrun|].
    exact (Hwrap w [] (footprint_refl w) r w1 evs H).
  - destruct (aplay_probe env) as [e|] eqn:Hprobe.
    + rewrite (bind_run _ _ w false
                 (log (Print MsgInstallHint)
                    (log (Print MsgNoBackend) (log (Print MsgNoPygame) w)))).
      2:{ unfold mbind, M_bind, print, try_except, run_aplay_version.
          rewrite Hprobe. reflexivity. }
      cbv beta iota delta [negb].
      eexists _, _, [Print MsgNoPygame; Print MsgNoBackend; Print MsgInstallHint].
      split; [reflexivity|].
      split; [cbn [trace log]; rewrite <- !app_assoc; reflexivity|].
      split; [auto|]. split; [left; reflexivity|]. split; [auto | discriminate].
    + rewrite (bind_run _ _ w true (log (Print MsgNoPygame) w)).
      2:{ unfold mbind, M_bind, print, try_except, run_aplay_version.
          rewrite Hprobe. reflexivity. }
      cbv beta iota delta [negb].
      destruct (Hrest _ _ (footprint_log (Print MsgNoPygame) w))
        as (r & w1 & evs & Hrun & H).
      exists r, w1, evs. split; [exact Hrun|].
      exact (Hwrap _ _ (footprint_log (Print MsgNoPygame) w) r w1 evs H).
Qed.

Lemma run_announcer_footprint_witness :
  exists r w1,
    run_announcer sample_env 3 30 false (world_at early_morning) = (r, w1) /\
    (fs w1 = ∅ \/ fs w1 = {[ AUDIO_DIR sample_env ]} ∪ ∅).
Proof.
  destruct (run_announcer_footprint sample_env 3 30 false (world_at early_morning)
              (or_intror (or_introl eq_refl)))
    as (r & w1 & evs & Hrun & _ & _ & Hfs & _).
  exists r, w1. split; [exact Hrun|].
  destruct Hfs as [Hfs|(_ & _ & Hfs)]; [left | right]; exact Hfs.
Defined.
